(** * adas-video-compresor: the conversion core, embedded and verified

    A shallow embedding of [converter.py] (progress parsing, duration probe,
    conversion orchestration), of the percent clamp of [progress.py] and of
    the file discovery of [utils.py].

    Modelling conventions.
    - Python [float] is IEEE-754 binary64: [spec_float] of the standard
      library with [prec = 53] and [emax = 1024], every operation rounding to
      nearest-even as CPython does.  The integer [0] that the source uses
      where a float is expected ([percent = 0], [return 0]) is the float [+0].
    - Python [int] is [Z].
    - Python [str] is [string]; characters are the 8-bit characters of
      [ascii], so the classes [\d] and [\s] and the methods [strip], [lower]
      are the restrictions of Python's to code points below 256.
    - An exception is a value of [exn]; code that can raise returns
      [result A].  Only subclasses of [Exception] are modelled.
    - The operating system (file system, subprocesses, the progress sink) is
      an explicit [World] that the orchestrator reads and a [State] that it
      threads. *)

From Stdlib Require Import ZArith String Ascii List Bool Lia Permutation Sorted.
From Stdlib Require Import DecimalString Floats.SpecFloat.
From stdpp Require Import base option list gmap strings.

Import ListNotations.
Local Open Scope Z_scope.
Local Open Scope string_scope.

(** ** Exceptions *)

Module Py.

(** The exception classes the embedded code meets.  [OSError] stands for its
    subclasses too ([FileNotFoundError], [PermissionError]). *)
Inductive exn_class : Type :=
  | ValueError
  | IndexError
  | OverflowError
  | ZeroDivisionError
  | OSError
  | RuntimeError.

(** An exception: its class and [str(e)]. *)
Record exn : Type := Exn { exn_cls : exn_class; exn_str : string }.

Inductive result (A : Type) : Type :=
  | Ok (a : A)
  | Raise (e : exn).
Arguments Ok {A} a.
Arguments Raise {A} e.

Definition bind {A B : Type} (c : result A) (k : A -> result B) : result B :=
  match c with
  | Ok a => k a
  | Raise e => Raise e
  end.

Definition exn_class_eqb (a b : exn_class) : bool :=
  match a, b with
  | ValueError, ValueError | IndexError, IndexError
  | OverflowError, OverflowError | ZeroDivisionError, ZeroDivisionError
  | OSError, OSError | RuntimeError, RuntimeError => true
  | _, _ => false
  end.

(** [try: body except (c1, c2, ...): handler]. *)
Definition try_except {A : Type} (body : result A) (classes : list exn_class)
    (handler : exn -> result A) : result A :=
  match body with
  | Ok a => Ok a
  | Raise e =>
      if existsb (exn_class_eqb (exn_cls e)) classes then handler e else Raise e
  end.

(** [try: body except Exception as e: handler]. *)
Definition try_except_Exception {A : Type} (body : result A)
    (handler : exn -> result A) : result A :=
  match body with
  | Ok a => Ok a
  | Raise e => handler e
  end.


End Py.

Notation "'let!' x ':=' c 'in' k" := (Py.bind c (fun x => k))
  (at level 10, x name, c at level 100, k at level 200).

(** ** Floats: IEEE-754 binary64 *)

Module PyFloat.

Definition prec : Z := 53.
Definition emax : Z := 1024.

Definition float : Type := spec_float.

Definition zero : float := S754_zero false.
Definition nan : float := S754_nan.
Definition inf : float := S754_infinity false.

Definition add : float -> float -> float := SFadd prec emax.
Definition sub : float -> float -> float := SFsub prec emax.
Definition mul : float -> float -> float := SFmul prec emax.
Definition ltb : float -> float -> bool := SFltb.
Definition leb : float -> float -> bool := SFleb.
Definition eqb : float -> float -> bool := SFeqb.
(** [x > y] *)
Definition gtb (x y : float) : bool := SFltb y x.

(** An integer as an exact, not normalised, operand of a rounding
    operation. *)
Definition exact (z : Z) : float :=
  match z with
  | Z0 => S754_zero false
  | Zpos p => S754_finite false p 0
  | Zneg p => S754_finite true p 0
  end.

(** The nearest float of an integer (ties to even), [+inf] or [-inf] past the
    largest float. *)
Definition round_Z (z : Z) : float := binary_normalize prec emax z 0 false.

(** The float of an integer constant of the source. *)
Definition of_int (z : Z) : float := round_Z z.

(** [float(n)] for an [int], as the mixed arithmetic [n + x] does it:
    [OverflowError] when [n] is past the largest float. *)
Definition float_of_int (z : Z) : Py.result float :=
  match round_Z z with
  | S754_infinity _ =>
      Py.Raise (Py.Exn Py.OverflowError "int too large to convert to float")
  | f => Py.Ok f
  end.

Definition is_zero (x : float) : bool :=
  match x with S754_zero _ => true | _ => false end.

Definition is_nan (x : float) : bool :=
  match x with S754_nan => true | _ => false end.

Definition is_finite (x : float) : bool :=
  match x with S754_zero _ | S754_finite _ _ _ => true | _ => false end.

(** [x / y] on floats. *)
Definition truediv (x y : float) : Py.result float :=
  if is_zero y
  then Py.Raise (Py.Exn Py.ZeroDivisionError "float division by zero")
  else Py.Ok (SFdiv prec emax x y).

(** [a / b] on ints: the correctly rounded quotient. *)
Definition int_truediv (a b : Z) : Py.result float :=
  if Z.eqb b 0
  then Py.Raise (Py.Exn Py.ZeroDivisionError "division by zero")
  else
    match SFdiv prec emax (exact a) (exact b) with
    | S754_infinity _ =>
        Py.Raise (Py.Exn Py.OverflowError
                    "integer division result too large for a float")
    | f => Py.Ok f
    end.

(** [min(x, y)]: the first argument unless the second is smaller. *)
Definition min (x y : float) : float := if ltb y x then y else x.
(** [max(x, y)]: the first argument unless the second is larger. *)
Definition max (x y : float) : float := if ltb x y then y else x.

(** A non-negative magnitude [m * 2^e] with sign [s], rounded. *)
Definition of_scaled (s : bool) (m : Z) (e : Z) : float :=
  match m with
  | Zpos p => binary_round prec emax s p e
  | _ => S754_zero s
  end.

Definition sign_of (x : float) : bool :=
  match x with
  | S754_zero s | S754_infinity s | S754_finite s _ _ => s
  | S754_nan => false
  end.

(** C's [fmod]: the exact remainder of the truncated division, with the sign
    of [x]. *)
Definition fmod (x y : float) : float :=
  match x, y with
  | S754_nan, _ | _, S754_nan => S754_nan
  | S754_infinity _, _ => S754_nan
  | _, S754_zero _ => S754_nan
  | S754_zero _, _ => x
  | S754_finite _ _ _, S754_infinity _ => x
  | S754_finite sx mx ex, S754_finite _ my ey =>
      let e := Z.min ex ey in
      let X := Z.shiftl (Zpos mx) (ex - e) in
      let Y := Z.shiftl (Zpos my) (ey - e) in
      of_scaled sx (X mod Y) e
  end.

(** C's [floor]. *)
Definition floor (x : float) : float :=
  match x with
  | S754_finite s m e =>
      if Z.leb 0 e then x
      else
        let q := Z.shiftr (Zpos m) (- e) in
        let whole := Z.eqb (Z.shiftl q (- e)) (Zpos m) in
        if s then of_scaled true (if whole then q else q + 1) 0
        else of_scaled false q 0
  | _ => x
  end.

(** C's [copysign(0.0, x)]. *)
Definition copysign_zero (x : float) : float := S754_zero (sign_of x).

(** CPython's [_float_div_mod]: the pair [(x // y, x % y)] for [y <> 0]. *)
Definition float_div_mod (vx wx : float) : float * float :=
  let mod0 := fmod vx wx in
  let div0 := SFdiv prec emax (sub vx mod0) wx in
  let '(md, dv) :=
    if negb (is_zero mod0) then
      if negb (Bool.eqb (ltb wx zero) (ltb mod0 zero))
      then (add mod0 wx, sub div0 (of_int 1))
      else (mod0, div0)
    else (copysign_zero wx, div0) in
  let floordiv :=
    if negb (is_zero dv) then
      let fl := floor dv in
      if gtb (sub dv fl) (SFdiv prec emax (of_int 1) (of_int 2))
      then add fl (of_int 1) else fl
    else copysign_zero (SFdiv prec emax vx wx) in
  (floordiv, md).

(** [x // y] on floats. *)
Definition floordiv (x y : float) : Py.result float :=
  if is_zero y
  then Py.Raise (Py.Exn Py.ZeroDivisionError "float floor division by zero")
  else Py.Ok (fst (float_div_mod x y)).

(** [x % y] on floats (CPython's [float_rem]). *)
Definition modulo (x y : float) : Py.result float :=
  if is_zero y
  then Py.Raise (Py.Exn Py.ZeroDivisionError "float modulo by zero")
  else
    let mod0 := fmod x y in
    Py.Ok
      (if negb (is_zero mod0) then
         if negb (Bool.eqb (ltb y zero) (ltb mod0 zero))
         then add mod0 y else mod0
       else copysign_zero y).

(** [int(x)]: truncation towards zero. *)
Definition int_of_float (x : float) : Py.result Z :=
  match x with
  | S754_nan =>
      Py.Raise (Py.Exn Py.ValueError "cannot convert float NaN to integer")
  | S754_infinity _ =>
      Py.Raise (Py.Exn Py.OverflowError
                  "cannot convert float infinity to integer")
  | S754_zero _ => Py.Ok 0
  | S754_finite s m e =>
      let a := if Z.leb 0 e then Z.shiftl (Zpos m) e
               else Z.shiftr (Zpos m) (- e) in
      Py.Ok (if s then - a else a)
  end.

End PyFloat.

(** ** Strings *)

Module PyStr.

Definition code (c : ascii) : N := N_of_ascii c.

Definition in_range (lo hi : N) (c : ascii) : bool :=
  (N.leb lo (code c) && N.leb (code c) hi)%bool.

(** [str.isspace] on one character, which is also the class [\s] of [re]:
    code points 9-13, 28-32, 133 and 160. *)
Definition isspace (c : ascii) : bool :=
  (in_range 9 13 c || in_range 28 32 c
   || N.eqb (code c) 133 || N.eqb (code c) 160)%bool.

(** The characters [int()] and [float()] skip around a numeral: code points
    9-13, 32, 133 and 160 (not 28-31). *)
Definition is_numeral_space (c : ascii) : bool :=
  (in_range 9 13 c || N.eqb (code c) 32
   || N.eqb (code c) 133 || N.eqb (code c) 160)%bool.

(** The class [\d] of [re], and the digits of [int()] and [float()]. *)
Definition isdigit (c : ascii) : bool := in_range 48 57 c.

(** The class [[\d.]]. *)
Definition isdigit_or_dot (c : ascii) : bool :=
  (isdigit c || N.eqb (code c) 46)%bool.

Definition digit_value (c : ascii) : Z := Z.of_N (code c) - 48.

(** [str.lower] on one character: A-Z and the capital letters 192-222
    (without 215, the multiplication sign) move up by 32. *)
Definition lower_char (c : ascii) : ascii :=
  if (in_range 65 90 c
      || (in_range 192 222 c && negb (N.eqb (code c) 215)))%bool
  then ascii_of_N (code c + 32)
  else c.

Fixpoint lower (s : string) : string :=
  match s with
  | EmptyString => EmptyString
  | String c r => String (lower_char c) (lower r)
  end.

Fixpoint lstrip_by (p : ascii -> bool) (s : string) : string :=
  match s with
  | EmptyString => EmptyString
  | String c r => if p c then lstrip_by p r else s
  end.

Fixpoint rstrip_by (p : ascii -> bool) (s : string) : string :=
  match s with
  | EmptyString => EmptyString
  | String c r =>
      match rstrip_by p r with
      | EmptyString => if p c then EmptyString else String c EmptyString
      | r' => String c r'
      end
  end.

Definition strip_by (p : ascii -> bool) (s : string) : string :=
  rstrip_by p (lstrip_by p s).

(** [s.strip()] *)
Definition strip (s : string) : string := strip_by isspace s.

(** [s.split(sep)] for a one-character separator: never the empty list. *)
Fixpoint split (sep : ascii) (s : string) : list string :=
  match s with
  | EmptyString => [EmptyString]
  | String c r =>
      if Ascii.eqb c sep then EmptyString :: split sep r
      else
        match split sep r with
        | [] => [String c EmptyString]
        | w :: ws => String c w :: ws
        end
  end.

(** [s.startswith(p)] *)
Definition startswith (p s : string) : bool := String.prefix p s.

(** [s.replace(c, '')] for a one-character [c]. *)
Fixpoint remove_char (x : ascii) (s : string) : string :=
  match s with
  | EmptyString => EmptyString
  | String c r =>
      if Ascii.eqb c x then remove_char x r else String c (remove_char x r)
  end.

(** [''.join(l)] *)
Definition join (l : list string) : string := String.concat "" l.

(** [s[:n]] *)
Definition take (n : nat) (s : string) : string := String.substring 0 n s.

(** [l[-n:]] on a list. *)
Definition last_n {A : Type} (n : nat) (l : list A) : list A :=
  skipn (List.length l - n) l.

(** [l[i]]: [IndexError] out of range. *)
Definition index {A : Type} (l : list A) (i : nat) : Py.result A :=
  match nth_error l i with
  | Some a => Py.Ok a
  | None => Py.Raise (Py.Exn Py.IndexError "list index out of range")
  end.

(** The longest prefix of [s] in the class [p], and the rest. *)
Fixpoint span (p : ascii -> bool) (s : string) : string * string :=
  match s with
  | EmptyString => (EmptyString, EmptyString)
  | String c r =>
      if p c then let '(a, b) := span p r in (String c a, b)
      else (EmptyString, s)
  end.

(** [s] without the prefix [p], when it starts with it. *)
Fixpoint strip_prefix (p s : string) : option string :=
  match p, s with
  | EmptyString, _ => Some s
  | String a p', String b s' =>
      if Ascii.eqb a b then strip_prefix p' s' else None
  | String _ _, EmptyString => None
  end.

(** The value of a string of decimal digits, most significant first. *)
Fixpoint digits_value (acc : Z) (s : string) : Z :=
  match s with
  | EmptyString => acc
  | String c r => digits_value (acc * 10 + digit_value c) r
  end.

(** A digit part, [digit (["_"] digit)*], after its first digit: the value,
    or [None] when the text is not one. *)
Fixpoint digitpart_rest (acc : Z) (after_underscore : bool) (s : string)
    : option Z :=
  match s with
  | EmptyString => if after_underscore then None else Some acc
  | String c r =>
      if isdigit c then digitpart_rest (acc * 10 + digit_value c) false r
      else if (Ascii.eqb c "_" && negb after_underscore)%bool
           then digitpart_rest acc true r
           else None
  end.

Definition digitpart (s : string) : option Z :=
  match s with
  | String c r => if isdigit c then digitpart_rest (digit_value c) false r
                  else None
  | EmptyString => None
  end.

Definition split_sign (s : string) : bool * string :=
  match s with
  | String "-" r => (true, r)
  | String "+" r => (false, r)
  | _ => (false, s)
  end.

Definition invalid_literal (what : string) : Py.exn :=
  Py.Exn Py.ValueError what.

(** [int(s)]: blanks around, an optional sign, a digit part.  The
    interpreter's limit on the number of digits (a [ValueError] as well) is
    not modelled. *)
Definition int_of_str (s : string) : Py.result Z :=
  let '(neg, body) := split_sign (strip_by is_numeral_space s) in
  match digitpart body with
  | Some n => Py.Ok (if neg then - n else n)
  | None => Py.Raise (invalid_literal "invalid literal for int() with base 10")
  end.

(** The rule of [float()] on underscores: one may stand only between two
    digits.  Returns the text without them. *)
Fixpoint drop_underscores (prev : option ascii) (s : string) : option string :=
  match s with
  | EmptyString =>
      match prev with
      | Some "_"%char => None
      | _ => Some EmptyString
      end
  | String c r =>
      if Ascii.eqb c "_" then
        match prev with
        | Some p => if isdigit p then drop_underscores (Some c) r else None
        | None => None
        end
      else
        match prev with
        | Some "_"%char =>
            if isdigit c
            then option_map (String c) (drop_underscores (Some c) r)
            else None
        | _ => option_map (String c) (drop_underscores (Some c) r)
        end
  end.

(** The exponent part: nothing, or [e] or [E], an optional sign and at least
    one digit, up to the end of the text. *)
Definition exponent_part (s : string) : option Z :=
  match s with
  | EmptyString => Some 0
  | String c r =>
      if (Ascii.eqb c "e" || Ascii.eqb c "E")%bool then
        let '(neg, ds) := split_sign r in
        match span isdigit ds with
        | (String d ds', EmptyString) =>
            let n := digits_value 0 (String d ds') in
            Some (if neg then - n else n)
        | _ => None
        end
      else None
  end.

(** The float nearest to [d * 10^e] for [d > 0]. *)
Definition decimal_to_float (d e : Z) : PyFloat.float :=
  if Z.leb 0 e then PyFloat.round_Z (d * 10 ^ e)
  else SFdiv PyFloat.prec PyFloat.emax
         (PyFloat.exact d) (PyFloat.exact (10 ^ (- e))).

(** An unsigned decimal numeral: digits, an optional point and digits (one
    digit at least), an optional exponent. *)
Definition float_of_numeral (s : string) : option PyFloat.float :=
  let '(ip, r1) := span isdigit s in
  let '(fp, r2) :=
    match r1 with
    | String "." r => span isdigit r
    | _ => (EmptyString, r1)
    end in
  match (ip ++ fp)%string with
  | EmptyString => None
  | ds =>
      match exponent_part r2 with
      | None => None
      | Some x =>
          let d := digits_value 0 ds in
          if Z.eqb d 0 then Some PyFloat.zero
          else Some (decimal_to_float d (x - Z.of_nat (String.length fp)))
      end
  end.

(** [float(s)]: blanks around, underscores between digits, an optional sign,
    then [inf], [infinity] or [nan] in any case, or a decimal numeral. *)
Definition float_of_str (s : string) : Py.result PyFloat.float :=
  let bad := Py.Raise (invalid_literal "could not convert string to float") in
  match drop_underscores None (strip_by is_numeral_space s) with
  | None => bad
  | Some t =>
      let '(neg, body) := split_sign t in
      let signed (x : PyFloat.float) :=
        if neg then SFopp x else x in
      let low := lower body in
      if (String.eqb low "inf" || String.eqb low "infinity")%bool
      then Py.Ok (signed PyFloat.inf)
      else if String.eqb low "nan" then Py.Ok PyFloat.nan
      else
        match float_of_numeral body with
        | Some x => Py.Ok (signed x)
        | None => bad
        end
  end.

(** The decimal digits of a natural number. *)
Definition decimal (n : N) : string :=
  DecimalString.NilZero.string_of_uint (N.to_uint n).

Fixpoint zeros (n : nat) : string :=
  match n with
  | O => EmptyString
  | S k => String "0" (zeros k)
  end.

(** [f"{z:02d}"]: the sign, then the digits padded with zeros to two
    characters in all. *)
Definition format_02d (z : Z) : string :=
  let ds := decimal (Z.to_N (Z.abs z)) in
  let sg := if Z.ltb z 0 then "-" else "" in
  (sg ++ zeros (2 - String.length sg - String.length ds) ++ ds)%string.

End PyStr.

(** ** The three regular expressions of the parser

    [re.search] tries the pattern at every position from the left and keeps
    the first match.  Each pattern below is deterministic: its repeated
    classes are followed by a character outside the class, so the greedy
    match is the only one. *)

Module Re.

Import PyStr.

Fixpoint search {A : Type} (m : string -> option A) (s : string) : option A :=
  match m s with
  | Some g => Some g
  | None =>
      match s with
      | EmptyString => None
      | String _ r => search m r
      end
  end.

(** [(\d{2})] *)
Definition two_digits (s : string) : option (string * string) :=
  match s with
  | String a (String b r) =>
      if (isdigit a && isdigit b)%bool
      then Some (String a (String b EmptyString), r)
      else None
  | _ => None
  end.

(** One given character. *)
Definition expect (c : ascii) (s : string) : option string :=
  match s with
  | String a r => if Ascii.eqb a c then Some r else None
  | EmptyString => None
  end.

(** A non-empty greedy run of the class [p]: [([p]+)]. *)
Definition run1 (p : ascii -> bool) (s : string) : option (string * string) :=
  match span p s with
  | (EmptyString, _) => None
  | (g, r) => Some (g, r)
  end.

(** [time=(\d{2}):(\d{2}):(\d{2})\.(\d+)] at the start of [s]: the four
    groups. *)
Definition match_time (s : string)
    : option (string * string * string * string) :=
  r0 ← strip_prefix "time=" s;
  '(g1, r1) ← two_digits r0;
  r2 ← expect ":" r1;
  '(g2, r3) ← two_digits r2;
  r4 ← expect ":" r3;
  '(g3, r5) ← two_digits r4;
  r6 ← expect "." r5;
  '(g4, _) ← run1 isdigit r6;
  Some (g1, g2, g3, g4).

(** [speed=\s*([\d.]+)x] at the start of [s]: the group. *)
Definition match_speed (s : string) : option string :=
  r0 ← strip_prefix "speed=" s;
  '(g, r1) ← run1 isdigit_or_dot (lstrip_by isspace r0);
  _ ← expect "x" r1;
  Some g.

(** [fps=\s*([\d.]+)] at the start of [s]: the group. *)
Definition match_fps (s : string) : option string :=
  r0 ← strip_prefix "fps=" s;
  '(g, _) ← run1 isdigit_or_dot (lstrip_by isspace r0);
  Some g.

End Re.

(** ** converter.py: the progress line parser *)

Import PyFloat.

Record ConversionProgress : Type := mkConversionProgress {
  percent : float;
  speed : string;
  fps : string;
  eta : string;
  current_time : float;
  total_duration : float
}.

(** The three lines that render a remaining time, the same in
    [parse_ffmpeg_progress] and in the loop of [convert_video]:
    [mins = int(remaining // 60)], [secs = int(remaining % 60)],
    [f"{mins:02d}:{secs:02d}"]. *)
Definition format_eta (remaining : float) : Py.result string :=
  let! q := floordiv remaining (of_int 60) in
  let! mins := int_of_float q in
  let! r := modulo remaining (of_int 60) in
  let! secs := int_of_float r in
  Py.Ok (PyStr.format_02d mins ++ ":" ++ PyStr.format_02d secs).

(** The block that computes [eta] in [parse_ffmpeg_progress]:
    [eta = ""], then under [if total_duration > 0 and speed_match] the
    [try ... except ValueError: pass]. *)
Definition eta_text (total_duration current_time : float)
    (speed_match : option string) : Py.result string :=
  match speed_match with
  | Some g =>
      if gtb total_duration zero then
        Py.try_except
          (let! speed_val := PyStr.float_of_str g in
           if gtb speed_val zero then
             let! remaining_time :=
               truediv (sub total_duration current_time) speed_val in
             if gtb remaining_time zero
             then format_eta remaining_time
             else Py.Ok ""
           else Py.Ok "")
          [Py.ValueError]
          (fun _ => Py.Ok "")
      else Py.Ok ""
  | None => Py.Ok ""
  end.

Definition parse_ffmpeg_progress (line : string) (total_duration : float)
    : Py.result (option ConversionProgress) :=
  match Re.search Re.match_time line with
  | None => Py.Ok None
  | Some (g1, g2, g3, g4) =>
      let! hours := PyStr.int_of_str g1 in
      let! minutes := PyStr.int_of_str g2 in
      let! seconds := PyStr.int_of_str g3 in
      let! centiseconds :=
        if Nat.leb 2 (String.length g4)
        then PyStr.int_of_str (PyStr.take 2 g4)
        else Py.Ok 0 in
      let! fraction := int_truediv centiseconds 100 in
      let! whole := float_of_int (hours * 3600 + minutes * 60 + seconds) in
      let current_time := add whole fraction in
      let! percent :=
        if gtb total_duration zero then
          let! ratio := truediv current_time total_duration in
          Py.Ok (min (mul ratio (of_int 100)) (of_int 100))
        else Py.Ok zero in
      let speed_match := Re.search Re.match_speed line in
      let speed :=
        match speed_match with
        | Some g => (g ++ "x")%string
        | None => ""
        end in
      let fps :=
        match Re.search Re.match_fps line with
        | Some g => g
        | None => ""
        end in
      let! eta := eta_text total_duration current_time speed_match in
      Py.Ok (Some (mkConversionProgress
                     percent speed fps eta current_time total_duration))
  end.

(** ** converter.py: the two stream readers

    The progress sink is the caller's [progress_callback].  It is any
    callable, so it may raise; what it does is a function of the events the
    same reader handed to it before and of the event it is called with.  The
    events are recorded as they are when the sink is called. *)

Definition Sink : Type :=
  list ConversionProgress -> ConversionProgress -> Py.result unit.

(** The state of one reader: the object bound to [last_progress] (the reader
    of the diagnostic stream never binds it) and the events handed to the
    sink so far, oldest first. *)
Record Reader : Type := mkReader {
  last_progress : option ConversionProgress;
  delivered : list ConversionProgress
}.

Definition new_reader : Reader := mkReader None [].

(** [progress_callback(p)] *)
Definition call_sink (cb : Sink) (p : ConversionProgress) (rd : Reader)
    : Reader * Py.result unit :=
  (mkReader (last_progress rd) (delivered rd ++ [p])%list, cb (delivered rd) p).

Definition nonempty (s : string) : bool :=
  match s with EmptyString => false | _ => true end.

(** The value after the first [=] of a [key=value] line:
    [line.split('=')[1].strip()]. *)
Definition value_of (line : string) : Py.result string :=
  let! v := PyStr.index (PyStr.split "=" line) 1 in
  Py.Ok (PyStr.strip v).

(** The body of the [try] of the [out_time=] branch up to the construction
    of the event: [None] when the text has fewer than three parts or when no
    event is to be built. *)
Definition out_time_progress (callback_given : bool) (total_duration : float)
    (time_str : string) : Py.result (option ConversionProgress) :=
  let parts := PyStr.split ":" time_str in
  if Nat.leb 3 (List.length parts) then
    let! p0 := PyStr.index parts 0 in
    let! hours := PyStr.int_of_str p0 in
    let! p1 := PyStr.index parts 1 in
    let! minutes := PyStr.int_of_str p1 in
    let! p2 := PyStr.index parts 2 in
    let! seconds := PyStr.float_of_str p2 in
    let! whole := float_of_int (hours * 3600 + minutes * 60) in
    let current_time := add whole seconds in
    if (gtb total_duration zero && callback_given)%bool then
      let! ratio := truediv current_time total_duration in
      let percent := min (mul ratio (of_int 100)) (of_int 100) in
      Py.Ok (Some (mkConversionProgress
                     percent "" "" "" current_time total_duration))
    else Py.Ok None
  else Py.Ok None.

Definition on_out_time (progress_callback : option Sink)
    (total_duration : float) (line : string) (rd : Reader)
    : Reader * Py.result unit :=
  match value_of line with
  | Py.Raise e => (rd, Py.Raise e)
  | Py.Ok time_str =>
      if (nonempty time_str && negb (String.eqb time_str "N/A"))%bool then
        let '(rd', r) :=
          match out_time_progress (bool_decide (is_Some progress_callback))
                  total_duration time_str with
          | Py.Raise e => (rd, Py.Raise e)
          | Py.Ok None => (rd, Py.Ok tt)
          | Py.Ok (Some progress) =>
              match progress_callback with
              | Some cb =>
                  call_sink cb progress
                    (mkReader (Some progress) (delivered rd))
              | None => (rd, Py.Ok tt)
              end
          end in
        (rd', Py.try_except r [Py.ValueError; Py.IndexError]
                (fun _ => Py.Ok tt))
      else (rd, Py.Ok tt)
  end.

(** The [try] of the [speed=] branch: the new text of [eta], if one is
    assigned. *)
Definition speed_eta (total_duration : float) (lp : ConversionProgress)
    (speed_val : string) : Py.result (option string) :=
  Py.try_except
    (let! speed_num := PyStr.float_of_str (PyStr.remove_char "x" speed_val) in
     if (gtb speed_num zero && gtb total_duration zero)%bool then
       let! remaining :=
         truediv (sub total_duration (current_time lp)) speed_num in
       if gtb remaining zero then
         let! text := format_eta remaining in
         Py.Ok (Some text)
       else Py.Ok None
     else Py.Ok None)
    [Py.ValueError]
    (fun _ => Py.Ok None).

Definition set_speed (v : string) (p : ConversionProgress) :=
  mkConversionProgress (percent p) v (fps p) (eta p)
    (current_time p) (total_duration p).
Definition set_eta (v : string) (p : ConversionProgress) :=
  mkConversionProgress (percent p) (speed p) (fps p) v
    (current_time p) (total_duration p).
Definition set_fps (v : string) (p : ConversionProgress) :=
  mkConversionProgress (percent p) (speed p) v (eta p)
    (current_time p) (total_duration p).

Definition on_speed (progress_callback : option Sink)
    (total_duration : float) (line : string) (rd : Reader)
    : Reader * Py.result unit :=
  match value_of line with
  | Py.Raise e => (rd, Py.Raise e)
  | Py.Ok speed_val =>
      match last_progress rd with
      | Some lp =>
          if (nonempty speed_val && negb (String.eqb speed_val "N/A"))%bool
          then
            let lp1 := set_speed speed_val lp in
            match speed_eta total_duration lp1 speed_val with
            | Py.Raise e => (mkReader (Some lp1) (delivered rd), Py.Raise e)
            | Py.Ok new_eta =>
                let lp2 :=
                  match new_eta with
                  | Some text => set_eta text lp1
                  | None => lp1
                  end in
                match progress_callback with
                | Some cb =>
                    call_sink cb lp2 (mkReader (Some lp2) (delivered rd))
                | None => (mkReader (Some lp2) (delivered rd), Py.Ok tt)
                end
            end
          else (rd, Py.Ok tt)
      | None => (rd, Py.Ok tt)
      end
  end.

Definition on_fps (line : string) (rd : Reader) : Reader * Py.result unit :=
  match value_of line with
  | Py.Raise e => (rd, Py.Raise e)
  | Py.Ok fps_val =>
      match last_progress rd with
      | Some lp =>
          if (nonempty fps_val && negb (String.eqb fps_val "N/A"))%bool
          then (mkReader (Some (set_fps fps_val lp)) (delivered rd), Py.Ok tt)
          else (rd, Py.Ok tt)
      | None => (rd, Py.Ok tt)
      end
  end.

(** The body of [for line in process.stdout]. *)
Definition stdout_line (progress_callback : option Sink)
    (total_duration : float) (line : string) (rd : Reader)
    : Reader * Py.result unit :=
  if PyStr.startswith "out_time=" line
  then on_out_time progress_callback total_duration line rd
  else if PyStr.startswith "speed=" line
  then on_speed progress_callback total_duration line rd
  else if PyStr.startswith "fps=" line
  then on_fps line rd
  else (rd, Py.Ok tt).

(** [for line in process.stdout: ...]: an exception leaves the loop. *)
Fixpoint read_stdout (progress_callback : option Sink)
    (total_duration : float) (lines : list string) (rd : Reader)
    : Reader * Py.result unit :=
  match lines with
  | [] => (rd, Py.Ok tt)
  | line :: rest =>
      match stdout_line progress_callback total_duration line rd with
      | (rd', Py.Ok _) => read_stdout progress_callback total_duration rest rd'
      | (rd', Py.Raise e) => (rd', Py.Raise e)
      end
  end.

(** The body of [for line in process.stderr] in the thread [read_stderr]:
    the new [error_output] and the reader. *)
Definition stderr_line (progress_callback : option Sink)
    (total_duration : float) (line : string)
    (acc : list string * Reader) : (list string * Reader) * Py.result unit :=
  let '(error_output, rd) := acc in
  let error_output := (error_output ++ [line])%list in
  match progress_callback with
  | Some cb =>
      match parse_ffmpeg_progress line total_duration with
      | Py.Raise e => ((error_output, rd), Py.Raise e)
      | Py.Ok (Some progress) =>
          let '(rd', r) := call_sink cb progress rd in
          ((error_output, rd'), r)
      | Py.Ok None => ((error_output, rd), Py.Ok tt)
      end
  | None => ((error_output, rd), Py.Ok tt)
  end.

(** The thread [read_stderr]: an exception ends the thread and goes no
    further. *)
Fixpoint read_stderr_lines (progress_callback : option Sink)
    (total_duration : float) (lines : list string)
    (acc : list string * Reader) : list string * Reader :=
  match lines with
  | [] => acc
  | line :: rest =>
      match stderr_line progress_callback total_duration line acc with
      | (acc', Py.Ok _) =>
          read_stderr_lines progress_callback total_duration rest acc'
      | (acc', Py.Raise _) => acc'
      end
  end.

Definition read_stderr (progress_callback : option Sink)
    (total_duration : float) (stderr : option (list string))
    : list string * Reader :=
  match stderr with
  | None => ([], new_reader)
  | Some lines =>
      read_stderr_lines progress_callback total_duration lines
        ([], new_reader)
  end.

(** ** The operating system *)

(** The file system: the paths that exist, with their [st_size]. *)
Abbreviation FileSystem := (gmap string Z).

(** What a started encoder does, as far as [convert_video] can see it. *)
Record Process : Type := mkProcess {
  (** [process.stdout]: [None], or the lines the stream yields. *)
  proc_stdout : option (list string);
  (** [process.stderr]: [None], or the lines the reader thread has taken when
      [stderr_thread.join(timeout=5)] returns. *)
  proc_stderr : option (list string);
  (** [process.returncode] once [process.wait()] has returned. *)
  proc_returncode : Z;
  (** The file system while the encoder is still writing. *)
  proc_fs_running : FileSystem -> FileSystem;
  (** The file system once the encoder has exited. *)
  proc_fs_exited : FileSystem -> FileSystem
}.

Record World : Type := mkWorld {
  (** [getattr(sys, 'frozen', False)] *)
  frozen : bool;
  (** [Path(sys.executable).parent] and [Path(__file__).parent] *)
  exe_dir : string;
  script_dir : string;
  (** The separator [Path.__truediv__] joins with. *)
  sep : string;
  (** [subprocess.run(cmd, capture_output=True, text=True)]: the return
      code and the captured standard output, or the exception. *)
  run : list string -> Py.result (Z * string);
  (** [subprocess.Popen(cmd, ...)]: the process, or the exception. *)
  popen : list string -> Py.result Process;
  (** [path.unlink()] on a path that exists: done, or the exception. *)
  unlink : string -> Py.result unit;
  (** [time.time()] at the start and when [duration] is computed. *)
  start_clock : float;
  end_clock : float
}.

Record State : Type := mkState {
  fs : FileSystem;
  (** Every command line handed to [subprocess], oldest first. *)
  commands : list (list string);
  (** The events handed to the sink by the reader of the structured stream
      and by the reader of the diagnostic stream. *)
  progress_events : list ConversionProgress;
  diagnostic_events : list ConversionProgress
}.

Definition with_fs (f : FileSystem) (st : State) : State :=
  mkState f (commands st) (progress_events st) (diagnostic_events st).
Definition with_command (cmd : list string) (st : State) : State :=
  mkState (fs st) (commands st ++ [cmd])%list
    (progress_events st) (diagnostic_events st).
Definition with_progress (evs : list ConversionProgress) (st : State)
    : State :=
  mkState (fs st) (commands st) (progress_events st ++ evs)%list
    (diagnostic_events st).
Definition with_diagnostic (evs : list ConversionProgress) (st : State)
    : State :=
  mkState (fs st) (commands st) (progress_events st)
    (diagnostic_events st ++ evs)%list.

(** [path.exists()] *)
Definition exists_ (f : FileSystem) (path : string) : bool :=
  bool_decide (is_Some (f !! path)).

(** [path.stat().st_size] *)
Definition stat_size (f : FileSystem) (path : string) : Py.result Z :=
  match f !! path with
  | Some n => Py.Ok n
  | None =>
      Py.Raise (Py.Exn Py.OSError
                  ("[Errno 2] No such file or directory: '" ++ path ++ "'"))
  end.

(** [a / b] on paths, then [str]. *)
Definition joinpath (w : World) (a b : string) : string :=
  (a ++ sep w ++ b)%string.

(** The first path of [candidates] that exists, else [fallback]. *)
Fixpoint first_existing (f : FileSystem) (candidates : list string)
    (fallback : string) : string :=
  match candidates with
  | [] => fallback
  | p :: rest => if exists_ f p then p else first_existing f rest fallback
  end.

(** The search shared by [get_ffmpeg_path] and [get_ffprobe_path], which
    differ by the name of the tool only. *)
Definition tool_path (w : World) (f : FileSystem) (tool : string) : string :=
  let exe := (tool ++ ".exe")%string in
  if frozen w then
    first_existing f
      [ joinpath w (exe_dir w) exe;
        joinpath w (joinpath w (exe_dir w) "_internal") exe;
        joinpath w (joinpath w (exe_dir w) "ffmpeg") exe;
        joinpath w (joinpath w (joinpath w (exe_dir w) "_internal") "ffmpeg")
          exe ]
      tool
  else
    first_existing f [ joinpath w (joinpath w (script_dir w) "ffmpeg") exe ]
      tool.

Definition get_ffmpeg_path (w : World) (f : FileSystem) : string :=
  tool_path w f "ffmpeg".
Definition get_ffprobe_path (w : World) (f : FileSystem) : string :=
  tool_path w f "ffprobe".

(** ** converter.py: the duration probe *)

Definition ffprobe_command (ffprobe input_file : string) : list string :=
  [ ffprobe; "-v"; "error"; "-show_entries"; "format=duration";
    "-of"; "default=noprint_wrappers=1:nokey=1"; input_file ].

(** The [try] block of [get_video_duration]: the value of its [return], or
    [None] when it falls through. *)
Definition probe_attempt (w : World) (cmd : list string)
    : Py.result (option float) :=
  let! result := run w cmd in
  let '(returncode, stdout) := result in
  if (Z.eqb returncode 0 && nonempty (PyStr.strip stdout))%bool then
    let! d := PyStr.float_of_str (PyStr.strip stdout) in
    Py.Ok (Some d)
  else Py.Ok None.

Definition get_video_duration (w : World) (input_file : string) (st : State)
    : Py.result float * State :=
  let ffprobe := get_ffprobe_path w (fs st) in
  let cmd := ffprobe_command ffprobe input_file in
  let returned :=
    Py.try_except_Exception (probe_attempt w cmd) (fun _ => Py.Ok None) in
  (let! r := returned in
   match r with
   | Some d => Py.Ok d
   | None => Py.Ok zero
   end,
   with_command cmd st).

(** ** converter.py: the orchestrator *)

Record ConversionResult : Type := mkConversionResult {
  success : bool;
  input_file : string;
  output_file : string;
  input_size : Z;
  output_size : Z;
  duration : float;
  error_message : string
}.

(** [str(n)] for an [int]. *)
Definition str_of_int (z : Z) : string :=
  ((if Z.ltb z 0 then "-" else "") ++ PyStr.decimal (Z.to_N (Z.abs z)))%string.

Definition ffmpeg_command (ffmpeg input_file output_file preset : string)
    (crf : Z) (audio_bitrate : string) : list string :=
  [ ffmpeg; "-y"; "-i"; input_file; "-c:v"; "libx264"; "-preset"; preset;
    "-crf"; str_of_int crf; "-c:a"; "aac"; "-b:a"; audio_bitrate;
    "-movflags"; "+faststart"; "-progress"; "pipe:1"; "-nostats";
    output_file ].

(** The [else] branch of the classification: the message, the removal of
    the partial output, the failed outcome. *)
Definition report_failure (w : World) (input_file output_file : string)
    (input_size : Z) (duration : float) (error_output : list string)
    (st : State) : Py.result ConversionResult * State :=
  let error_msg :=
    match error_output with
    | [] => "Error desconocido"
    | _ => PyStr.join (PyStr.last_n 10 error_output)
    end in
  let st' :=
    if exists_ (fs st) output_file then
      match unlink w output_file with
      | Py.Ok _ => with_fs (delete output_file (fs st)) st
      | Py.Raise _ => st
      end
    else st in
  (Py.Ok (mkConversionResult false input_file output_file input_size 0
            duration (PyStr.strip error_msg)),
   st').

(** The [try] block of [convert_video], from [subprocess.Popen] to its last
    [return]. *)
Definition convert_video_try (w : World) (input_file output_file : string)
    (input_size : Z) (total_duration : float) (cmd : list string)
    (progress_callback : option Sink) (st : State)
    : Py.result ConversionResult * State :=
  match popen w cmd with
  | Py.Raise e => (Py.Raise e, st)
  | Py.Ok process =>
      let fs0 := fs st in
      let '(error_output, diag) :=
        read_stderr progress_callback total_duration (proc_stderr process) in
      let st := with_diagnostic (delivered diag) st in
      match proc_stdout process with
      | None =>
          (Py.Ok (mkConversionResult false input_file output_file input_size
                    0 (sub (end_clock w) (start_clock w))
                    "No se pudo leer la salida de FFmpeg"),
           with_fs (proc_fs_exited process fs0) st)
      | Some lines =>
          match read_stdout progress_callback total_duration lines
                  new_reader with
          | (rd, Py.Raise e) =>
              (Py.Raise e,
               with_fs (proc_fs_running process fs0)
                 (with_progress (delivered rd) st))
          | (rd, Py.Ok _) =>
              let st :=
                with_fs (proc_fs_exited process fs0)
                  (with_progress (delivered rd) st) in
              let duration := sub (end_clock w) (start_clock w) in
              if (Z.eqb (proc_returncode process) 0
                  && exists_ (fs st) output_file)%bool
              then
                match stat_size (fs st) output_file with
                | Py.Raise e => (Py.Raise e, st)
                | Py.Ok output_size =>
                    (Py.Ok (mkConversionResult true input_file output_file
                              input_size output_size duration ""),
                     st)
                end
              else
                report_failure w input_file output_file input_size duration
                  error_output st
          end
      end
  end.

Definition convert_video (w : World) (input_file output_file : string)
    (preset : string) (crf : Z) (audio_bitrate : string)
    (progress_callback : option Sink) (st : State)
    : Py.result ConversionResult * State :=
  match stat_size (fs st) input_file with
  | Py.Raise e => (Py.Raise e, st)
  | Py.Ok input_size =>
      match get_video_duration w input_file st with
      | (Py.Raise e, st) => (Py.Raise e, st)
      | (Py.Ok total_duration, st) =>
          let ffmpeg := get_ffmpeg_path w (fs st) in
          let cmd :=
            ffmpeg_command ffmpeg input_file output_file preset crf
              audio_bitrate in
          match convert_video_try w input_file output_file input_size
                  total_duration cmd progress_callback
                  (with_command cmd st) with
          | (Py.Ok r, st) => (Py.Ok r, st)
          | (Py.Raise e, st) =>
              (Py.Ok (mkConversionResult false input_file output_file
                        input_size 0 (sub (end_clock w) (start_clock w))
                        (Py.exn_str e)),
               st)
          end
      end
  end.

(** ** progress.py: the clamp of the progress bar *)

(** [percent = max(0, min(100, percent))] *)
Definition create_progress_bar_percent (percent : float) : float :=
  max (of_int 0) (min (of_int 100) percent).

(** [filled = int(width * percent / 100)] after the clamp. *)
Definition create_progress_bar_filled (percent : float) (width : Z)
    : Py.result Z :=
  let p := create_progress_bar_percent percent in
  let! q := truediv (mul (of_int width) p) (of_int 100) in
  int_of_float q.

(** ** utils.py: file discovery *)

(** An entry of [directory.iterdir()]: its name and whether [is_file()]
    holds. *)
Record DirEntry : Type := mkDirEntry {
  name : string;
  is_file : bool
}.

(** [s.rfind(c)]: the last index of [c]. *)
Fixpoint rfind (c : ascii) (s : string) : option nat :=
  match s with
  | EmptyString => None
  | String a r =>
      match rfind c r with
      | Some i => Some (S i)
      | None => if Ascii.eqb a c then Some O else None
      end
  end.

(** [PurePath.suffix] (CPython up to 3.12): from the last dot on, when that
    dot is neither the first nor the last character of the name. *)
Definition suffix (name : string) : string :=
  match rfind "." name with
  | Some i =>
      if (Nat.ltb 0 i && Nat.ltb i (String.length name - 1))%bool
      then String.substring i (String.length name - i) name
      else ""
  | None => ""
  end.

(** The test of the loop: [file.is_file() and file.suffix.lower() == '.avi']. *)
Definition is_avi (file : DirEntry) : bool :=
  (is_file file && String.eqb (PyStr.lower (suffix (name file))) ".avi")%bool.

(** The key of the sort: [x.name.lower()]. *)
Definition sort_key (file : DirEntry) : string := PyStr.lower (name file).

(** [list.sort(key=...)] is stable and compares keys with [<]; every stable
    sort returns the same list, here by insertion. *)
Fixpoint insert_sorted (x : DirEntry) (l : list DirEntry) : list DirEntry :=
  match l with
  | [] => [x]
  | y :: r =>
      if String.ltb (sort_key y) (sort_key x)
      then y :: insert_sorted x r
      else x :: y :: r
  end.

Fixpoint sort_by_name (l : list DirEntry) : list DirEntry :=
  match l with
  | [] => []
  | x :: r => insert_sorted x (sort_by_name r)
  end.

(** [find_avi_files(directory)] on the listing of the directory. *)
Definition find_avi_files (listing : list DirEntry) : list DirEntry :=
  sort_by_name (List.filter is_avi listing).

(** ** The vocabulary of the statements *)

Module Spec.

(** *** Floats *)

(** A zero or a finite float of magnitude below [2^K]. *)
Definition small (K : Z) (x : float) : Prop :=
  match x with
  | S754_zero _ => True
  | S754_finite _ m e => exists k, 0 <= k /\ Zpos m < 2 ^ k /\ e + k <= K
  | _ => False
  end.

(** What a rounding returns: no NaN, the sign asked for, a mantissa of at
    most 53 bits, an exponent in the range of binary64. *)
Definition rounded (s : bool) (x : float) : Prop :=
  match x with
  | S754_zero s' | S754_infinity s' => s' = s
  | S754_finite s' m e => s' = s /\ Zpos m < 2 ^ 53 /\ -1074 <= e <= 971
  | S754_nan => False
  end.

(** [0 <= x <= 100], with the comparisons of Python. *)
Definition in_0_100 (x : float) : Prop :=
  leb zero x = true /\ leb x (of_int 100) = true.

(** [int(x)] where it is defined. *)
Definition trunc (x : float) : Z :=
  match int_of_float x with
  | Py.Ok z => z
  | Py.Raise _ => 0
  end.

(** The float of a decimal literal [d * 10^e] of the source or of the
    spec. *)
Definition literal (d e : Z) : float :=
  if Z.eqb d 0 then zero else PyStr.decimal_to_float d e.

(** *** Text *)

Fixpoint all_digits (s : string) : bool :=
  match s with
  | EmptyString => true
  | String c r => (PyStr.isdigit c && all_digits r)%bool
  end.

(** [needle in hay] *)
Fixpoint contains (needle hay : string) : bool :=
  match PyStr.strip_prefix needle hay with
  | Some _ => true
  | None =>
      match hay with
      | EmptyString => false
      | String _ r => contains needle r
      end
  end.

(** The number that two decimal digits write. *)
Definition two (a b : ascii) : Z :=
  10 * PyStr.digit_value a + PyStr.digit_value b.

Definition pair_of (a b : ascii) : string := String a (String b EmptyString).

(** The number written by the first two digits of a fraction of two digits
    or more; [0] for a shorter one. *)
Definition kept_fraction (g4 : string) : Z :=
  match g4 with
  | String a (String b _) => two a b
  | _ => 0
  end.

(** The marker [time=HH:MM:SS.ff]. *)
Definition time_marker (h1 h2 m1 m2 s1 s2 f1 f2 : ascii) : string :=
  ("time=" ++ pair_of h1 h2 ++ ":" ++ pair_of m1 m2 ++ ":" ++ pair_of s1 s2
   ++ "." ++ pair_of f1 f2)%string.

(** *** The parser, in the words of the spec *)

(** [c / 100] *)
Definition hundredths (c : Z) : float :=
  SFdiv prec emax (exact c) (exact 100).

(** [hours*3600 + minutes*60 + seconds + c/100] *)
Definition marker_seconds (h m s c : Z) : float :=
  add (of_int (h * 3600 + m * 60 + s)) (hundredths c).

(** The percent: the ratio times 100, capped at 100, when the duration is
    known; the placeholder [0] otherwise. *)
Definition percent_of (total_duration current_time : float) : float :=
  if gtb total_duration zero
  then min (mul (SFdiv prec emax current_time total_duration) (of_int 100))
         (of_int 100)
  else zero.

(** Minutes and seconds, floor-truncated and padded to two digits. *)
Definition minutes_seconds (remaining : float) : string :=
  let '(q, r) := float_div_mod remaining (of_int 60) in
  (PyStr.format_02d (trunc q) ++ ":" ++ PyStr.format_02d (trunc r))%string.

(** The ETA of the spec: [(total_duration - current_time) / speed] when the
    speed is positive and the duration known, rendered when it is finite and
    positive, unset otherwise. *)
Definition eta_spec (total_duration current_time : float)
    (speed : option float) : option string :=
  match speed with
  | Some v =>
      if (gtb v zero && gtb total_duration zero)%bool then
        let remaining :=
          SFdiv prec emax (sub total_duration current_time) v in
        if (is_finite remaining && gtb remaining zero)%bool
        then Some (minutes_seconds remaining)
        else None
      else None
  | None => None
  end.

(** The number a speed text writes, if it writes one. *)
Definition speed_number (text : option string) : option float :=
  match text with
  | Some g =>
      match PyStr.float_of_str g with
      | Py.Ok v => Some v
      | Py.Raise _ => None
      end
  | None => None
  end.

(** *** The probe and the orchestrator *)

(** The duration of the spec: the number the probe printed, or [0] when the
    probe fails, exits with another code than 0, prints nothing or prints
    no number. *)
Definition probe_spec (outcome : Py.result (Z * string)) : float :=
  match outcome with
  | Py.Ok (0, stdout) =>
      match PyStr.float_of_str (PyStr.strip stdout) with
      | Py.Ok d => if nonempty (PyStr.strip stdout) then d else zero
      | Py.Raise _ => zero
      end
  | _ => zero
  end.

(** The duration [convert_video] works with. *)
Definition probed_duration (w : World) (input_file : string) (st : State)
    : float :=
  match fst (get_video_duration w input_file st) with
  | Py.Ok d => d
  | Py.Raise _ => zero
  end.

(** The command line [convert_video] starts the encoder with. *)
Definition encoder_command (w : World) (st : State)
    (input_file output_file preset : string) (crf : Z)
    (audio_bitrate : string) : list string :=
  ffmpeg_command (get_ffmpeg_path w (fs st)) input_file output_file preset
    crf audio_bitrate.

(** The conversion reaches the classification step with the process [p]:
    the encoder was started, its standard output exists and was read to the
    end without an exception. *)
Definition classified (w : World) (st : State)
    (input_file output_file preset : string) (crf : Z)
    (audio_bitrate : string) (progress_callback : option Sink)
    (p : Process) : Prop :=
  popen w (encoder_command w st input_file output_file preset crf
             audio_bitrate) = Py.Ok p /\
  exists lines rd,
    proc_stdout p = Some lines /\
    read_stdout progress_callback (probed_duration w input_file st) lines
      new_reader = (rd, Py.Ok tt).

(** [percent] and [eta] as they are when nothing was computed. *)
Definition unpopulated (ev : ConversionProgress) : Prop :=
  percent ev = zero /\ eta ev = "".

End Spec.

(** ** The vocabulary of the closed statements *)

Import PyStr Spec.

(** The ten characters that [isdigit] accepts. *)
Definition decimal_digits : list ascii :=
  ["0"; "1"; "2"; "3"; "4"; "5"; "6"; "7"; "8"; "9"]%char.


(** A line of the structured stream with an hour field of 401 digits. *)
Definition hostile_line : string :=
  ("out_time=1" ++ zeros 400 ++ ":00:00")%string.

(** The state in which the [try] block of [convert_video] starts. *)
Definition launched (w : World) (st : State)
    (input_file output_file preset : string) (crf : Z)
    (audio_bitrate : string) : State :=
  with_command
    (encoder_command w st input_file output_file preset crf audio_bitrate)
    (with_command
       (ffprobe_command (get_ffprobe_path w (fs st)) input_file) st).

(** The five ways in which the [try] block of [convert_video] ends, with what
    each leaves in the file system. *)
Inductive Ending (w : World) (input output : string) (n : Z) (td : float)
    (cmd : list string) (cb : option Sink) (st : State)
    : Py.result ConversionResult * State -> Prop :=
  | launch_failed e :
      popen w cmd = Py.Raise e ->
      Ending w input output n td cmd cb st (Py.Raise e, st)
  | no_stdout p r st' :
      popen w cmd = Py.Ok p -> proc_stdout p = None ->
      success r = false ->
      fs st' = proc_fs_exited p (fs st) ->
      Ending w input output n td cmd cb st (Py.Ok r, st')
  | stream_failed p lines rd e st' :
      popen w cmd = Py.Ok p -> proc_stdout p = Some lines ->
      read_stdout cb td lines new_reader = (rd, Py.Raise e) ->
      fs st' = proc_fs_running p (fs st) ->
      Ending w input output n td cmd cb st (Py.Raise e, st')
  | classified_success p lines rd size st' :
      popen w cmd = Py.Ok p -> proc_stdout p = Some lines ->
      read_stdout cb td lines new_reader = (rd, Py.Ok tt) ->
      proc_returncode p = 0 ->
      proc_fs_exited p (fs st) !! output = Some size ->
      fs st' = proc_fs_exited p (fs st) ->
      Ending w input output n td cmd cb st
        (Py.Ok (mkConversionResult true input output n size
                  (sub (end_clock w) (start_clock w)) ""), st')
  | classified_failure p lines rd r st' :
      popen w cmd = Py.Ok p -> proc_stdout p = Some lines ->
      read_stdout cb td lines new_reader = (rd, Py.Ok tt) ->
      (Z.eqb (proc_returncode p) 0
       && exists_ (proc_fs_exited p (fs st)) output)%bool = false ->
      success r = false ->
      (unlink w output = Py.Ok tt -> exists_ (fs st') output = false) ->
      (forall e, unlink w output = Py.Raise e ->
                 fs st' = proc_fs_exited p (fs st)) ->
      Ending w input output n td cmd cb st (Py.Ok r, st').

(** A directory with one input file, an encoder that writes [out.mp4], and
    the collaborators of [convert_video] around it. *)
Definition start : State := mkState {["in.avi" := 50000000]} [] [] [].

Definition encoder (returncode : Z) (final_size : Z) : Process :=
  mkProcess (Some ["out_time=00:00:10.000000"; "progress=end"])
    (Some ["Conversion failed!"]) returncode
    (fun f => <["out.mp4" := 1000]> f)
    (fun f => <["out.mp4" := final_size]> f).

Definition world (probe : Py.result (Z * string))
    (launch : Py.result Process) (removal : Py.result unit) : World :=
  mkWorld false "" "" "/" (fun _ => probe) (fun _ => launch)
    (fun _ => removal) zero zero.

Definition failing_sink : Sink :=
  fun _ _ => Py.Raise (Py.Exn Py.RuntimeError "sink closed").

Definition quiet_sink : Sink := fun _ _ => Py.Ok tt.

Definition convert (w : World) (cb : option Sink) (st : State)
    : Py.result ConversionResult * State :=
  convert_video w "in.avi" "out.mp4" "medium" 23 "128k" cb st.

(** The percent of an event is not above 100. *)
Definition capped (ev : ConversionProgress) : Prop :=
  gtb (percent ev) (of_int 100) = false.

(** Every event that a reader has delivered, and the one that it holds, is
    capped. *)
Definition reader_capped (rd : Reader) : Prop :=
  List.Forall capped (delivered rd) /\
  forall lp, last_progress rd = Some lp -> capped lp.

(** [a] comes no later than [b] in the order of the sort: the key of [b] is
    not below the key of [a]. *)
Definition key_le (a b : DirEntry) : Prop :=
  String.ltb (sort_key b) (sort_key a) = false.

Definition same_key (k : string) (f : DirEntry) : bool :=
  String.eqb (sort_key f) k.

(** No string occurs twice. *)
Fixpoint distinct (l : list string) : bool :=
  match l with
  | [] => true
  | x :: r => (negb (existsb (String.eqb x) r) && distinct r)%bool
  end.

(** Two listings of one directory of a case-sensitive file system. *)
Definition upper_then_lower : list DirEntry :=
  [mkDirEntry "A.avi" true; mkDirEntry "a.avi" true].

Definition lower_then_upper : list DirEntry :=
  [mkDirEntry "a.avi" true; mkDirEntry "A.avi" true].

Definition sample_listing : list DirEntry :=
  [mkDirEntry "trip.AVI" true; mkDirEntry "notes.txt" true;
   mkDirEntry "Clip.avi" true; mkDirEntry "old.avi" false;
   mkDirEntry ".avi" true].

(** ** converter.py: the check of the encoder *)

(** A character of Latin-1 by its code point, for the accented letters of
    the messages. *)
Definition latin1 (n : N) : string := String (ascii_of_N n) EmptyString.



(** ** utils.py: output paths and the validation of the inputs *)

(** [PurePath.stem] of a name (CPython up to 3.12): the name up to its last
    dot, when that dot is neither the first nor the last character. *)
Definition stem (name : string) : string :=
  match rfind "." name with
  | Some i =>
      if (Nat.ltb 0 i && Nat.ltb i (String.length name - 1))%bool
      then String.substring 0 i name
      else name
  | None => name
  end.




(** ** The vocabulary of the further statements *)

(** Every character of [s] is in the class [p]. *)
Fixpoint all_chars (p : ascii -> bool) (s : string) : bool :=
  match s with
  | EmptyString => true
  | String c r => (p c && all_chars p r)%bool
  end.





(** ** progress.py: the rendering of a duration *)

(** [format_time(seconds)] *)
Definition format_time (seconds : float) : Py.result string :=
  if ltb seconds zero then Py.Ok "--:--"
  else
    let! h := floordiv seconds (of_int 3600) in
    let! hours := int_of_float h in
    let! r := modulo seconds (of_int 3600) in
    let! q := floordiv r (of_int 60) in
    let! minutes := int_of_float q in
    let! s := modulo seconds (of_int 60) in
    let! secs := int_of_float s in
    if Z.ltb 0 hours
    then Py.Ok (str_of_int hours ++ ":" ++ format_02d minutes ++ ":"
                ++ format_02d secs)
    else Py.Ok (format_02d minutes ++ ":" ++ format_02d secs).

(** The clock reading of [n] whole seconds: [H:MM:SS] from one hour on,
    [MM:SS] below. *)
Definition clock_text (n : Z) : string :=
  if Z.ltb 0 (n / 3600)
  then str_of_int (n / 3600) ++ ":" ++ format_02d (n mod 3600 / 60) ++ ":"
       ++ format_02d (n mod 60)
  else format_02d (n / 60) ++ ":" ++ format_02d (n mod 60).

Definition whole_time_ok (n : Z) : bool :=
  match format_time (of_int n) with
  | Py.Ok text => String.eqb text (clock_text n)
  | Py.Raise _ => false
  end.

(** A float as Python has them: NaN, or what a rounding returns. *)
Definition representable (x : float) : Prop :=
  x = nan \/ exists s, rounded s x.

(** ** main.py: the loop over the files *)








(** * Floating point: rounding and ranges *)

Module FloatFacts.
Local Close Scope string_scope.

Lemma digits2_size (p : positive) : digits2_pos p = Pos.size p.
Proof. induction p; simpl; congruence. Qed.

Lemma Zdigits2_nonneg (M : Z) : 0 <= Zdigits2 M.
Proof. destruct M; simpl; lia. Qed.

Lemma Zdigits2_gt (M : Z) : 0 <= M -> M < 2 ^ Zdigits2 M.
Proof.
  destruct M as [|p|p]; simpl; try lia. intros _.
  rewrite digits2_size, <- Pos2Z.inj_pow.
  apply Pos2Z.pos_lt_pos, Pos.size_gt.
Qed.

Lemma Zdigits2_le_pow (M : Z) : 0 < M -> 2 ^ Zdigits2 M <= 2 * M.
Proof.
  destruct M as [|p|p]; simpl; try lia. intros _.
  rewrite digits2_size. change (2 * Zpos p) with (Zpos p~0).
  rewrite <- Pos2Z.inj_pow. apply Pos2Z.pos_le_pos, Pos.size_le.
Qed.

Lemma Zdigits2_le (M k : Z) : 0 <= M < 2 ^ k -> 0 <= k -> Zdigits2 M <= k.
Proof.
  intros [H0 H1] Hk. destruct (Z.eq_dec M 0) as [->|Hne]; [simpl; lia|].
  pose proof (Zdigits2_le_pow M ltac:(lia)) as Hle.
  destruct (Z.le_gt_cases (Zdigits2 M) k) as [|Hgt]; [assumption|].
  assert (2 ^ (k + 1) <= 2 ^ Zdigits2 M) by (apply Z.pow_le_mono_r; lia).
  rewrite Z.pow_add_r in H by lia. lia.
Qed.

Lemma Zdigits2_ge (M k : Z) : 0 <= k -> 2 ^ k <= M -> k + 1 <= Zdigits2 M.
Proof.
  intros Hk HM.
  assert (0 < 2 ^ k) by (apply Z.pow_pos_nonneg; lia).
  pose proof (Zdigits2_gt M ltac:(lia)) as Hgt.
  pose proof (Zdigits2_nonneg M).
  destruct (Z.le_gt_cases (k + 1) (Zdigits2 M)) as [|Hlt]; [assumption|].
  assert (2 ^ Zdigits2 M <= 2 ^ k) by (apply Z.pow_le_mono_r; lia). lia.
Qed.

Lemma shr_1_m (mrs : shr_record) :
  0 <= shr_m mrs -> shr_m (shr_1 mrs) = shr_m mrs / 2.
Proof.
  destruct mrs as [m r s]; simpl. intros Hm.
  destruct m as [|p|p]; [reflexivity| |lia].
  destruct p as [p|p|]; simpl shr_m.
  - rewrite Pos2Z.inj_xI. apply Z.div_unique with (r := 1); lia.
  - rewrite Pos2Z.inj_xO. apply Z.div_unique with (r := 0); lia.
  - reflexivity.
Qed.

Lemma pow2_xO (p : positive) : 2 ^ Zpos p~0 = 2 ^ Zpos p * 2 ^ Zpos p.
Proof.
  replace (Zpos p~0) with (Zpos p + Zpos p) by lia.
  apply Z.pow_add_r; lia.
Qed.

Lemma pow2_xI (p : positive) : 2 ^ Zpos p~1 = 2 * (2 ^ Zpos p * 2 ^ Zpos p).
Proof.
  replace (Zpos p~1) with (1 + (Zpos p + Zpos p)) by lia.
  rewrite Z.pow_add_r, Z.pow_add_r by lia. reflexivity.
Qed.

Lemma iter_shr_1_m (p : positive) : forall mrs : shr_record,
  0 <= shr_m mrs ->
  shr_m (SpecFloat.iter_pos shr_1 p mrs) = shr_m mrs / 2 ^ Zpos p.
Proof.
  induction p as [p IH|p IH|]; intros mrs Hm; simpl SpecFloat.iter_pos.
  - assert (H1 : 0 <= shr_m (shr_1 mrs))
      by (rewrite shr_1_m by assumption; apply Z.div_pos; lia).
    assert (H2 : 0 <= shr_m (SpecFloat.iter_pos shr_1 p (shr_1 mrs)))
      by (rewrite IH by assumption; apply Z.div_pos; lia).
    rewrite IH, IH, shr_1_m by assumption.
    rewrite !Z.div_div by lia.
    rewrite pow2_xI. f_equal; ring.
  - assert (H2 : 0 <= shr_m (SpecFloat.iter_pos shr_1 p mrs))
      by (rewrite IH by assumption; apply Z.div_pos; lia).
    rewrite IH, IH by assumption.
    rewrite !Z.div_div by lia.
    rewrite pow2_xO. reflexivity.
  - rewrite shr_1_m by assumption. reflexivity.
Qed.

Lemma shr_record_of_loc_m (m : Z) (l : location) :
  shr_m (shr_record_of_loc m l) = m.
Proof. destruct l as [|[]]; reflexivity. Qed.

Lemma fexp_eq (x : Z) : fexp prec emax x = Z.max (x - 53) (-1074).
Proof. reflexivity. Qed.

(** One [shr_fexp]: the mantissa loses [n] bits, the amount that brings the
    exponent up to [fexp]. *)
Lemma shr_fexp_spec (M E : Z) (l : location) :
  0 <= M ->
  exists mrs e',
    shr_fexp prec emax M E l = (mrs, e') /\
    let n := Z.max (Zdigits2 M + E - 53) (-1074) - E in
    (n <= 0 /\ shr_m mrs = M /\ e' = E) \/
    (0 < n /\ shr_m mrs = M / 2 ^ n /\ e' = E + n).
Proof.
  intros HM. unfold shr_fexp, shr. rewrite fexp_eq.
  destruct (Z.max (Zdigits2 M + E - 53) (-1074) - E) as [|n|n] eqn:Hn.
  - eexists _, _. split; [reflexivity|]. left.
    rewrite shr_record_of_loc_m. lia.
  - eexists _, _. split; [reflexivity|]. right.
    rewrite iter_shr_1_m, shr_record_of_loc_m
      by (rewrite shr_record_of_loc_m; lia). lia.
  - eexists _, _. split; [reflexivity|]. left.
    rewrite shr_record_of_loc_m. lia.
Qed.

Lemma round_nearest_even_bound (m : Z) (l : location) :
  0 <= m -> m <= round_nearest_even m l <= m + 1.
Proof.
  intros Hm. destruct l as [|[]]; simpl; try lia.
  destruct (Z.even m); lia.
Qed.

(** After one [shr_fexp] the mantissa has at most 53 bits and the exponent
    is at least [-1074]. *)
Lemma shr_fexp_53 (M E : Z) (l : location) (mrs : shr_record) (e' : Z) :
  0 <= M -> shr_fexp prec emax M E l = (mrs, e') ->
  0 <= shr_m mrs < 2 ^ 53 /\ -1074 <= e' /\
  ((shr_m mrs = M /\ e' = E) \/
   exists n, 0 < n /\ e' = E + n /\
             e' = Z.max (Zdigits2 M + E - 53) (-1074) /\
             shr_m mrs = M / 2 ^ n).
Proof.
  intros HM Heq.
  destruct (shr_fexp_spec M E l HM) as (mrs0 & e0 & Heq0 & Hcase).
  rewrite Heq in Heq0. injection Heq0 as <- <-.
  pose proof (Zdigits2_gt M HM) as Hgt.
  pose proof (Zdigits2_nonneg M) as Hd.
  cbv zeta in Hcase.
  destruct Hcase as [(Hn & -> & ->)|(Hn & -> & ->)].
  - repeat split; try lia.
    apply Z.lt_le_trans with (2 ^ Zdigits2 M); [lia|].
    apply Z.pow_le_mono_r; lia.
  - set (n := Z.max (Zdigits2 M + E - 53) (-1074) - E) in *.
    assert (Hp : 0 < 2 ^ n) by (apply Z.pow_pos_nonneg; lia).
    repeat split; try lia.
    + apply Z.div_pos; lia.
    + destruct (Z.le_gt_cases n (Zdigits2 M)) as [Hle|Hgt'].
      * apply Z.div_lt_upper_bound; [lia|].
        apply Z.lt_le_trans with (2 ^ Zdigits2 M); [lia|].
        rewrite <- Z.pow_add_r by lia. apply Z.pow_le_mono_r; lia.
      * rewrite Z.div_small; [lia|]. split; [lia|].
        apply Z.lt_le_trans with (2 ^ Zdigits2 M); [lia|].
        apply Z.pow_le_mono_r; lia.
    + right. exists n. repeat split; lia.
Qed.

(** The second [shr_fexp] of [binary_round_aux]: it shifts by one bit when
    the rounding has carried into a 54th bit, and not at all otherwise. *)
Lemma shr_fexp_second (m2 e1 : Z) (mrs : shr_record) (e3 : Z) :
  0 <= m2 <= 2 ^ 53 -> -1074 <= e1 ->
  shr_fexp prec emax m2 e1 loc_Exact = (mrs, e3) ->
  (m2 < 2 ^ 53 /\ shr_m mrs = m2 /\ e3 = e1) \/
  (m2 = 2 ^ 53 /\ shr_m mrs = 2 ^ 52 /\ e3 = e1 + 1).
Proof.
  intros Hm He Heq.
  destruct (shr_fexp_spec m2 e1 loc_Exact ltac:(lia)) as (mrs0 & e0 & Heq0 & Hcase).
  rewrite Heq in Heq0. injection Heq0 as <- <-. cbv zeta in Hcase.
  destruct (Z.eq_dec m2 (2 ^ 53)) as [->|Hne].
  - right. change (Zdigits2 (2 ^ 53)) with 54 in Hcase.
    destruct Hcase as [(Hn & _)|(Hn & -> & ->)]; [lia|].
    replace (Z.max (54 + e1 - 53) (-1074) - e1) with 1 by lia.
    repeat split; reflexivity.
  - left. assert (Hlt : m2 < 2 ^ 53) by lia.
    pose proof (Zdigits2_le m2 53 ltac:(lia) ltac:(lia)) as Hd.
    destruct Hcase as [(Hn & -> & ->)|(Hn & _)]; [|lia]. repeat split; lia.
Qed.

(** The anatomy of [binary_round_aux] on a non-negative mantissa. *)
Lemma binary_round_aux_spec (s : bool) (M E : Z) (l : location) :
  0 <= M ->
  exists m1 e1 m3 e3,
    0 <= m1 < 2 ^ 53 /\ -1074 <= e1 /\
    ((m1 = M /\ e1 = E) \/
     exists n, 0 < n /\ e1 = E + n /\
               e1 = Z.max (Zdigits2 M + E - 53) (-1074) /\
               m1 = M / 2 ^ n) /\
    0 <= m3 < 2 ^ 53 /\
    ((m1 <= m3 <= m1 + 1 /\ e3 = e1) \/
     (m1 = 2 ^ 53 - 1 /\ m3 = 2 ^ 52 /\ e3 = e1 + 1)) /\
    binary_round_aux prec emax s M E l =
      match m3 with
      | Z0 => S754_zero s
      | Zpos m => if e3 <=? 971 then S754_finite s m e3 else S754_infinity s
      | Zneg _ => S754_nan
      end.
Proof.
  intros HM. unfold binary_round_aux.
  destruct (shr_fexp prec emax M E l) as [mrs1 e1] eqn:H1.
  destruct (shr_fexp_53 M E l mrs1 e1 HM H1) as (Hm1 & He1 & Hv1).
  pose proof (round_nearest_even_bound (shr_m mrs1)
                (loc_of_shr_record mrs1) (proj1 Hm1)) as Hr.
  set (m2 := round_nearest_even (shr_m mrs1) (loc_of_shr_record mrs1)) in *.
  destruct (shr_fexp prec emax m2 e1 loc_Exact) as [mrs2 e3] eqn:H2.
  destruct (shr_fexp_second m2 e1 mrs2 e3 ltac:(lia) He1 H2)
    as [(Hlt & Hm3 & ->)|(Heq & Hm3 & ->)].
  - exists (shr_m mrs1), e1, (shr_m mrs2), e1. rewrite Hm3.
    repeat split; try lia; try assumption.
  - exists (shr_m mrs1), e1, (shr_m mrs2), (e1 + 1). rewrite Hm3.
    repeat split; try lia; try assumption.
Qed.

Lemma binary_round_aux_rounded (s : bool) (M E : Z) (l : location) :
  0 <= M -> rounded s (binary_round_aux prec emax s M E l).
Proof.
  intros HM.
  destruct (binary_round_aux_spec s M E l HM)
    as (m1 & e1 & m3 & e3 & Hm1 & He1 & _ & Hm3 & Hc & ->).
  destruct m3 as [|p|p]; simpl; [reflexivity| |lia].
  destruct (Z.leb_spec e3 971); simpl; [|reflexivity].
  repeat split; lia.
Qed.

Lemma pow2_le_lt (a k M : Z) : 0 <= a -> 2 ^ a <= M -> M < 2 ^ k -> a < k.
Proof.
  intros Ha H1 H2. destruct (Z.lt_ge_cases a k) as [|Hge]; [assumption|].
  destruct (Z.lt_ge_cases k 0) as [Hneg|Hk].
  - rewrite Z.pow_neg_r in H2 by assumption.
    assert (0 < 2 ^ a) by (apply Z.pow_pos_nonneg; lia). lia.
  - assert (2 ^ k <= 2 ^ a) by (apply Z.pow_le_mono_r; lia). lia.
Qed.

(** No overflow below [2^1023]. *)
Lemma binary_round_aux_small (s : bool) (M E : Z) (l : location) (k K : Z) :
  0 <= M < 2 ^ k -> 0 <= k -> E + k <= K -> E <= 971 ->
  -1074 <= K <= 1023 ->
  small (K + 1) (binary_round_aux prec emax s M E l) /\
  rounded s (binary_round_aux prec emax s M E l).
Proof.
  intros HM Hk HK HE HKK.
  split; [|apply binary_round_aux_rounded; lia].
  destruct (binary_round_aux_spec s M E l ltac:(lia))
    as (m1 & e1 & m3 & e3 & Hm1 & He1 & Hv1 & Hm3 & Hc & ->).
  pose proof (Zdigits2_le M k HM Hk) as Hd.
  assert (H : e3 <= 971 /\ exists k', 0 <= k' /\ m3 < 2 ^ k' /\ e3 + k' <= K + 1).
  { destruct Hv1 as [(-> & ->)|(n & Hn & Hen & Hmax & ->)].
    - destruct Hc as [(Hle & ->)|(Heq & -> & ->)].
      + split; [lia|]. exists (k + 1). rewrite Z.pow_add_r by lia.
        change (2 ^ 1) with 2. lia.
      + assert (52 < k) by (apply pow2_le_lt with (M := M); lia).
        split; [lia|]. exists 53. lia.
    - assert (Hp : 0 < 2 ^ n) by (apply Z.pow_pos_nonneg; lia).
      destruct Hc as [(Hle & ->)|(Heq & -> & ->)].
      + split; [lia|]. exists (Z.max (k - n) 0 + 1).
        rewrite Z.pow_add_r by lia. change (2 ^ 1) with 2.
        split; [lia|]. split; [|lia].
        destruct (Z.le_gt_cases n k) as [Hle'|Hgt'].
        * rewrite Z.max_l by lia.
          assert (M / 2 ^ n < 2 ^ (k - n)); [|lia].
          apply Z.div_lt_upper_bound; [lia|].
          rewrite <- Z.pow_add_r by lia.
          replace (n + (k - n)) with k by lia. lia.
        * rewrite Z.max_r by lia.
          rewrite Z.div_small in Hle; [simpl; lia|].
          split; [lia|]. apply Z.lt_le_trans with (2 ^ k); [lia|].
          apply Z.pow_le_mono_r; lia.
      + assert (HMge : 2 ^ (52 + n) <= M).
        { rewrite Z.pow_add_r by lia.
          pose proof (Z.mul_div_le M (2 ^ n) Hp). change (2 ^ 52) with 4503599627370496.
          change (2 ^ 53) with 9007199254740992 in Heq. nia. }
        assert (52 + n < k) by (apply pow2_le_lt with (M := M); lia).
        split; [lia|]. exists 53. lia. }
  destruct H as (He3 & k' & Hk' & Hlt & Hsum).
  destruct m3 as [|p|p]; simpl; [exact I| |lia].
  replace (e3 <=? 971) with true by (symmetry; apply Z.leb_le; lia).
  simpl. exists k'. lia.
Qed.

Lemma small_weaken (K K' : Z) (x : float) :
  small K x -> K <= K' -> small K' x.
Proof.
  destruct x as [| | |s m e]; simpl; try tauto.
  intros (k & ? & ? & ?) HK. exists k. lia.
Qed.

Lemma small_is_finite (K : Z) (x : float) : small K x -> is_finite x = true.
Proof. destruct x; simpl; tauto. Qed.

(** No overflow strictly below the largest float. *)
Lemma binary_round_aux_below_max (s : bool) (M E : Z) (l : location) :
  0 <= M < (2 ^ 53 - 1) * 2 ^ (971 - E) -> E < 971 ->
  is_finite (binary_round_aux prec emax s M E l) = true.
Proof.
  intros HM HE.
  destruct (binary_round_aux_spec s M E l ltac:(lia))
    as (m1 & e1 & m3 & e3 & Hm1 & He1 & Hv1 & Hm3 & Hc & ->).
  assert (He3 : e3 <= 971).
  { assert (Hlt : M < 2 ^ (1024 - E)).
    { replace (1024 - E) with (53 + (971 - E)) by lia.
      rewrite Z.pow_add_r by lia.
      assert (0 < 2 ^ (971 - E)) by (apply Z.pow_pos_nonneg; lia). nia. }
    pose proof (Zdigits2_le M (1024 - E) ltac:(lia) ltac:(lia)) as Hd.
    destruct Hv1 as [(-> & ->)|(n & Hn & Hen & Hmax & ->)]; [lia|].
    destruct (Z.eq_dec e1 971) as [He|Hne]; [|lia].
    assert (n = 971 - E) by lia. subst n.
    assert (M / 2 ^ (971 - E) < 2 ^ 53 - 1)
      by (apply Z.div_lt_upper_bound; [apply Z.pow_pos_nonneg|]; lia).
    lia. }
  destruct m3 as [|p|p]; simpl; [reflexivity| |lia].
  replace (e3 <=? 971) with true by (symmetry; apply Z.leb_le; lia).
  reflexivity.
Qed.

Lemma iter_xO (d m : positive) : Zpos (Pos.iter xO m d) = Zpos m * 2 ^ Zpos d.
Proof.
  induction d as [|d IH] using Pos.peano_ind.
  - simpl. lia.
  - rewrite Pos.iter_succ, Pos2Z.inj_xO, IH, Pos2Z.inj_succ, Z.pow_succ_r by lia.
    ring.
Qed.

Lemma shl_align_spec (m : positive) (e e' : Z) :
  exists mz ez, shl_align m e e' = (mz, ez) /\ ez <= e /\
    Zpos mz = Zpos m * 2 ^ (e - ez) /\ (e' <= e -> ez = e').
Proof.
  unfold shl_align. destruct (e' - e) as [|d|d] eqn:Hd.
  - exists m, e. rewrite Z.sub_diag. repeat split; lia.
  - exists m, e. rewrite Z.sub_diag. repeat split; lia.
  - eexists _, _. split; [reflexivity|]. rewrite iter_xO.
    replace (e - e') with (Zpos d) by lia. repeat split; lia.
Qed.

Lemma binary_round_rounded (s : bool) (m : positive) (e : Z) :
  rounded s (binary_round prec emax s m e).
Proof.
  unfold binary_round.
  destruct (shl_align m e _) as [mz ez].
  apply binary_round_aux_rounded. lia.
Qed.

Lemma binary_round_small (s : bool) (m : positive) (e k K : Z) :
  Zpos m < 2 ^ k -> 0 <= k -> e + k <= K -> e <= 971 -> -1074 <= K <= 1023 ->
  small (K + 1) (binary_round prec emax s m e).
Proof.
  intros Hm Hk HK He HKK. unfold binary_round.
  destruct (shl_align_spec m e (fexp prec emax (Zpos (digits2_pos m) + e)))
    as (mz & ez & -> & Hez & Hmz & _).
  apply binary_round_aux_small with (k := k + (e - ez)); try lia.
  split; [lia|]. rewrite Hmz, Z.pow_add_r by lia.
  apply Z.mul_lt_mono_pos_r; [apply Z.pow_pos_nonneg|]; lia.
Qed.

Lemma binary_round_below_max (s : bool) (m : positive) (e : Z) :
  Zpos m < (2 ^ 53 - 1) * 2 ^ (971 - e) -> e < 971 ->
  is_finite (binary_round prec emax s m e) = true.
Proof.
  intros Hm He. unfold binary_round.
  destruct (shl_align_spec m e (fexp prec emax (Zpos (digits2_pos m) + e)))
    as (mz & ez & -> & Hez & Hmz & _).
  apply binary_round_aux_below_max; [|lia].
  split; [lia|]. rewrite Hmz.
  replace (971 - ez) with ((971 - e) + (e - ez)) by lia.
  rewrite Z.pow_add_r, Z.mul_assoc by lia.
  apply Z.mul_lt_mono_pos_r; [apply Z.pow_pos_nonneg|]; lia.
Qed.

(** [binary_normalize] of a small integer mantissa. *)
Lemma binary_normalize_small (M E k K : Z) :
  Z.abs M < 2 ^ k -> 0 <= k -> E + k <= K -> E <= 971 -> -1074 <= K <= 1023 ->
  small (K + 1) (binary_normalize prec emax M E false).
Proof.
  intros HM Hk HK HE HKK. unfold binary_normalize.
  destruct M as [|p|p]; [exact I| |];
    apply binary_round_small with (k := k); lia.
Qed.

Lemma binary_normalize_sign (M E : Z) :
  0 <= M -> rounded false (binary_normalize prec emax M E false).
Proof.
  intros HM. destruct M as [|p|p]; simpl; [reflexivity| |lia].
  apply binary_round_rounded.
Qed.

(** Sums and differences of small floats are small. *)
Lemma addsub_small (K : Z) (x y : float) :
  small K x -> small K y -> -1074 <= K <= 970 ->
  small (K + 2) (add x y) /\ small (K + 2) (sub x y).
Proof.
  intros Hx Hy HK.
  destruct x as [sx| | |sx mx ex], y as [sy| | |sy my ey];
    simpl in Hx, Hy; try tauto.
  - split; simpl; destruct sx, sy; exact I.
  - destruct Hy as (k & ? & ? & ?). split; simpl; exists k; lia.
  - destruct Hx as (k & ? & ? & ?). split; simpl; exists k; lia.
  - destruct Hx as (kx & Hkx & Hmx & HKx), Hy as (ky & Hky & Hmy & HKy).
    unfold add, sub, SFadd, SFsub. set (ez := Z.min ex ey).
    destruct (shl_align_spec mx ex ez) as (ax & e1 & Ha & _ & Hax & He1).
    destruct (shl_align_spec my ey ez) as (ay & e2 & Hb & _ & Hay & He2).
    specialize (He1 ltac:(lia)). specialize (He2 ltac:(lia)). subst e1 e2.
    rewrite Ha, Hb. simpl fst.
    assert (H1 : Zpos ax < 2 ^ (K - ez)).
    { rewrite Hax. apply Z.lt_le_trans with (2 ^ kx * 2 ^ (ex - ez)).
      - apply Z.mul_lt_mono_pos_r; [apply Z.pow_pos_nonneg|]; lia.
      - rewrite <- Z.pow_add_r by lia. apply Z.pow_le_mono_r; lia. }
    assert (H2 : Zpos ay < 2 ^ (K - ez)).
    { rewrite Hay. apply Z.lt_le_trans with (2 ^ ky * 2 ^ (ey - ez)).
      - apply Z.mul_lt_mono_pos_r; [apply Z.pow_pos_nonneg|]; lia.
      - rewrite <- Z.pow_add_r by lia. apply Z.pow_le_mono_r; lia. }
    assert (H3 : 2 ^ (K - ez + 1) = 2 * 2 ^ (K - ez))
      by (rewrite Z.pow_add_r by lia; change (2 ^ 1) with 2; ring).
    split; apply small_weaken with (K := K + 1 + 1); try lia;
      apply binary_normalize_small with (k := K - ez + 1); try lia;
      destruct sx, sy; simpl cond_Zopp; lia.
Qed.

(** A small float taken from a float of any size, both non-negative: no
    overflow. *)
Lemma sub_finite (mx : positive) (ex : Z) (my : positive) (ey K : Z) :
  Zpos mx < 2 ^ 53 -> ex <= 971 ->
  small K (S754_finite false my ey) -> -1074 <= K <= 970 ->
  is_finite (sub (S754_finite false mx ex) (S754_finite false my ey)) = true.
Proof.
  intros Hmx Hex (ky & Hky & Hmy & HKy) HK.
  unfold sub, SFsub. set (ez := Z.min ex ey).
  destruct (shl_align_spec mx ex ez) as (ax & e1 & Ha & _ & Hax & He1).
  destruct (shl_align_spec my ey ez) as (ay & e2 & Hb & _ & Hay & He2).
  specialize (He1 ltac:(lia)). specialize (He2 ltac:(lia)). subst e1 e2.
  rewrite Ha, Hb. simpl fst. simpl cond_Zopp.
  unfold binary_normalize.
  destruct (Zpos ax - Zpos ay) as [|p|p] eqn:HM; [reflexivity| |].
  - apply binary_round_below_max; [|lia].
    assert (0 < 2 ^ (ex - ez)) by (apply Z.pow_pos_nonneg; lia).
    apply Z.lt_le_trans with (Zpos ax); [lia|]. rewrite Hax.
    replace (971 - ez) with ((971 - ex) + (ex - ez)) by lia.
    rewrite Z.pow_add_r, Z.mul_assoc by lia.
    apply Z.mul_le_mono_nonneg_r; [lia|].
    assert (1 <= 2 ^ (971 - ex)); [|nia].
    change 1 with (2 ^ 0). apply Z.pow_le_mono_r; lia.
  - apply small_is_finite with (K := 1023).
    apply small_weaken with (K := K + 1); [|lia].
    apply binary_round_small with (k := ky + (ey - ez)); try lia.
    apply Z.lt_le_trans with (Zpos ay); [lia|]. rewrite Hay.
    rewrite Z.pow_add_r by lia.
    apply Z.mul_le_mono_nonneg_r; [apply Z.pow_nonneg|]; lia.
Qed.

(** The integer division inside [SFdiv]. *)
Lemma div_core_spec (m1 : positive) (e1 : Z) (m2 : positive) (e2 : Z) :
  exists q l sh,
    SFdiv_core_binary prec emax (Zpos m1) e1 (Zpos m2) e2
      = (q, e1 - e2 - sh, l) /\
    0 <= sh /\ q = (Zpos m1 * 2 ^ sh) / Zpos m2 /\ 0 <= q /\
    e1 - e2 - sh =
      Z.min (Z.max (Zpos (digits2_pos m1) + e1
                    - (Zpos (digits2_pos m2) + e2) - 53) (-1074))
            (e1 - e2).
Proof.
  unfold SFdiv_core_binary. rewrite fexp_eq. simpl Zdigits2.
  set (e' := Z.min _ _).
  assert (He' : e' <= e1 - e2) by (unfold e'; lia).
  set (m' := match e1 - e2 - e' with
             | 0 => Zpos m1 | Zpos _ => Z.shiftl (Zpos m1) (e1 - e2 - e')
             | Zneg _ => 0 end).
  assert (Hm' : m' = Zpos m1 * 2 ^ (e1 - e2 - e')).
  { unfold m'. destruct (e1 - e2 - e') as [|p|p] eqn:Hp; try lia.
    rewrite Z.shiftl_mul_pow2 by lia. reflexivity. }
  assert (Hq : Z.div_eucl m' (Zpos m2) = (m' / Zpos m2, m' mod Zpos m2)).
  { unfold Z.div, Z.modulo. destruct (Z.div_eucl m' (Zpos m2)); reflexivity. }
  rewrite Hq.
  exists (m' / Zpos m2), (new_location (Zpos m2) (m' mod Zpos m2)),
         (e1 - e2 - e').
  replace (e1 - e2 - (e1 - e2 - e')) with e' by lia.
  repeat split; try lia.
  - rewrite Hm'. reflexivity.
  - apply Z.div_pos; [|lia]. rewrite Hm'.
    apply Z.mul_nonneg_nonneg; [lia|apply Z.pow_nonneg; lia].
Qed.

(** A quotient is a NaN or a rounded float. *)
Lemma div_rounded (x y : float) :
  SFdiv prec emax x y = S754_nan \/
  rounded (xorb (sign_of x) (sign_of y)) (SFdiv prec emax x y).
Proof.
  destruct x as [sx|sx| |sx mx ex], y as [sy|sy| |sy my ey]; simpl;
    try (now left); try (now right).
  right.
  destruct (div_core_spec mx ex my ey) as (q & l & sh & -> & _ & _ & Hq & _).
  apply binary_round_aux_rounded. exact Hq.
Qed.

Lemma mul_rounded (x y : float) :
  mul x y = S754_nan \/ rounded (xorb (sign_of x) (sign_of y)) (mul x y).
Proof.
  destruct x as [sx|sx| |sx mx ex], y as [sy|sy| |sy my ey]; simpl;
    try (now left); try (now right).
  right. apply binary_round_aux_rounded. lia.
Qed.

(** Dividing a rounded finite float by a divisor of at least one. *)
Lemma div_small (x : float) (sy : bool) (my : positive) (ey : Z) (s : bool) :
  rounded s x -> is_finite x = true ->
  2 ^ 52 <= Zpos my < 2 ^ 53 -> -50 <= ey <= 0 ->
  small 1023 (SFdiv prec emax x (S754_finite sy my ey)).
Proof.
  intros Hx Hfin Hmy Hey.
  destruct x as [sx|sx| |sx mx ex]; simpl in Hfin; try discriminate;
    [exact I|].
  destruct Hx as (_ & Hmx & Hex). simpl SFdiv.
  destruct (div_core_spec mx ex my ey)
    as (q & l & sh & -> & Hsh & Hq & Hq0 & He').
  set (e' := ex - ey - sh) in *.
  pose proof (Zdigits2_le (Zpos mx) 53 ltac:(lia) ltac:(lia)) as Hd1.
  pose proof (Zdigits2_ge (Zpos my) 52 ltac:(lia) ltac:(lia)) as Hd2.
  simpl Zdigits2 in Hd1, Hd2.
  assert (Hqlt : q < 2 ^ (sh + 1)).
  { rewrite Hq. apply Z.div_lt_upper_bound; [lia|].
    assert (Hp : 0 < 2 ^ sh) by (apply Z.pow_pos_nonneg; lia).
    rewrite Z.pow_add_r by lia. change (2 ^ 1) with 2.
    change (2 ^ 52) with 4503599627370496 in Hmy.
    change (2 ^ 53) with 9007199254740992 in Hmx. nia. }
  apply small_weaken with (K := 1022 + 1); [|lia].
  refine (proj1 (binary_round_aux_small _ q e' l (sh + 1) 1022 _ _ _ _ _));
    lia.
Qed.

Lemma of_int_60 : of_int 60 = S754_finite false 8444249301319680 (-47).
Proof. reflexivity. Qed.

Lemma of_int_1 : of_int 1 = S754_finite false 4503599627370496 (-52).
Proof. reflexivity. Qed.

Lemma of_scaled_rounded (s : bool) (m e : Z) : rounded s (of_scaled s m e).
Proof.
  destruct m as [|p|p]; simpl; try reflexivity. apply binary_round_rounded.
Qed.

Lemma of_scaled_small (s : bool) (m e k K : Z) :
  0 <= m < 2 ^ k -> 0 <= k -> e + k <= K -> e <= 971 -> -1074 <= K <= 1023 ->
  small (K + 1) (of_scaled s m e).
Proof.
  intros Hm Hk HK He HKK. destruct m as [|p|p]; simpl; try exact I.
  apply binary_round_small with (k := k); lia.
Qed.

(** The remainder by 60 is below 64, and has the sign of the dividend. *)
Lemma fmod_60 (s : bool) (m : positive) (e : Z) :
  small 7 (fmod (S754_finite s m e) (of_int 60)) /\
  rounded s (fmod (S754_finite s m e) (of_int 60)).
Proof.
  rewrite of_int_60. unfold fmod.
  split; [|apply of_scaled_rounded].
  set (ez := Z.min e (-47)).
  assert (HY : Z.shiftl 8444249301319680 (-47 - ez) < 2 ^ (6 - ez)).
  { rewrite Z.shiftl_mul_pow2 by lia.
    replace (6 - ez) with (53 + (-47 - ez)) by lia.
    rewrite Z.pow_add_r by lia.
    apply Z.mul_lt_mono_pos_r; [apply Z.pow_pos_nonneg; lia|].
    reflexivity. }
  assert (HY0 : 0 < Z.shiftl 8444249301319680 (-47 - ez)).
  { rewrite Z.shiftl_mul_pow2 by lia.
    apply Z.mul_pos_pos; [lia|apply Z.pow_pos_nonneg; lia]. }
  pose proof (Z.mod_pos_bound (Z.shiftl (Zpos m) (e - ez)) _ HY0) as Hmod.
  apply of_scaled_small with (k := 6 - ez) (K := 6); lia.
Qed.

Lemma ltb_zero_nonneg (x : float) : rounded false x -> ltb x zero = false.
Proof.
  destruct x as [s|s| |s m e]; simpl; try tauto.
  - intros ->. reflexivity.
  - intros (-> & _). reflexivity.
Qed.

Lemma sub_self (s : bool) (m : positive) (e : Z) :
  sub (S754_finite s m e) (S754_finite s m e) = S754_zero false.
Proof.
  unfold sub, SFsub. rewrite Z.sub_diag. reflexivity.
Qed.

Lemma floor_finite (s : bool) (x : float) :
  rounded s x -> is_finite x = true ->
  is_finite (floor x) = true /\
  (floor x = x \/ small 55 (floor x)).
Proof.
  destruct x as [s'|s'| |s' m e]; simpl; try discriminate.
  - intros _ _. split; [reflexivity|now left].
  - intros (-> & Hm & He) _.
    destruct (Z.leb_spec 0 e) as [Hpos|Hneg]; [split; [reflexivity|now left]|].
    set (q := Z.shiftr (Zpos m) (- e)).
    assert (Hq : 0 <= q < 2 ^ 53).
    { unfold q. rewrite Z.shiftr_div_pow2 by lia.
      assert (0 < 2 ^ (- e)) by (apply Z.pow_pos_nonneg; lia).
      split; [apply Z.div_pos; lia|].
      apply Z.div_lt_upper_bound; [lia|]. nia. }
    assert (H54 : (2 : Z) ^ 54 = 2 * 2 ^ 53) by reflexivity.
    assert (Hs : forall s0 v, 0 <= v <= q + 1 -> small 55 (of_scaled s0 v 0)).
    { intros s0 v Hv. apply of_scaled_small with (k := 54) (K := 54); lia. }
    destruct s.
    + pose proof (Hs true (if (Z.shiftl q (- e) =? Zpos m) then q else q + 1)
                    ltac:(destruct (_ =? _); lia)) as H.
      split; [exact (small_is_finite _ _ H)|now right].
    + pose proof (Hs false q ltac:(lia)) as H.
      split; [exact (small_is_finite _ _ H)|now right].
Qed.

(** The quotient that [x // y] returns from the rounded division, for a
    finite rounded [dv]. *)
Lemma floor_adjust_finite (s : bool) (dv : float) :
  rounded s dv -> is_finite dv = true ->
  is_finite (let fl := floor dv in
             if gtb (sub dv fl) (SFdiv prec emax (of_int 1) (of_int 2))
             then add fl (of_int 1) else fl) = true.
Proof.
  intros Hr Hfin. cbv zeta.
  destruct (floor_finite s dv Hr Hfin) as (Hfl & [Heq|Hsmall]).
  - rewrite Heq. destruct dv as [s'|s'| |s' m e]; try discriminate.
    + destruct s'; reflexivity.
    + rewrite sub_self. reflexivity.
  - destruct (gtb _ _); [|exact Hfl].
    apply small_is_finite with (K := 55 + 2).
    apply addsub_small; [assumption| |lia].
    rewrite of_int_1. simpl. exists 53. split; [lia|]. split; [reflexivity|lia].
Qed.

Lemma int_of_float_finite (x : float) :
  is_finite x = true -> exists z, int_of_float x = Py.Ok z.
Proof.
  destruct x as [s|s| |s m e]; simpl; try discriminate; intros _; eauto.
Qed.

(** [x // 60] and [x % 60] on a finite rounded non-negative [x]: finite. *)
Lemma div_mod_60_finite (m : positive) (e : Z) :
  Zpos m < 2 ^ 53 -> -1074 <= e <= 971 ->
  let x := S754_finite false m e in
  is_finite (fst (float_div_mod x (of_int 60))) = true /\
  exists r, modulo x (of_int 60) = Py.Ok r /\ is_finite r = true.
Proof.
  intros Hm He x.
  destruct (fmod_60 false m e) as (Hms & Hmr). fold x in Hms, Hmr.
  pose proof (ltb_zero_nonneg _ Hmr) as Hlt.
  assert (Hy : ltb (of_int 60) zero = false) by reflexivity.
  split.
  - unfold float_div_mod.
    set (mod0 := fmod x (of_int 60)) in *.
    rewrite Hy, Hlt. simpl Bool.eqb. simpl negb.
    set (div0 := SFdiv prec emax (sub x mod0) (of_int 60)).
    assert (Hsub : is_finite (sub x mod0) = true /\
                   exists s1, rounded s1 (sub x mod0)).
    { destruct mod0 as [s0|s0| |s0 m0 e0] eqn:Hmod; simpl in Hms; try tauto.
      - simpl. split; [reflexivity|]. exists false. simpl. lia.
      - simpl in Hmr. destruct Hmr as (-> & _).
        split; [apply sub_finite with (K := 7); simpl; try lia; exact Hms|].
        unfold x, sub, SFsub.
        set (M := _ - _).
        destruct (Z.le_gt_cases 0 M).
        + exists false. apply binary_normalize_sign. assumption.
        + exists true. unfold binary_normalize.
          destruct M as [|p|p]; try lia. apply binary_round_rounded. }
    destruct Hsub as (Hsf & s1 & Hsr).
    assert (Hdiv : small 1023 div0).
    { unfold div0. rewrite of_int_60.
      apply div_small with (s := s1); try assumption; [|lia].
      split; [|reflexivity]. intro Hc; discriminate Hc. }
    assert (Hdr : exists s2, rounded s2 div0).
    { unfold div0. destruct (div_rounded (sub x mod0) (of_int 60)) as [Hn|Hr].
      - fold div0 in Hn. rewrite Hn in Hdiv. destruct Hdiv.
      - eauto. }
    destruct Hdr as (s2 & Hdr).
    assert (Hres : is_finite
              (if negb (is_zero div0)
               then let fl := floor div0 in
                    if gtb (sub div0 fl) (SFdiv prec emax (of_int 1) (of_int 2))
                    then add fl (of_int 1) else fl
               else copysign_zero (SFdiv prec emax x (of_int 60))) = true).
    { destruct (is_zero div0); simpl negb; cbv iota.
      - reflexivity.
      - apply floor_adjust_finite with (s := s2);
          [assumption|exact (small_is_finite _ _ Hdiv)]. }
    destruct (negb (is_zero mod0)); simpl fst; exact Hres.
  - unfold modulo. change (is_zero (of_int 60)) with false. cbv iota.
    eexists. split; [reflexivity|].
    set (mod0 := fmod x (of_int 60)) in *.
    rewrite Hy, Hlt. simpl Bool.eqb. simpl negb. cbv iota.
    destruct (negb (is_zero mod0)); [|reflexivity].
    exact (small_is_finite _ _ Hms).
Qed.

(** Rendering a remaining time raises nothing but the [ValueError] of
    [int(nan)]. *)
Lemma format_eta_total (x : float) :
  rounded false x -> gtb x zero = true ->
  (exists text, format_eta x = Py.Ok text) \/
  (exists msg, format_eta x = Py.Raise (Py.Exn Py.ValueError msg)).
Proof.
  intros Hr Hpos.
  destruct x as [s|s| |s m e]; simpl in Hr; try tauto.
  - subst s. discriminate Hpos.
  - subst s. right. eexists. vm_compute. reflexivity.
  - destruct Hr as (-> & Hm & He). left.
    destruct (div_mod_60_finite m e Hm He) as (Hq & r & Hmod & Hrf).
    unfold format_eta, floordiv. change (is_zero (of_int 60)) with false.
    cbv iota. unfold Py.bind at 1.
    destruct (int_of_float_finite _ Hq) as (mins & ->).
    unfold Py.bind at 1. rewrite Hmod. unfold Py.bind at 1.
    destruct (int_of_float_finite _ Hrf) as (secs & ->).
    simpl. eauto.
Qed.

(** *** Comparisons *)

Lemma compare_cont_opp (p q : positive) :
  Pos.compare_cont Eq q p = CompOpp (Pos.compare_cont Eq p q).
Proof.
  change (Pos.compare_cont Eq q p) with (Pos.compare q p).
  change (Pos.compare_cont Eq p q) with (Pos.compare p q).
  apply Pos.compare_antisym.
Qed.

Lemma compare_antisym (x y : float) :
  SFcompare y x = option_map CompOpp (SFcompare x y).
Proof.
  destruct x as [sx|sx| |sx mx ex], y as [sy|sy| |sy my ey]; simpl;
    try reflexivity;
    try (destruct sx; reflexivity); try (destruct sy; reflexivity);
    try (destruct sx, sy; reflexivity).
  f_equal. destruct sx, sy; simpl; try reflexivity.
  - rewrite (Z.compare_antisym ex ey), (compare_cont_opp mx my).
    destruct (ex ?= ey); simpl; try reflexivity;
      destruct (Pos.compare_cont Eq mx my); reflexivity.
  - rewrite (Z.compare_antisym ex ey), (compare_cont_opp mx my).
    destruct (ex ?= ey); simpl; reflexivity.
Qed.

Lemma ltb_leb (x y : float) : ltb x y = true -> leb x y = true.
Proof.
  unfold ltb, leb, SFltb, SFleb. destruct (SFcompare x y) as [[]|]; congruence.
Qed.

Lemma compare_some (x y : float) :
  is_nan x = false -> is_nan y = false -> exists c, SFcompare x y = Some c.
Proof.
  destruct x, y; simpl; intros; try discriminate; eauto.
Qed.

Lemma not_ltb_leb (x y : float) :
  is_nan x = false -> is_nan y = false -> ltb y x = false -> leb x y = true.
Proof.
  unfold ltb, leb, SFltb, SFleb. intros Hx Hy.
  rewrite (compare_antisym x y).
  destruct (compare_some x y Hx Hy) as (c & ->).
  destruct c; simpl; congruence.
Qed.

Lemma rounded_not_nan (s : bool) (x : float) : rounded s x -> is_nan x = false.
Proof. destruct x; simpl; tauto. Qed.

Lemma leb_zero_rounded (x : float) : rounded false x -> leb zero x = true.
Proof.
  destruct x as [s|s| |s m e]; simpl; try tauto.
  - intros ->. reflexivity.
  - intros (-> & _). reflexivity.
Qed.

(** [min(p, 100)] of a non-negative [p] lies in [0, 100]. *)
Lemma min_100_range (p : float) :
  rounded false p ->
  leb zero (min p (of_int 100)) = true /\
  leb (min p (of_int 100)) (of_int 100) = true.
Proof.
  intros Hp. unfold min.
  destruct (ltb (of_int 100) p) eqn:Hlt.
  - split; reflexivity.
  - split; [apply leb_zero_rounded; assumption|].
    apply not_ltb_leb; [exact (rounded_not_nan _ _ Hp)|reflexivity|assumption].
Qed.

(** [max(0, min(100, p))] lies in [0, 100], whatever [p] is. *)
Lemma clamp_range (p : float) :
  leb zero (max (of_int 0) (min (of_int 100) p)) = true /\
  leb (max (of_int 0) (min (of_int 100) p)) (of_int 100) = true.
Proof.
  unfold max, min.
  destruct (ltb p (of_int 100)) eqn:H100.
  - destruct (ltb (of_int 0) p) eqn:H0.
    + split; apply ltb_leb; assumption.
    + split; reflexivity.
  - split; reflexivity.
Qed.

(** *** The arithmetic of the parser *)

Lemma round_Z_small (n k : Z) :
  0 <= n < 2 ^ k -> 0 <= k <= 1022 ->
  small (k + 1) (round_Z n) /\ rounded false (round_Z n).
Proof.
  intros Hn Hk. unfold round_Z. split.
  - apply binary_normalize_small with (k := k); lia.
  - apply binary_normalize_sign; lia.
Qed.

Lemma float_of_int_small (n k : Z) :
  0 <= n < 2 ^ k -> 0 <= k <= 1022 ->
  float_of_int n = Py.Ok (round_Z n).
Proof.
  intros Hn Hk. unfold float_of_int.
  destruct (round_Z_small n k Hn Hk) as (Hs & _).
  destruct (round_Z n); simpl in Hs; tauto.
Qed.

Lemma int_truediv_small (a b k : Z) :
  0 <= a < 2 ^ k -> 0 < b -> 0 <= k <= 1022 ->
  exists x, int_truediv a b = Py.Ok x /\
            x = SFdiv prec emax (exact a) (exact b) /\
            small (k + 1) x /\ rounded false x.
Proof.
  intros Ha Hb Hk. unfold int_truediv.
  destruct (Z.eqb_spec b 0) as [|_]; [lia|].
  destruct b as [|pb|pb]; try lia.
  assert (H : small (k + 1) (SFdiv prec emax (exact a) (exact (Zpos pb))) /\
              rounded false (SFdiv prec emax (exact a) (exact (Zpos pb)))).
  { destruct a as [|pa|pa]; [split; reflexivity| |lia].
    simpl exact. simpl SFdiv.
    destruct (div_core_spec pa 0 pb 0) as (q & l & sh & -> & Hsh & Hq & Hq0 & _).
    simpl xorb.
    apply binary_round_aux_small with (k := k + sh); try lia.
    split; [assumption|]. rewrite Hq.
    apply Z.div_lt_upper_bound; [lia|].
    assert (Hp : 0 < 2 ^ sh) by (apply Z.pow_pos_nonneg; lia).
    rewrite Z.pow_add_r by lia.
    assert (Zpos pa * 2 ^ sh < 2 ^ k * 2 ^ sh)
      by (apply Z.mul_lt_mono_pos_r; lia).
    nia. }
  destruct H as (Hs & Hr).
  destruct (SFdiv prec emax (exact a) (exact (Zpos pb))) eqn:Hd;
    try (simpl in Hs; tauto);
    (eexists; split; [reflexivity|split; [reflexivity|split; assumption]]).
Qed.

Lemma add_nonneg (x y : float) :
  rounded false x -> rounded false y ->
  is_finite x = true -> is_finite y = true ->
  rounded false (add x y).
Proof.
  destruct x as [sx|sx| |sx mx ex], y as [sy|sy| |sy my ey]; simpl;
    try discriminate; try tauto.
  - intros -> -> _ _. reflexivity.
  - intros (-> & _) (-> & _) _ _.
    unfold add, SFadd. simpl cond_Zopp.
    apply binary_normalize_sign. lia.
Qed.

(** The elapsed time the parser computes from a marker: finite, not
    negative, below [2^22]. *)
Lemma marker_time_small (n c : Z) :
  0 <= n < 2 ^ 19 -> 0 <= c < 2 ^ 7 ->
  small 22 (add (round_Z n) (SFdiv prec emax (exact c) (exact 100))) /\
  rounded false (add (round_Z n) (SFdiv prec emax (exact c) (exact 100))).
Proof.
  intros Hn Hc.
  destruct (round_Z_small n 19 Hn ltac:(lia)) as (Hws & Hwr).
  destruct (int_truediv_small c 100 7 Hc ltac:(lia) ltac:(lia))
    as (x & _ & -> & Hfs & Hfr).
  split.
  - apply (proj1 (addsub_small 20 _ _ Hws
                    (small_weaken (7 + 1) 20 _ Hfs ltac:(lia)) ltac:(lia))).
  - apply add_nonneg; try assumption.
    + exact (small_is_finite _ _ Hws).
    + exact (small_is_finite _ _ Hfs).
Qed.

Lemma gtb_zero_cases (x : float) :
  gtb x zero = true ->
  x = S754_infinity false \/ exists m e, x = S754_finite false m e.
Proof.
  destruct x as [s|s| |s m e]; simpl; try discriminate.
  - destruct s; [discriminate|]. now left.
  - destruct s; [discriminate|]. right. eauto.
Qed.

Lemma gtb_zero_not_zero (x : float) : gtb x zero = true -> is_zero x = false.
Proof. intros [->|(m & e & ->)]%gtb_zero_cases; reflexivity. Qed.

(** A finite non-negative dividend by a positive divisor: no NaN, not
    negative. *)
Lemma div_nonneg (x y : float) :
  rounded false x -> is_finite x = true -> gtb y zero = true ->
  rounded false (SFdiv prec emax x y).
Proof.
  intros Hx Hfin Hy.
  assert (Hsx : sign_of x = false).
  { destruct x; simpl in *; tauto. }
  assert (Hsy : sign_of y = false).
  { destruct (gtb_zero_cases y Hy) as [->|(m & e & ->)]; reflexivity. }
  destruct (div_rounded x y) as [Hn|Hr].
  - destruct (gtb_zero_cases y Hy) as [->|(m & e & ->)];
      destruct x as [sx|sx| |sx mx ex]; simpl in *; try discriminate.
    destruct (div_core_spec mx ex m e) as (q & l & sh & Hc & _ & _ & Hq & _).
    rewrite Hc in Hn.
    pose proof (binary_round_aux_rounded (xorb sx false) q (ex - e - sh) l Hq)
      as Hr. rewrite Hn in Hr. destruct Hr.
  - rewrite Hsx, Hsy in Hr. exact Hr.
Qed.

Lemma of_int_100 : of_int 100 = S754_finite false 7036874417766400 (-46).
Proof. reflexivity. Qed.

Lemma mul_100_nonneg (x : float) :
  rounded false x -> rounded false (mul x (of_int 100)).
Proof.
  rewrite of_int_100.
  destruct x as [sx|sx| |sx mx ex]; simpl; try tauto.
  - intros ->. reflexivity.
  - intros ->. reflexivity.
  - intros (-> & _). apply binary_round_aux_rounded. lia.
Qed.

(** The percent of the parser lies in [0, 100]. *)
Lemma percent_range (ct td : float) :
  rounded false ct -> is_finite ct = true -> gtb td zero = true ->
  let p := min (mul (SFdiv prec emax ct td) (of_int 100)) (of_int 100) in
  leb zero p = true /\ leb p (of_int 100) = true.
Proof.
  intros Hct Hfin Htd. cbv zeta.
  apply min_100_range, mul_100_nonneg, div_nonneg; assumption.
Qed.

End FloatFacts.

(** * Text: digits, markers and the parser *)

Module TextFacts.

Lemma isdigit_cases (a : ascii) : isdigit a = true -> List.In a decimal_digits.
Proof.
  destruct a as [b0 b1 b2 b3 b4 b5 b6 b7].
  destruct b0, b1, b2, b3, b4, b5, b6, b7; intros H;
    vm_compute in H; try discriminate H; simpl; tauto.
Qed.

Ltac digit_cases H :=
  apply isdigit_cases in H; simpl in H;
  repeat (destruct H as [<-|H]); [..|destruct H].

Lemma digit_value_range (a : ascii) :
  isdigit a = true -> 0 <= digit_value a <= 9.
Proof. intros H. digit_cases H; vm_compute; split; discriminate. Qed.

Lemma two_range (a b : ascii) :
  isdigit a = true -> isdigit b = true -> 0 <= two a b <= 99.
Proof.
  intros Ha Hb. unfold two.
  pose proof (digit_value_range a Ha). pose proof (digit_value_range b Hb).
  lia.
Qed.

Lemma int_of_pair (a b : ascii) :
  isdigit a = true -> isdigit b = true ->
  int_of_str (pair_of a b) = Py.Ok (two a b).
Proof. intros Ha Hb. digit_cases Ha; digit_cases Hb; reflexivity. Qed.

Lemma two_digits_inv (s g r : string) :
  Re.two_digits s = Some (g, r) ->
  exists a b, isdigit a = true /\ isdigit b = true /\
              g = pair_of a b /\ s = String a (String b r).
Proof.
  unfold Re.two_digits. destruct s as [|a [|b s]]; try discriminate.
  destruct (isdigit a) eqn:Ha, (isdigit b) eqn:Hb; try discriminate.
  intros [= <- <-]. exists a, b. repeat split; assumption.
Qed.

Lemma span_digits (s g r : string) :
  span isdigit s = (g, r) -> all_digits g = true /\ s = (g ++ r)%string.
Proof.
  revert g r. induction s as [|c s IH]; intros g r; simpl.
  - intros [= <- <-]. split; reflexivity.
  - destruct (isdigit c) eqn:Hc.
    + destruct (span isdigit s) as [a b]. intros [= <- <-].
      destruct (IH a b eq_refl) as (Ha & ->). simpl. rewrite Hc, Ha.
      split; reflexivity.
    + intros [= <- <-]. split; reflexivity.
Qed.

Lemma run1_digits (s g r : string) :
  Re.run1 isdigit s = Some (g, r) ->
  exists c g', g = String c g' /\ isdigit c = true /\ all_digits g' = true /\
               s = (g ++ r)%string.
Proof.
  unfold Re.run1. destruct (span isdigit s) as [a b] eqn:Hs.
  destruct (span_digits s a b Hs) as (Ha & ->).
  destruct a as [|c a]; [discriminate|]. intros [= <- <-].
  simpl in Ha. apply andb_true_iff in Ha as [Hc Ha]. eauto 10.
Qed.

Lemma expect_inv (c : ascii) (s r : string) :
  Re.expect c s = Some r -> s = String c r.
Proof.
  destruct s as [|a s]; simpl; [discriminate|].
  destruct (Ascii.eqb_spec a c) as [->|]; [|discriminate]. now intros [= ->].
Qed.

(** The groups of a time marker. *)
Lemma match_time_inv (s g1 g2 g3 g4 : string) :
  Re.match_time s = Some (g1, g2, g3, g4) ->
  exists h1 h2 m1 m2 s1 s2 f g',
    isdigit h1 = true /\ isdigit h2 = true /\ isdigit m1 = true /\
    isdigit m2 = true /\ isdigit s1 = true /\ isdigit s2 = true /\
    isdigit f = true /\ all_digits g' = true /\
    g1 = pair_of h1 h2 /\ g2 = pair_of m1 m2 /\ g3 = pair_of s1 s2 /\
    g4 = String f g'.
Proof.
  unfold Re.match_time. intros H.
  destruct (strip_prefix "time=" s) as [r0|]; [|discriminate]. simpl in H.
  destruct (Re.two_digits r0) as [[a1 r1]|] eqn:H1; [|discriminate]. simpl in H.
  destruct (Re.expect ":" r1) as [r2|]; [|discriminate]. simpl in H.
  destruct (Re.two_digits r2) as [[a2 r3]|] eqn:H2; [|discriminate]. simpl in H.
  destruct (Re.expect ":" r3) as [r4|]; [|discriminate]. simpl in H.
  destruct (Re.two_digits r4) as [[a3 r5]|] eqn:H3; [|discriminate]. simpl in H.
  destruct (Re.expect "." r5) as [r6|]; [|discriminate]. simpl in H.
  destruct (Re.run1 isdigit r6) as [[a4 r7]|] eqn:H4; [|discriminate].
  simpl in H. injection H as <- <- <- <-.
  apply two_digits_inv in H1 as (h1 & h2 & ? & ? & -> & _).
  apply two_digits_inv in H2 as (m1 & m2 & ? & ? & -> & _).
  apply two_digits_inv in H3 as (s1 & s2 & ? & ? & -> & _).
  apply run1_digits in H4 as (f & g' & -> & ? & ? & _).
  exists h1, h2, m1, m2, s1, s2, f, g'. repeat split; assumption.
Qed.

Lemma search_inv {A : Type} (m : string -> option A) (s : string) (g : A) :
  Re.search m s = Some g -> exists t, m t = Some g.
Proof.
  induction s as [|c s IH]; simpl.
  - destruct (m "") eqn:E; [intros [= <-]; eauto|discriminate].
  - destruct (m (String c s)) eqn:E; [intros [= <-]; eauto|exact IH].
Qed.

Lemma centiseconds_eq (f : ascii) (g' : string) :
  isdigit f = true -> all_digits g' = true ->
  (if Nat.leb 2 (String.length (String f g'))
   then int_of_str (take 2 (String f g'))
   else Py.Ok 0) = Py.Ok (kept_fraction (String f g')) /\
  0 <= kept_fraction (String f g') <= 99.
Proof.
  intros Hf Hg. destruct g' as [|d g'']; simpl.
  - split; [reflexivity|lia].
  - simpl in Hg. apply andb_true_iff in Hg as [Hd _].
    unfold take. simpl String.substring.
    replace (String.substring 0 0 g'') with "" by (destruct g''; reflexivity).
    split; [exact (int_of_pair f d Hf Hd)|exact (two_range f d Hf Hd)].
Qed.

End TextFacts.

Module ParserFacts.
Import FloatFacts TextFacts.

Lemma float_of_str_raise (s : string) (e : Py.exn) :
  float_of_str s = Py.Raise e -> Py.exn_cls e = Py.ValueError.
Proof.
  unfold float_of_str.
  destruct (drop_underscores None _) as [t|]; [|intros [= <-]; reflexivity].
  destruct (split_sign t) as [neg body].
  destruct (_ || _)%bool; [discriminate|].
  destruct (String.eqb _ "nan"); [discriminate|].
  destruct (float_of_numeral body); [discriminate|intros [= <-]; reflexivity].
Qed.

Lemma modulo_snd (x y : float) :
  is_zero y = false -> modulo x y = Py.Ok (snd (float_div_mod x y)).
Proof.
  intros Hy. unfold modulo, float_div_mod. rewrite Hy.
  destruct (negb (is_zero (fmod x y))); [|reflexivity].
  destruct (negb (Bool.eqb (ltb y zero) (ltb (fmod x y) zero))); reflexivity.
Qed.

(** When both parts are finite, the rendering is that of the spec. *)
Lemma format_eta_finite (x : float) :
  is_finite (fst (float_div_mod x (of_int 60))) = true ->
  is_finite (snd (float_div_mod x (of_int 60))) = true ->
  format_eta x = Py.Ok (minutes_seconds x).
Proof.
  intros Hq Hr. unfold format_eta, floordiv, minutes_seconds, trunc.
  change (is_zero (of_int 60)) with false. cbv iota.
  rewrite (modulo_snd x (of_int 60) eq_refl).
  destruct (float_div_mod x (of_int 60)) as [q r]. simpl in *.
  destruct (int_of_float_finite q Hq) as (mins & ->).
  destruct (int_of_float_finite r Hr) as (secs & ->).
  reflexivity.
Qed.

(** A positive quotient is rendered when it is finite; the infinite one
    ends in the [ValueError] of [int(nan)]. *)
Lemma format_eta_quotient (a b : float) :
  let r := SFdiv prec emax a b in
  gtb r zero = true ->
  (is_finite r = true /\ format_eta r = Py.Ok (minutes_seconds r)) \/
  (is_finite r = false /\
   exists msg, format_eta r = Py.Raise (Py.Exn Py.ValueError msg)).
Proof.
  intros r Hpos.
  assert (Hr : rounded false r).
  { destruct (div_rounded a b) as [Hn|Hr']; fold r in Hn || fold r in Hr'.
    - rewrite Hn in Hpos. discriminate.
    - destruct (gtb_zero_cases r Hpos) as [Hi|(m & e & Hf)].
      + rewrite Hi. reflexivity.
      + rewrite Hf in Hr' |- *. simpl in Hr' |- *.
        split; [reflexivity|exact (proj2 Hr')]. }
  destruct (gtb_zero_cases r Hpos) as [Hi|(m & e & Hf)].
  - right. rewrite Hi. split; [reflexivity|]. eexists. vm_compute. reflexivity.
  - left. rewrite Hf in *. split; [reflexivity|].
    destruct Hr as (_ & Hm & He).
    destruct (div_mod_60_finite m e Hm He) as (Hq & r' & Hmod & Hrf).
    rewrite modulo_snd in Hmod by reflexivity. injection Hmod as <-.
    apply format_eta_finite; assumption.
Qed.

(** The [eta] of the parser is the ETA of the spec. *)
Lemma eta_text_spec (td ct : float) (sm : option string) :
  eta_text td ct sm
  = Py.Ok (default "" (eta_spec td ct (speed_number sm))).
Proof.
  unfold eta_text, eta_spec, speed_number.
  destruct sm as [g|]; [|reflexivity].
  destruct (gtb td zero) eqn:Htd.
  - destruct (float_of_str g) as [v|e] eqn:Hv.
    + unfold Py.bind at 1. rewrite andb_true_r.
      destruct (gtb v zero) eqn:Hv0; [|reflexivity].
      unfold truediv. rewrite (gtb_zero_not_zero v Hv0).
      unfold Py.bind at 1.
      destruct (gtb (SFdiv prec emax (sub td ct) v) zero) eqn:Hr.
      * destruct (format_eta_quotient (sub td ct) v Hr)
          as [(Hf & ->)|(Hf & msg & ->)]; rewrite Hf; reflexivity.
      * rewrite andb_false_r. reflexivity.
    + simpl. rewrite (float_of_str_raise g e Hv). reflexivity.
  - destruct (float_of_str g); [rewrite andb_false_r|]; reflexivity.
Qed.

(** What [parse_ffmpeg_progress] returns once the marker is found. *)
Lemma parse_marker (line : string) (td : float) (g1 g2 g3 g4 : string) :
  Re.search Re.match_time line = Some (g1, g2, g3, g4) ->
  exists h1 h2 m1 m2 s1 s2 f g',
    isdigit h1 = true /\ isdigit h2 = true /\ isdigit m1 = true /\
    isdigit m2 = true /\ isdigit s1 = true /\ isdigit s2 = true /\
    isdigit f = true /\ all_digits g' = true /\
    g1 = pair_of h1 h2 /\ g2 = pair_of m1 m2 /\ g3 = pair_of s1 s2 /\
    g4 = String f g' /\
    let ct := marker_seconds (two h1 h2) (two m1 m2) (two s1 s2)
                (kept_fraction g4) in
    small 22 ct /\ rounded false ct /\
    parse_ffmpeg_progress line td
    = Py.Ok (Some (mkConversionProgress
                     (percent_of td ct)
                     match Re.search Re.match_speed line with
                     | Some g => (g ++ "x")%string
                     | None => ""
                     end
                     match Re.search Re.match_fps line with
                     | Some g => g
                     | None => ""
                     end
                     (default "" (eta_spec td ct
                        (speed_number (Re.search Re.match_speed line))))
                     ct td)).
Proof.
  intros Hs. destruct (search_inv _ _ _ Hs) as (t & Ht).
  destruct (match_time_inv t g1 g2 g3 g4 Ht)
    as (h1 & h2 & m1 & m2 & s1 & s2 & f & g' &
        Hh1 & Hh2 & Hm1 & Hm2 & Hs1 & Hs2 & Hf & Hg' & -> & -> & -> & ->).
  exists h1, h2, m1, m2, s1, s2, f, g'.
  repeat (split; [assumption || reflexivity|]).
  pose proof (two_range h1 h2 Hh1 Hh2) as Rh.
  pose proof (two_range m1 m2 Hm1 Hm2) as Rm.
  pose proof (two_range s1 s2 Hs1 Hs2) as Rs.
  destruct (centiseconds_eq f g' Hf Hg') as (Hc & Rc).
  set (c := kept_fraction (String f g')) in *.
  set (n := two h1 h2 * 3600 + two m1 m2 * 60 + two s1 s2).
  assert (Hn : 0 <= n < 2 ^ 19) by (change (2 ^ 19) with 524288; lia).
  assert (Hc7 : 0 <= c < 2 ^ 7) by (change (2 ^ 7) with 128; lia).
  destruct (marker_time_small n c Hn Hc7) as (Hsmall & Hround).
  cbv zeta. split; [exact Hsmall|]. split; [exact Hround|].
  unfold parse_ffmpeg_progress. rewrite Hs.
  rewrite !int_of_pair by assumption. unfold Py.bind at 1 2 3.
  rewrite Hc. unfold Py.bind at 1.
  destruct (int_truediv_small c 100 7 Hc7 ltac:(lia) ltac:(lia))
    as (x & -> & -> & _). unfold Py.bind at 1.
  fold n. rewrite (float_of_int_small n 19 Hn ltac:(lia)).
  unfold Py.bind at 1.
  change (add (round_Z n) (SFdiv prec emax (exact c) (exact 100)))
    with (marker_seconds (two h1 h2) (two m1 m2) (two s1 s2) c).
  set (ct := marker_seconds _ _ _ c).
  rewrite eta_text_spec.
  assert (Hp : (if gtb td zero
                then let! ratio := truediv ct td in
                     Py.Ok (min (mul ratio (of_int 100)) (of_int 100))
                else Py.Ok zero) = Py.Ok (percent_of td ct)).
  { unfold percent_of. destruct (gtb td zero) eqn:Htd; [|reflexivity].
    unfold truediv. rewrite (gtb_zero_not_zero td Htd). reflexivity. }
  rewrite Hp. reflexivity.
Qed.

(** The parser raises nothing. *)
Lemma parse_total (line : string) (td : float) :
  exists r, parse_ffmpeg_progress line td = Py.Ok r.
Proof.
  destruct (Re.search Re.match_time line) as [[[[g1 g2] g3] g4]|] eqn:Hs.
  - destruct (parse_marker line td g1 g2 g3 g4 Hs)
      as (h1 & h2 & m1 & m2 & s1 & s2 & f & g' &
          _ & _ & _ & _ & _ & _ & _ & _ & _ & _ & _ & _ & _ & _ & Heq).
    eauto.
  - unfold parse_ffmpeg_progress. rewrite Hs. eauto.
Qed.

End ParserFacts.

(** * The progress streams *)

Module MarkerFacts.
Import FloatFacts TextFacts ParserFacts.

(** A prefix split over a concatenation. *)
Lemma strip_prefix_app (p a b r : string) :
  strip_prefix p (a ++ b) = Some r -> strip_prefix p a = None ->
  exists p2, p = (a ++ p2)%string /\ strip_prefix p2 b = Some r.
Proof.
  revert a. induction p as [|x p IH]; intros a; simpl.
  - destruct a; discriminate.
  - destruct a as [|y a]; simpl.
    + intros H _. exists (String x p). split; [reflexivity|exact H].
    + destruct (Ascii.eqb_spec x y) as [->|]; [|discriminate].
      intros H1 H2. destruct (IH a H1 H2) as (p2 & -> & H). eauto.
Qed.

Lemma no_marker_across (c : ascii) (pre rest : string) :
  strip_prefix "time=" (String c pre) = None ->
  strip_prefix "time=" (String c pre ++ "time=" ++ rest) = None.
Proof.
  intros Hnone.
  destruct (strip_prefix "time=" (String c pre ++ "time=" ++ rest)) as [r|] eqn:H;
    [|reflexivity].
  destruct (strip_prefix_app _ _ _ _ H Hnone) as (p2 & Heq & Hp2).
  exfalso.
  destruct pre as [|c2 [|c3 [|c4 [|c5 pre]]]]; simpl in Heq;
    injection Heq as <-; intros; subst; simpl in Hp2; discriminate.
Qed.

Lemma match_time_needs_prefix (s : string) :
  strip_prefix "time=" s = None -> Re.match_time s = None.
Proof. unfold Re.match_time. intros ->. reflexivity. Qed.

(** The search skips a text in which [time=] does not occur. *)
Lemma search_skip (pre s : string) :
  contains "time=" pre = false ->
  Re.search Re.match_time (pre ++ "time=" ++ s)
  = Re.search Re.match_time ("time=" ++ s).
Proof.
  induction pre as [|c pre IH]; [reflexivity|].
  intros H. cbn [contains] in H.
  destruct (strip_prefix "time=" (String c pre)) eqn:Hp; [discriminate|].
  change (String c pre ++ "time=" ++ s)%string
    with (String c (pre ++ "time=" ++ s)).
  cbn [Re.search].
  assert (Hm : Re.match_time (String c (pre ++ "time=" ++ s)) = None).
  { apply match_time_needs_prefix.
    exact (no_marker_across c pre s Hp). }
  rewrite Hm. exact (IH H).
Qed.

Lemma search_here {A : Type} (m : string -> option A) (s : string) (g : A) :
  m s = Some g -> Re.search m s = Some g.
Proof. intros H. destruct s; simpl; rewrite H; reflexivity. Qed.

(** The groups of a well-formed marker, whatever follows it. *)
Lemma match_time_marker (h1 h2 m1 m2 s1 s2 f1 f2 : ascii) (rest : string) :
  isdigit h1 = true -> isdigit h2 = true -> isdigit m1 = true ->
  isdigit m2 = true -> isdigit s1 = true -> isdigit s2 = true ->
  isdigit f1 = true -> isdigit f2 = true ->
  Re.match_time (time_marker h1 h2 m1 m2 s1 s2 f1 f2 ++ rest)
  = Some (pair_of h1 h2, pair_of m1 m2, pair_of s1 s2,
          String f1 (String f2 (fst (span isdigit rest)))).
Proof.
  intros Hh1 Hh2 Hm1 Hm2 Hs1 Hs2 Hf1 Hf2.
  unfold time_marker, pair_of, Re.match_time. simpl.
  rewrite Hh1, Hh2. simpl. rewrite Hm1, Hm2. simpl. rewrite Hs1, Hs2. simpl.
  unfold Re.run1. simpl. rewrite Hf1, Hf2.
  change (String.append "" rest) with rest.
  destruct (span isdigit rest) as [a b]. reflexivity.
Qed.

(** The groups of a marker with one fractional digit. *)
Lemma match_time_short_marker (h1 h2 m1 m2 s1 s2 f1 : ascii) (rest : string) :
  isdigit h1 = true -> isdigit h2 = true -> isdigit m1 = true ->
  isdigit m2 = true -> isdigit s1 = true -> isdigit s2 = true ->
  isdigit f1 = true ->
  Re.match_time
    ("time=" ++ pair_of h1 h2 ++ ":" ++ pair_of m1 m2 ++ ":" ++ pair_of s1 s2
     ++ "." ++ String f1 rest)
  = Some (pair_of h1 h2, pair_of m1 m2, pair_of s1 s2,
          String f1 (fst (span isdigit rest))).
Proof.
  intros Hh1 Hh2 Hm1 Hm2 Hs1 Hs2 Hf1.
  unfold pair_of, Re.match_time. simpl.
  rewrite Hh1, Hh2. simpl. rewrite Hm1, Hm2. simpl. rewrite Hs1, Hs2. simpl.
  unfold Re.run1. simpl. rewrite Hf1.
  destruct (span isdigit rest) as [a b]. reflexivity.
Qed.

End MarkerFacts.

Module StreamFacts.
Import FloatFacts TextFacts ParserFacts.

Lemma is_zero_not_gtb (td : float) : is_zero td = true -> gtb td zero = false.
Proof. destruct td; try discriminate. reflexivity. Qed.

Ltac step_bind :=
  lazymatch goal with
  | |- Py.bind ?c _ = _ \/ _ =>
      let e := fresh "e" in
      destruct c as [?|e]; [cbn [Py.bind]|right; exists e; reflexivity]
  end.

(** Without a known duration the [out_time=] branch builds no event. *)
Lemma out_time_progress_unknown (given : bool) (td : float) (ts : string) :
  gtb td zero = false ->
  out_time_progress given td ts = Py.Ok None \/
  exists e, out_time_progress given td ts = Py.Raise e.
Proof.
  intros Htd. unfold out_time_progress.
  destruct (Nat.leb 3 _); [|now left].
  repeat step_bind. rewrite Htd. now left.
Qed.

Lemma stdout_line_unknown (cb : option Sink) (td : float) (line : string)
    (rd : Reader) :
  gtb td zero = false -> last_progress rd = None ->
  exists r, stdout_line cb td line rd = (rd, r).
Proof.
  intros Htd Hlp. unfold stdout_line.
  destruct (startswith "out_time=" line).
  { unfold on_out_time. destruct (value_of line) as [ts|e]; [|eauto].
    destruct (_ && _)%bool; [|eauto].
    destruct (out_time_progress_unknown (bool_decide (is_Some cb)) td ts Htd)
      as [->|(e & ->)]; eauto. }
  destruct (startswith "speed=" line).
  { unfold on_speed. destruct (value_of line); [|eauto].
    rewrite Hlp. eauto. }
  destruct (startswith "fps=" line).
  { unfold on_fps. destruct (value_of line); [|eauto].
    rewrite Hlp. eauto. }
  eauto.
Qed.

Lemma read_stdout_unknown (cb : option Sink) (td : float)
    (lines : list string) (rd : Reader) :
  gtb td zero = false -> last_progress rd = None ->
  exists r, read_stdout cb td lines rd = (rd, r).
Proof.
  intros Htd Hlp. induction lines as [|line lines IH]; simpl; [eauto|].
  destruct (stdout_line_unknown cb td line rd Htd Hlp) as ([u|e] & ->);
    [exact IH|eauto].
Qed.

(** An event of the parser when the duration is not positive. *)
Lemma parse_unknown (line : string) (td : float) (ev : ConversionProgress) :
  gtb td zero = false ->
  parse_ffmpeg_progress line td = Py.Ok (Some ev) -> unpopulated ev.
Proof.
  intros Htd Hp.
  destruct (Re.search Re.match_time line) as [[[[g1 g2] g3] g4]|] eqn:Hs.
  - destruct (parse_marker line td g1 g2 g3 g4 Hs)
      as (h1 & h2 & m1 & m2 & s1 & s2 & f & g' &
          _ & _ & _ & _ & _ & _ & _ & _ & _ & _ & _ & _ & _ & _ & Heq).
    rewrite Heq in Hp. injection Hp as <-. unfold unpopulated. simpl.
    unfold percent_of, eta_spec. rewrite Htd.
    destruct (speed_number _); [rewrite andb_false_r|]; split; reflexivity.
  - unfold parse_ffmpeg_progress in Hp. rewrite Hs in Hp. discriminate.
Qed.

Lemma read_stderr_lines_unknown (cb : option Sink) (td : float)
    (lines : list string) (acc : list string * Reader) :
  gtb td zero = false ->
  Forall unpopulated (delivered (snd acc)) ->
  Forall unpopulated
    (delivered (snd (read_stderr_lines cb td lines acc))).
Proof.
  intros Htd. revert acc.
  induction lines as [|line lines IH]; intros [out rd] Hacc; [exact Hacc|].
  cbn [read_stderr_lines].
  unfold stderr_line. destruct cb as [f|].
  - destruct (parse_ffmpeg_progress line td) as [[ev|]|e] eqn:Hp.
    + unfold call_sink.
      assert (Hnew : Forall unpopulated (delivered rd ++ [ev])).
      { apply Forall_app. split; [exact Hacc|].
        constructor; [|constructor].
        exact (parse_unknown line td ev Htd Hp). }
      destruct (f (delivered rd) ev); [apply IH|]; exact Hnew.
    + apply IH. exact Hacc.
    + exact Hacc.
  - apply IH. exact Hacc.
Qed.




(** Events of the structured stream never go above 100. *)
Lemma min_100_capped (x : float) :
  gtb (min x (of_int 100)) (of_int 100) = false.
Proof.
  unfold min, gtb, ltb.
  destruct (SFltb (of_int 100) x) eqn:H; [reflexivity|exact H].
Qed.

Lemma out_time_progress_capped (given : bool) (td : float) (s : string)
    (ev : ConversionProgress) :
  out_time_progress given td s = Py.Ok (Some ev) -> capped ev.
Proof.
  unfold out_time_progress.
  destruct (Nat.leb 3 _); [|discriminate].
  repeat lazymatch goal with
  | |- Py.bind ?c _ = _ -> _ => destruct c; cbn [Py.bind]; [|discriminate]
  end.
  destruct (_ && _)%bool; [|discriminate].
  destruct (truediv _ _); cbn [Py.bind]; [|discriminate].
  intros H. injection H as <-. apply min_100_capped.
Qed.

Lemma call_sink_capped (cb : Sink) (p : ConversionProgress) (rd : Reader) :
  capped p -> reader_capped rd -> reader_capped (fst (call_sink cb p rd)).
Proof.
  intros Hp [Hd Hl]. split; cbn.
  - apply Forall_app. split; [exact Hd|]. constructor; [exact Hp|constructor].
  - exact Hl.
Qed.

Lemma stdout_line_capped (cb : option Sink) (td : float) (line : string)
    (rd : Reader) :
  reader_capped rd -> reader_capped (fst (stdout_line cb td line rd)).
Proof.
  intros Hrd. pose proof Hrd as [Hd Hl].
  unfold stdout_line.
  destruct (startswith "out_time=" line).
  { unfold on_out_time. destruct (value_of line) as [v|e]; [|exact Hrd].
    destruct (_ && _)%bool; [|exact Hrd].
    destruct (out_time_progress _ td v) as [[ev|]|e] eqn:Ho;
      [|exact Hrd|exact Hrd].
    apply out_time_progress_capped in Ho.
    destruct cb as [cb|]; [|exact Hrd].
    pose proof (call_sink_capped cb ev (mkReader (Some ev) (delivered rd)) Ho)
      as H.
    destruct (call_sink cb ev _) as [rd' r]. cbn [fst] in *.
    apply H. split; [exact Hd|]. cbn. intros lp [= <-]. exact Ho. }
  destruct (startswith "speed=" line).
  { unfold on_speed. destruct (value_of line) as [v|e]; [|exact Hrd].
    destruct (last_progress rd) as [lp|] eqn:Hlp; [|exact Hrd].
    specialize (Hl lp eq_refl).
    destruct (_ && _)%bool; [|exact Hrd].
    destruct (speed_eta td (set_speed v lp) v) as [new_eta|e].
    - assert (Hc : capped match new_eta with
                          | Some text => set_eta text (set_speed v lp)
                          | None => set_speed v lp
                          end) by (destruct new_eta; exact Hl).
      destruct cb as [cb|].
      + apply call_sink_capped; [exact Hc|].
        split; [exact Hd|]. cbn. intros ? [= <-]. exact Hc.
      + split; [exact Hd|]. cbn. intros ? [= <-]. exact Hc.
    - split; [exact Hd|]. cbn. intros ? [= <-]. exact Hl. }
  destruct (startswith "fps=" line); [|exact Hrd].
  unfold on_fps. destruct (value_of line) as [v|e]; [|exact Hrd].
  destruct (last_progress rd) as [lp|] eqn:Hlp; [|exact Hrd].
  specialize (Hl lp eq_refl).
  destruct (_ && _)%bool; [|exact Hrd].
  split; [exact Hd|]. cbn. intros ? [= <-]. exact Hl.
Qed.

Lemma read_stdout_capped (cb : option Sink) (td : float)
    (lines : list string) :
  forall rd, reader_capped rd ->
             reader_capped (fst (read_stdout cb td lines rd)).
Proof.
  induction lines as [|line rest IH]; intros rd Hrd; [exact Hrd|].
  cbn [read_stdout].
  pose proof (stdout_line_capped cb td line rd Hrd) as H.
  destruct (stdout_line cb td line rd) as [rd' [u|e]]; cbn [fst] in H.
  - apply IH. exact H.
  - exact H.
Qed.

End StreamFacts.

Import FloatFacts TextFacts ParserFacts MarkerFacts StreamFacts.

(** C4, as the claim states it, fails: of the fraction [.789] the parser
    keeps [.78], and a fraction of one digit it drops, so the elapsed time
    is neither [0*3600 + 0*60 + 1 + 0.789] nor [0*3600 + 0*60 + 1 + 0.5]. *)
Lemma fraction_past_two_digits_is_dropped :
  (exists ev,
     parse_ffmpeg_progress "time=00:00:01.789" zero = Py.Ok (Some ev) /\
     eqb (current_time ev)
         (add (of_int (0 * 3600 + 0 * 60 + 1)) (literal 789 (-3))) = false /\
     current_time ev = add (of_int 1) (literal 78 (-2))) /\
  (exists ev,
     parse_ffmpeg_progress "time=00:00:01.5 bitrate=N/A" zero
     = Py.Ok (Some ev) /\
     eqb (current_time ev)
         (add (of_int (0 * 3600 + 0 * 60 + 1)) (literal 5 (-1))) = false /\
     current_time ev = of_int 1).
Proof.
  split; eexists; (split; [vm_compute; reflexivity|]);
    split; vm_compute; reflexivity.
Qed.

(** C4 (amended): a line whose first [time=] opens a marker
    [time=HH:MM:SS.ff], whatever precedes and follows it, yields a fragment
    whose [current_time] is [hours*3600 + minutes*60 + seconds + c/100] with
    [c] the number of the first two fractional digits (further digits are
    dropped); a fraction of one digit counts for nothing; when the marker
    is [time=12:34:56.78] the result is the float
    [12*3600 + 34*60 + 56.78]. *)
Theorem marker_elapsed_time :
  (forall (pre rest : string) (h1 h2 m1 m2 s1 s2 f1 f2 : ascii) (td : float),
     isdigit h1 = true -> isdigit h2 = true -> isdigit m1 = true ->
     isdigit m2 = true -> isdigit s1 = true -> isdigit s2 = true ->
     isdigit f1 = true -> isdigit f2 = true ->
     contains "time=" pre = false ->
     exists ev,
       parse_ffmpeg_progress
         (pre ++ time_marker h1 h2 m1 m2 s1 s2 f1 f2 ++ rest) td
       = Py.Ok (Some ev) /\
       current_time ev
       = marker_seconds (two h1 h2) (two m1 m2) (two s1 s2) (two f1 f2)) /\
  (forall (pre rest : string) (h1 h2 m1 m2 s1 s2 f1 : ascii) (td : float),
     isdigit h1 = true -> isdigit h2 = true -> isdigit m1 = true ->
     isdigit m2 = true -> isdigit s1 = true -> isdigit s2 = true ->
     isdigit f1 = true ->
     contains "time=" pre = false ->
     fst (span isdigit rest) = "" ->
     exists ev,
       parse_ffmpeg_progress
         (pre ++ "time=" ++ pair_of h1 h2 ++ ":" ++ pair_of m1 m2 ++ ":"
          ++ pair_of s1 s2 ++ "." ++ String f1 rest) td
       = Py.Ok (Some ev) /\
       current_time ev
       = marker_seconds (two h1 h2) (two m1 m2) (two s1 s2) 0) /\
  (forall (pre rest : string) (td : float),
     contains "time=" pre = false ->
     exists ev,
       parse_ffmpeg_progress (pre ++ "time=12:34:56.78" ++ rest) td
       = Py.Ok (Some ev) /\
       current_time ev = add (of_int (12 * 3600 + 34 * 60)) (literal 5678 (-2))).
Proof.
  assert (General :
    forall (pre rest : string) (h1 h2 m1 m2 s1 s2 f1 f2 : ascii) (td : float),
     isdigit h1 = true -> isdigit h2 = true -> isdigit m1 = true ->
     isdigit m2 = true -> isdigit s1 = true -> isdigit s2 = true ->
     isdigit f1 = true -> isdigit f2 = true ->
     contains "time=" pre = false ->
     exists ev,
       parse_ffmpeg_progress
         (pre ++ time_marker h1 h2 m1 m2 s1 s2 f1 f2 ++ rest) td
       = Py.Ok (Some ev) /\
       current_time ev
       = marker_seconds (two h1 h2) (two m1 m2) (two s1 s2) (two f1 f2)).
  { intros pre rest h1 h2 m1 m2 s1 s2 f1 f2 td
           Hh1 Hh2 Hm1 Hm2 Hs1 Hs2 Hf1 Hf2 Hpre.
    pose proof (match_time_marker h1 h2 m1 m2 s1 s2 f1 f2 rest
                  Hh1 Hh2 Hm1 Hm2 Hs1 Hs2 Hf1 Hf2) as Hm.
    apply search_here in Hm.
    assert (Hs : Re.search Re.match_time
                   (pre ++ time_marker h1 h2 m1 m2 s1 s2 f1 f2 ++ rest)
                 = Some (pair_of h1 h2, pair_of m1 m2, pair_of s1 s2,
                         String f1 (String f2 (fst (span isdigit rest))))).
    { rewrite <- Hm. exact (search_skip pre _ Hpre). }
    destruct (parse_marker _ td _ _ _ _ Hs)
      as (a1 & a2 & b1 & b2 & c1 & c2 & f & g' &
          _ & _ & _ & _ & _ & _ & _ & _ & E1 & E2 & E3 & E4 & _ & _ & Heq).
    injection E1 as <- <-. injection E2 as <- <-. injection E3 as <- <-.
    eexists. split; [exact Heq|]. reflexivity. }
  split; [exact General|]. split.
  {
    intros pre rest h1 h2 m1 m2 s1 s2 f1 td
           Hh1 Hh2 Hm1 Hm2 Hs1 Hs2 Hf1 Hpre Hrest.
    pose proof (match_time_short_marker h1 h2 m1 m2 s1 s2 f1 rest
                  Hh1 Hh2 Hm1 Hm2 Hs1 Hs2 Hf1) as Hm.
    rewrite Hrest in Hm.
    apply search_here in Hm.
    assert (Hs : Re.search Re.match_time
                   (pre ++ "time=" ++ pair_of h1 h2 ++ ":" ++ pair_of m1 m2
                    ++ ":" ++ pair_of s1 s2 ++ "." ++ String f1 rest)
                 = Some (pair_of h1 h2, pair_of m1 m2, pair_of s1 s2,
                         String f1 "")).
    { rewrite <- Hm. exact (search_skip pre _ Hpre). }
    destruct (parse_marker _ td _ _ _ _ Hs)
      as (a1 & a2 & b1 & b2 & c1 & c2 & f & g' &
          _ & _ & _ & _ & _ & _ & _ & _ & E1 & E2 & E3 & E4 & _ & _ & Heq).
    injection E1 as <- <-. injection E2 as <- <-. injection E3 as <- <-.
    eexists. split; [exact Heq|]. reflexivity. }
  intros pre rest td Hpre.
  destruct (General pre rest "1" "2" "3" "4" "5" "6" "7" "8" td)%char
    as (ev & Hev & Hct); try reflexivity; [exact Hpre|].
  exists ev. split; [exact Hev|]. rewrite Hct. vm_compute. reflexivity.
Qed.

Lemma marker_elapsed_time_witness :
  contains "time=" "frame=  100 fps= 30 q=28.0 size=     256kB " = false /\
  exists ev,
    parse_ffmpeg_progress
      ("frame=  100 fps= 30 q=28.0 size=     256kB "
       ++ "time=12:34:56.78" ++ " bitrate= 209.7kbits/s speed=2.0x")
      (of_int 100)
    = Py.Ok (Some ev) /\
    current_time ev = add (of_int (12 * 3600 + 34 * 60)) (literal 5678 (-2)).
Proof.
  split; [reflexivity|].
  apply (proj2 (proj2 marker_elapsed_time)). reflexivity.
Defined.

(** C5, as the claim states it, fails: on the structured stream the percent
    is capped at 100 and nothing more, so a line with a negative time gives
    an event with a percent below 0. *)
Lemma structured_stream_percent_below_zero :
  exists ev rd,
    read_stdout (Some quiet_sink) (of_int 100) ["out_time=00:00:-5.000000"]
      new_reader = (rd, Py.Ok tt) /\
    delivered rd = [ev] /\
    percent ev = of_scaled true 5 0 /\
    leb zero (percent ev) = false.
Proof.
  eexists _, _. split; [vm_compute; reflexivity|].
  split; [reflexivity|]. split; reflexivity.
Qed.

(** C5 (amended): every fragment of [parse_ffmpeg_progress], for every line
    and every total duration, has its percent in [0, 100]; so has the
    percent that [create_progress_bar] draws, whatever it is given; the
    events of the structured stream are never above 100. *)
Theorem percent_is_clamped :
  (forall (line : string) (td : float) (ev : ConversionProgress),
     parse_ffmpeg_progress line td = Py.Ok (Some ev) ->
     in_0_100 (percent ev)) /\
  (forall p : float, in_0_100 (create_progress_bar_percent p)) /\
  (forall (cb : option Sink) (td : float) (lines : list string),
     List.Forall capped
       (delivered (fst (read_stdout cb td lines new_reader)))).
Proof.
  split; [|split].
  - intros line td ev Hp.
    destruct (Re.search Re.match_time line) as [[[[g1 g2] g3] g4]|] eqn:Hs.
    + destruct (parse_marker line td g1 g2 g3 g4 Hs)
        as (h1 & h2 & m1 & m2 & s1 & s2 & f & g' &
            _ & _ & _ & _ & _ & _ & _ & _ & _ & _ & _ & _ & Hsm & Hr & Heq).
      rewrite Heq in Hp. injection Hp as <-. simpl percent.
      unfold percent_of. destruct (gtb td zero) eqn:Htd.
      * apply percent_range; [exact Hr|exact (small_is_finite _ _ Hsm)|exact Htd].
      * split; reflexivity.
    + unfold parse_ffmpeg_progress in Hp. rewrite Hs in Hp. discriminate.
  - intros p. apply clamp_range.
  - intros cb td lines.
    apply (read_stdout_capped cb td lines new_reader).
    split; [constructor|discriminate].
Qed.

Lemma percent_is_clamped_witness :
  exists ev,
    parse_ffmpeg_progress "time=00:02:00.00 speed=1.0x" (of_int 100)
    = Py.Ok (Some ev) /\
    in_0_100 (percent ev).
Proof.
  eexists. split; [vm_compute; reflexivity|].
  apply (proj1 percent_is_clamped
           "time=00:02:00.00 speed=1.0x" (of_int 100)).
  vm_compute. reflexivity.
Defined.

(** C6: when the total duration is 0, every fragment of the parser keeps
    the placeholder percent [0] and the empty ETA, on the diagnostic stream
    as well, and the reader of the structured stream hands no event at all
    to the sink. *)
Theorem unknown_duration_reports_nothing :
  forall td : float, is_zero td = true ->
    (forall (line : string) (ev : ConversionProgress),
       parse_ffmpeg_progress line td = Py.Ok (Some ev) -> unpopulated ev) /\
    (forall (cb : option Sink) (stderr : option (list string)),
       Forall unpopulated (delivered (snd (read_stderr cb td stderr)))) /\
    (forall (cb : option Sink) (lines : list string),
       delivered (fst (read_stdout cb td lines new_reader)) = []).
Proof.
  intros td Hz. pose proof (is_zero_not_gtb td Hz) as Htd.
  split; [|split].
  - intros line ev. apply parse_unknown. exact Htd.
  - intros cb [lines|]; simpl; [|constructor].
    apply read_stderr_lines_unknown; [exact Htd|constructor].
  - intros cb lines.
    destruct (read_stdout_unknown cb td lines new_reader Htd eq_refl)
      as (r & ->). reflexivity.
Qed.

Lemma unknown_duration_reports_nothing_witness :
  is_zero zero = true /\
  delivered
    (fst (read_stdout (Some (fun _ _ => Py.Ok tt)) zero
            ["out_time=00:00:10.000000"; "speed=2.0x"] new_reader)) = [].
Proof.
  split; [reflexivity|].
  apply (proj2 (proj2 (unknown_duration_reports_nothing zero eq_refl))).
Defined.



(** C8 (the code breaks it): on the structured stream the hour field is
    turned into an [int] of any size, and adding the float of the seconds to
    it raises [OverflowError], which [except (ValueError, IndexError)] lets
    through: the loop over the stream ends there.  (The parser of the
    diagnostic stream raises nothing, whatever the line.) *)
Theorem hostile_out_time_aborts_the_stream :
  (forall (cb : option Sink) (td : float) (rd : Reader)
          (rest : list string),
     read_stdout cb td (hostile_line :: rest) rd
     = (rd, Py.Raise (Py.Exn Py.OverflowError
                        "int too large to convert to float"))) /\
  (forall (line : string) (td : float),
     exists r, parse_ffmpeg_progress line td = Py.Ok r).
Proof.
  split; [|exact parse_total].
  intros cb td rd rest. cbn [read_stdout].
  assert (H : stdout_line cb td hostile_line rd
              = (rd, Py.Raise (Py.Exn Py.OverflowError
                                 "int too large to convert to float"))).
  { unfold stdout_line. change (startswith "out_time=" hostile_line) with true.
    cbv iota. unfold on_out_time.
    replace (value_of hostile_line)
      with (Py.Ok (String "1" (zeros 400) ++ ":00:00")%string)
      by (vm_compute; reflexivity).
    replace (nonempty _ && negb (String.eqb _ "N/A"))%bool with true
      by (vm_compute; reflexivity).
    replace (out_time_progress (bool_decide (is_Some cb)) td
               (String "1" (zeros 400) ++ ":00:00"))
      with (@Py.Raise (option ConversionProgress)
              (Py.Exn Py.OverflowError "int too large to convert to float")).
    - reflexivity.
    - unfold out_time_progress.
      replace (split ":" (String "1" (zeros 400) ++ ":00:00"))
        with [String "1" (zeros 400); "00"; "00"] by (vm_compute; reflexivity).
      vm_compute. reflexivity. }
  rewrite H. reflexivity.
Qed.

(** * The conversion of one file *)

Module OrchestratorFacts.

(** The probe returns the duration of the spec and raises nothing. *)
Lemma get_video_duration_eq (w : World) (input_file : string) (st : State) :
  get_video_duration w input_file st
  = (Py.Ok (probe_spec
              (run w (ffprobe_command (get_ffprobe_path w (fs st))
                        input_file))),
     with_command
       (ffprobe_command (get_ffprobe_path w (fs st)) input_file) st).
Proof.
  unfold get_video_duration, probe_attempt, probe_spec. f_equal.
  destruct (run w _) as [[rc out]|e]; [|reflexivity].
  cbn [Py.bind].
  destruct rc as [|p|p]; [|reflexivity|reflexivity].
  cbn [Z.eqb andb].
  destruct (nonempty (strip out)).
  - destruct (float_of_str (strip out)); reflexivity.
  - destruct (float_of_str (strip out)); reflexivity.
Qed.

Lemma probed_duration_eq (w : World) (input_file : string) (st : State) :
  probed_duration w input_file st
  = probe_spec (run w (ffprobe_command (get_ffprobe_path w (fs st))
                         input_file)).
Proof. unfold probed_duration. rewrite get_video_duration_eq. reflexivity. Qed.

(** [convert_video] once the size of the input is read. *)
Lemma convert_video_eq (w : World) (input output preset : string) (crf : Z)
    (ab : string) (cb : option Sink) (st : State) (n : Z) :
  fs st !! input = Some n ->
  convert_video w input output preset crf ab cb st
  = match convert_video_try w input output n
            (probed_duration w input st)
            (encoder_command w st input output preset crf ab) cb
            (launched w st input output preset crf ab) with
    | (Py.Ok r, st') => (Py.Ok r, st')
    | (Py.Raise e, st') =>
        (Py.Ok (mkConversionResult false input output n 0
                  (sub (end_clock w) (start_clock w)) (Py.exn_str e)),
         st')
    end.
Proof.
  intros Hn. unfold convert_video, stat_size. rewrite Hn.
  rewrite probed_duration_eq, get_video_duration_eq. reflexivity.
Qed.

Lemma convert_video_missing (w : World) (input output preset : string)
    (crf : Z) (ab : string) (cb : option Sink) (st : State) :
  fs st !! input = None ->
  exists e, convert_video w input output preset crf ab cb st
            = (Py.Raise e, st).
Proof.
  intros Hn. unfold convert_video, stat_size. rewrite Hn. eauto.
Qed.

Lemma exists_lookup (f : FileSystem) (path : string) :
  exists_ f path = true -> exists n, f !! path = Some n.
Proof.
  unfold exists_. intros H. apply bool_decide_eq_true in H.
  destruct H as [n Hn]. eauto.
Qed.

Lemma exists_delete (f : FileSystem) (path : string) :
  exists_ (delete path f) path = false.
Proof.
  unfold exists_. apply bool_decide_eq_false.
  rewrite lookup_delete_eq. intros [n Hn]. discriminate.
Qed.

Lemma convert_video_try_ending (w : World) (input output : string) (n : Z)
    (td : float) (cmd : list string) (cb : option Sink) (st : State) :
  Ending w input output n td cmd cb st
    (convert_video_try w input output n td cmd cb st).
Proof.
  unfold convert_video_try.
  destruct (popen w cmd) as [p|e] eqn:Hp; [|apply launch_failed; exact Hp].
  destruct (read_stderr cb td (proc_stderr p)) as [error_output diag].
  destruct (proc_stdout p) as [lines|] eqn:Hout;
    [|eapply no_stdout; [exact Hp|exact Hout|reflexivity|reflexivity]].
  destruct (read_stdout cb td lines new_reader) as [rd [[]|e]] eqn:Hrd;
    [|eapply stream_failed; [exact Hp|exact Hout|exact Hrd|reflexivity]].
  cbn [fs with_fs with_progress with_diagnostic].
  destruct (Z.eqb (proc_returncode p) 0
            && exists_ (proc_fs_exited p (fs st)) output)%bool eqn:Hc.
  - apply andb_true_iff in Hc as [Hrc Hex].
    apply Z.eqb_eq in Hrc.
    destruct (exists_lookup _ _ Hex) as (size & Hsize).
    unfold stat_size. rewrite Hsize.
    eapply classified_success; eauto.
  - unfold report_failure. cbn [fs with_fs].
    eapply classified_failure with (p := p) (lines := lines) (rd := rd);
      [exact Hp|exact Hout|exact Hrd|exact Hc|reflexivity| |].
    + intros Hu. destruct (exists_ (proc_fs_exited p (fs st)) output) eqn:Hex.
      * rewrite Hu. cbn [fs with_fs]. apply exists_delete.
      * cbn [fs with_fs]. exact Hex.
    + intros e Hu. destruct (exists_ (proc_fs_exited p (fs st)) output).
      * rewrite Hu. reflexivity.
      * reflexivity.
Qed.

End OrchestratorFacts.

Import OrchestratorFacts.

(** C1, as the claim states it, fails: the encoder exits with 0 and leaves
    the output file, yet the outcome is a failure, because the progress sink
    raised while the structured stream was read. *)
Lemma success_needs_an_undisturbed_stream :
  let w := world (Py.Ok (0, "100.0")) (Py.Ok (encoder 0 5000000))
             (Py.Ok tt) in
  exists r st',
    convert w (Some failing_sink) start = (Py.Ok r, st') /\
    success r = false /\
    proc_returncode (encoder 0 5000000) = 0 /\
    exists_ (proc_fs_exited (encoder 0 5000000) (fs start)) "out.mp4" = true.
Proof.
  eexists _, _. split; [vm_compute; reflexivity|].
  repeat split; vm_compute; reflexivity.
Qed.

(** C1 (amended): when the conversion reaches the classification step, the
    outcome is a success exactly when the exit code is 0 and the output path
    exists after the encoder has exited; it is a failure in every other
    case; on success [output_size] is the size of the output file. *)
Theorem success_is_classified :
  forall (w : World) (input output preset : string) (crf : Z) (ab : string)
         (cb : option Sink) (st : State) (r : ConversionResult)
         (st' : State),
    convert_video w input output preset crf ab cb st = (Py.Ok r, st') ->
    (success r = true <->
     exists p,
       classified w st input output preset crf ab cb p /\
       proc_returncode p = 0 /\
       exists_ (proc_fs_exited p (fs st)) output = true) /\
    (success r = true -> fs st' !! output = Some (output_size r)).
Proof.
  intros w input output preset crf ab cb st r st' Hcv.
  destruct (fs st !! input) as [n|] eqn:Hn.
  2:{ destruct (convert_video_missing w input output preset crf ab cb st Hn)
        as (e & He). rewrite He in Hcv. discriminate. }
  rewrite (convert_video_eq _ _ _ _ _ _ _ _ n Hn) in Hcv.
  pose proof (convert_video_try_ending w input output n
                (probed_duration w input st)
                (encoder_command w st input output preset crf ab) cb
                (launched w st input output preset crf ab)) as He.
  assert (Hfs : fs (launched w st input output preset crf ab) = fs st)
    by reflexivity.
  unfold classified.
  inversion He as [e Hp Heq|p r0 st0 Hp Hout Hs Hk Heq
                  |p lines rd e st0 Hp Hout Hrd Hk Heq
                  |p lines rd size st0 Hp Hout Hrd Hrc Hsize Hfs' Heq
                  |p lines rd r0 st0 Hp Hout Hrd Hc Hs Hu1 Hu2 Heq];
    rewrite <- Heq in Hcv; injection Hcv as <- <-.
  - split; [|discriminate]. split; [discriminate|].
    intros (p & (Hp' & _) & _). congruence.
  - rewrite Hs. split; [|discriminate]. split; [discriminate|].
    intros (p' & (Hp' & lines & rd & Hout' & _) & _). congruence.
  - split; [|discriminate]. split; [discriminate|].
    intros (p' & (Hp' & lines' & rd' & Hout' & Hrd') & _).
    assert (p' = p) by congruence. subst p'.
    assert (lines' = lines) by congruence. subst lines'. congruence.
  - rewrite Hfs in *. split.
    + split; [intros _|reflexivity].
      exists p. split; [split; [exact Hp|eauto]|].
      split; [exact Hrc|]. unfold exists_. apply bool_decide_eq_true.
      rewrite Hsize. eauto.
    + intros _. rewrite Hfs'. exact Hsize.
  - rewrite Hfs in *. rewrite Hs. split; [|discriminate].
    split; [discriminate|].
    intros (p' & (Hp' & _) & Hrc & Hex).
    assert (p' = p) by congruence. subst p'.
    rewrite Hrc, Hex in Hc. discriminate.
Qed.

Lemma success_is_classified_witness :
  let w := world (Py.Ok (0, "100.0")) (Py.Ok (encoder 0 5000000))
             (Py.Ok tt) in
  exists r st',
    convert w (Some quiet_sink) start = (Py.Ok r, st') /\
    success r = true /\ fs st' !! "out.mp4" = Some (output_size r) /\
    output_size r = 5000000 /\ input_size r = 50000000.
Proof.
  eexists _, _. split; [vm_compute; reflexivity|].
  split; [reflexivity|]. split; [|split; reflexivity].
  apply (proj2 (success_is_classified
                  (world (Py.Ok (0, "100.0")) (Py.Ok (encoder 0 5000000))
                     (Py.Ok tt))
                  "in.avi" "out.mp4" "medium" 23 "128k" (Some quiet_sink)
                  start _ _ ltac:(vm_compute; reflexivity))).
  reflexivity.
Defined.









(** * The listing of the directory *)

Module ListingFacts.

Lemma ascii_compare_refl (a : ascii) : Ascii.compare a a = Eq.
Proof. unfold Ascii.compare. apply N.compare_refl. Qed.

Lemma ascii_compare_lt_trans (a b c : ascii) :
  Ascii.compare a b = Lt -> Ascii.compare b c = Lt -> Ascii.compare a c = Lt.
Proof.
  unfold Ascii.compare. rewrite !N.compare_lt_iff. apply N.lt_trans.
Qed.

Lemma string_compare_refl (s : string) : String.compare s s = Eq.
Proof.
  induction s as [|a s IH]; [reflexivity|].
  cbn [String.compare]. rewrite ascii_compare_refl. exact IH.
Qed.

Lemma string_compare_lt_trans (s1 : string) :
  forall s2 s3,
    String.compare s1 s2 = Lt -> String.compare s2 s3 = Lt ->
    String.compare s1 s3 = Lt.
Proof.
  induction s1 as [|a s1 IH]; intros [|b s2] [|c s3]; cbn [String.compare];
    try discriminate; try reflexivity.
  destruct (Ascii.compare a b) eqn:Hab; try discriminate;
    destruct (Ascii.compare b c) eqn:Hbc; try discriminate; intros H1 H2.
  - apply Ascii.compare_eq_iff in Hab, Hbc. subst.
    rewrite ascii_compare_refl. eapply IH; eassumption.
  - apply Ascii.compare_eq_iff in Hab. subst. rewrite Hbc. reflexivity.
  - apply Ascii.compare_eq_iff in Hbc. subst. rewrite Hab. reflexivity.
  - rewrite (ascii_compare_lt_trans _ _ _ Hab Hbc). reflexivity.
Qed.

Lemma ltb_irrefl (s : string) : String.ltb s s = false.
Proof. unfold String.ltb. rewrite string_compare_refl. reflexivity. Qed.

Lemma ltb_asym (s t : string) :
  String.ltb s t = true -> String.ltb t s = false.
Proof.
  unfold String.ltb. rewrite (String.compare_antisym t s).
  destruct (String.compare s t); simpl; congruence.
Qed.

Lemma not_ltb_both (s t : string) :
  String.ltb s t = false -> String.ltb t s = false -> s = t.
Proof.
  unfold String.ltb. rewrite (String.compare_antisym t s).
  destruct (String.compare s t) eqn:H; simpl; try discriminate.
  intros _ _. apply String.compare_eq_iff. exact H.
Qed.

Lemma not_ltb_trans (s t u : string) :
  String.ltb t s = false -> String.ltb u t = false -> String.ltb u s = false.
Proof.
  intros Hts Hut.
  destruct (String.ltb u s) eqn:Hus; [|reflexivity].
  destruct (String.ltb s t) eqn:Hst.
  - assert (String.ltb u t = true); [|congruence].
    unfold String.ltb in *.
    destruct (String.compare u s) eqn:H1; try discriminate.
    destruct (String.compare s t) eqn:H2; try discriminate.
    rewrite (string_compare_lt_trans _ _ _ H1 H2). reflexivity.
  - pose proof (not_ltb_both _ _ Hst Hts). subst. congruence.
Qed.

Lemma key_le_trans (a b c : DirEntry) : key_le a b -> key_le b c -> key_le a c.
Proof. unfold key_le. intros H1 H2. eapply not_ltb_trans; eassumption. Qed.

Lemma insert_sorted_perm (x : DirEntry) (l : list DirEntry) :
  Permutation (insert_sorted x l) (x :: l).
Proof.
  induction l as [|y r IH]; cbn [insert_sorted]; [reflexivity|].
  destruct (String.ltb (sort_key y) (sort_key x)); [|reflexivity].
  rewrite IH. apply perm_swap.
Qed.

Lemma sort_by_name_perm (l : list DirEntry) : Permutation (sort_by_name l) l.
Proof.
  induction l as [|x r IH]; cbn [sort_by_name]; [reflexivity|].
  rewrite insert_sorted_perm. apply perm_skip. exact IH.
Qed.

Lemma insert_sorted_sorted (x : DirEntry) (l : list DirEntry) :
  StronglySorted key_le l -> StronglySorted key_le (insert_sorted x l).
Proof.
  induction l as [|y r IH]; intros Hs; cbn [insert_sorted].
  - constructor; constructor.
  - apply StronglySorted_inv in Hs as [Hr Hy].
    destruct (String.ltb (sort_key y) (sort_key x)) eqn:Hyx.
    + constructor; [apply IH; exact Hr|].
      apply List.Forall_forall. intros z Hz.
      apply (Permutation_in _ (insert_sorted_perm x r)) in Hz.
      destruct Hz as [<-|Hz].
      * unfold key_le. apply ltb_asym. exact Hyx.
      * rewrite List.Forall_forall in Hy. apply Hy. exact Hz.
    + constructor; [constructor; assumption|].
      constructor; [exact Hyx|].
      apply List.Forall_forall. intros z Hz.
      rewrite List.Forall_forall in Hy.
      apply key_le_trans with y; [exact Hyx|apply Hy; exact Hz].
Qed.

Lemma sort_by_name_sorted (l : list DirEntry) :
  StronglySorted key_le (sort_by_name l).
Proof.
  induction l as [|x r IH]; cbn [sort_by_name]; [constructor|].
  apply insert_sorted_sorted. exact IH.
Qed.

Lemma insert_sorted_stable (k : string) (x : DirEntry) (l : list DirEntry) :
  List.filter (same_key k) (insert_sorted x l)
  = List.filter (same_key k) (x :: l).
Proof.
  induction l as [|y r IH]; cbn [insert_sorted]; [reflexivity|].
  destruct (String.ltb (sort_key y) (sort_key x)) eqn:Hyx; [|reflexivity].
  cbn [List.filter] in *. rewrite IH.
  unfold same_key.
  destruct (String.eqb (sort_key y) k) eqn:Hy; [|reflexivity].
  destruct (String.eqb (sort_key x) k) eqn:Hx; [|reflexivity].
  apply String.eqb_eq in Hy, Hx. rewrite Hy, Hx, ltb_irrefl in Hyx.
  discriminate.
Qed.

Lemma sort_by_name_stable (k : string) (l : list DirEntry) :
  List.filter (same_key k) (sort_by_name l) = List.filter (same_key k) l.
Proof.
  induction l as [|x r IH]; cbn [sort_by_name]; [reflexivity|].
  rewrite insert_sorted_stable. cbn [List.filter]. rewrite IH. reflexivity.
Qed.

Lemma distinct_NoDup (l : list string) : distinct l = true -> List.NoDup l.
Proof.
  induction l as [|x r IH]; cbn [distinct]; intros H; [constructor|].
  apply andb_true_iff in H as [Hx Hr].
  constructor; [|apply IH; exact Hr].
  intros Hin. apply negb_true_iff in Hx.
  assert (existsb (String.eqb x) r = true); [|congruence].
  apply existsb_exists. exists x. split; [exact Hin|apply String.eqb_refl].
Qed.

Lemma filter_perm (f : DirEntry -> bool) (l1 l2 : list DirEntry) :
  Permutation l1 l2 -> Permutation (List.filter f l1) (List.filter f l2).
Proof.
  induction 1 as [|x l1 l2 _ IH|x y l|l1 l2 l3 _ IH1 _ IH2];
    cbn [List.filter].
  - reflexivity.
  - destruct (f x); [apply perm_skip|]; exact IH.
  - destruct (f x), (f y); try reflexivity. apply perm_swap.
  - etransitivity; eassumption.
Qed.

Lemma sorted_unique (l1 : list DirEntry) :
  forall l2,
    StronglySorted key_le l1 -> StronglySorted key_le l2 ->
    Permutation l1 l2 -> List.NoDup (List.map sort_key l1) -> l1 = l2.
Proof.
  induction l1 as [|x t1 IH]; intros [|y t2] H1 H2 Hp Hn.
  - reflexivity.
  - apply Permutation_nil in Hp. discriminate.
  - symmetry in Hp. apply Permutation_nil in Hp. discriminate.
  - apply StronglySorted_inv in H1 as [Ht1 Hx].
    apply StronglySorted_inv in H2 as [Ht2 Hy].
    rewrite List.Forall_forall in Hx, Hy.
    cbn [List.map] in Hn. apply NoDup_cons_iff in Hn as [Hnx Hn].
    assert (Hxy : x = y).
    { assert (Hy1 : List.In y (x :: t1))
        by (apply (Permutation_in _ (Permutation_sym Hp)); left; reflexivity).
      assert (Hx2 : List.In x (y :: t2))
        by (apply (Permutation_in _ Hp); left; reflexivity).
      destruct Hy1 as [Hy1|Hy1]; [exact Hy1|].
      destruct Hx2 as [Hx2|Hx2]; [symmetry; exact Hx2|].
      exfalso. apply Hnx.
      pose proof (Hx _ Hy1) as Hle1. pose proof (Hy _ Hx2) as Hle2.
      unfold key_le in Hle1, Hle2.
      rewrite (not_ltb_both _ _ Hle2 Hle1).
      apply in_map. exact Hy1. }
    subst y. f_equal.
    apply IH; [exact Ht1|exact Ht2| |exact Hn].
    eapply Permutation_cons_inv. exact Hp.
Qed.

End ListingFacts.

Import ListingFacts.

(** C10, as the claim states it, fails: two names that are equal once
    lowercased are returned in the order of the listing, so two listings of
    the same directory give two different orders. *)
Lemma equal_keys_follow_the_listing :
  Permutation upper_then_lower lower_then_upper /\
  find_avi_files upper_then_lower = upper_then_lower /\
  find_avi_files lower_then_upper = lower_then_upper /\
  find_avi_files upper_then_lower <> find_avi_files lower_then_upper.
Proof.
  split; [apply perm_swap|].
  split; [reflexivity|]. split; [reflexivity|].
  vm_compute. discriminate.
Qed.

(** C10 (amended): [find_avi_files] returns exactly the entries of the
    listing that are regular files with an extension equal to [.avi] up to
    case, in ascending order of the lowercased name; entries with the same
    lowercased name keep the order of the listing; when the lowercased names
    of the returned entries are pairwise different, the result is the same
    for every order of the listing. *)
Theorem avi_files_sorted_by_lowered_name :
  forall listing : list DirEntry,
    Permutation (find_avi_files listing) (List.filter is_avi listing) /\
    (forall f, List.In f (find_avi_files listing) <->
               List.In f listing /\ is_file f = true /\
               PyStr.lower (suffix (name f)) = ".avi") /\
    StronglySorted key_le (find_avi_files listing) /\
    (forall k, List.filter (same_key k) (find_avi_files listing)
               = List.filter (same_key k) (List.filter is_avi listing)) /\
    (forall listing',
       Permutation listing listing' ->
       distinct (List.map sort_key (List.filter is_avi listing)) = true ->
       find_avi_files listing = find_avi_files listing').
Proof.
  intros listing. unfold find_avi_files.
  split; [apply sort_by_name_perm|].
  split.
  { intros f. split.
    - intros Hin. apply (Permutation_in _ (sort_by_name_perm _)) in Hin.
      apply List.filter_In in Hin as [Hin Hf]. split; [exact Hin|].
      unfold is_avi in Hf. apply andb_true_iff in Hf as [Hf1 Hf2].
      apply String.eqb_eq in Hf2. split; assumption.
    - intros (Hin & Hf1 & Hf2).
      apply (Permutation_in _ (Permutation_sym (sort_by_name_perm _))).
      apply List.filter_In. split; [exact Hin|].
      unfold is_avi. rewrite Hf1, Hf2. reflexivity. }
  split; [apply sort_by_name_sorted|].
  split; [intros k; apply sort_by_name_stable|].
  intros listing' Hp Hd.
  apply sorted_unique; try apply sort_by_name_sorted.
  - rewrite !sort_by_name_perm. apply filter_perm. exact Hp.
  - apply distinct_NoDup in Hd.
    eapply Permutation_NoDup; [|exact Hd].
    apply Permutation_map. symmetry. apply sort_by_name_perm.
Qed.

Lemma avi_files_sorted_by_lowered_name_witness :
  find_avi_files sample_listing
  = [mkDirEntry "Clip.avi" true; mkDirEntry "trip.AVI" true] /\
  find_avi_files sample_listing = find_avi_files (List.rev sample_listing).
Proof.
  split; [reflexivity|].
  apply (proj2 (proj2 (proj2 (proj2
           (avi_files_sorted_by_lowered_name sample_listing))))).
  - apply Permutation_rev.
  - reflexivity.
Defined.

(** * Further properties: streams, paths and outcomes *)

Module TextMore.
Import FloatFacts TextFacts ParserFacts.

Lemma append_cons (x : ascii) (a b : string) :
  (String x a ++ b)%string = String x (a ++ b).
Proof. reflexivity. Qed.

Lemma append_nil_l (s : string) : ("" ++ s)%string = s.
Proof. reflexivity. Qed.

Lemma append_nil_r (s : string) : (s ++ "")%string = s.
Proof.
  induction s as [|c s IH]; [reflexivity|]. rewrite append_cons, IH.
  reflexivity.
Qed.

Lemma append_assoc (a b c : string) :
  ((a ++ b) ++ c)%string = (a ++ (b ++ c))%string.
Proof.
  induction a as [|x a IH]; [reflexivity|]. rewrite !append_cons, IH.
  reflexivity.
Qed.

Lemma length_append (a b : string) :
  String.length (a ++ b) = (String.length a + String.length b)%nat.
Proof.
  induction a as [|x a IH]; [reflexivity|]. rewrite append_cons. cbn.
  rewrite IH. reflexivity.
Qed.


Lemma prefix_split (p s : string) :
  String.prefix p s = true -> exists r, s = (p ++ r)%string.
Proof.
  revert s. induction p as [|a p IH]; intros s H.
  - exists s. reflexivity.
  - destruct s as [|b s]; [discriminate|]. cbn in H.
    destruct (Ascii.ascii_dec a b) as [->|]; [|discriminate].
    destruct (IH s H) as (r & ->). exists r. reflexivity.
Qed.

Lemma split_not_nil (sep : ascii) (s : string) : split sep s <> [].
Proof.
  induction s as [|c r IH]; [discriminate|]. cbn.
  destruct (Ascii.eqb c sep); [discriminate|].
  destruct (split sep r); [contradiction|discriminate].
Qed.

(** A text with the separator in it splits in two parts at least. *)
Lemma split_second (sep : ascii) (pre rest : string) :
  exists a b l, split sep (pre ++ String sep rest) = a :: b :: l.
Proof.
  induction pre as [|c pre IH].
  - rewrite append_nil_l. cbn. rewrite Ascii.eqb_refl.
    destruct (split sep rest) as [|b l] eqn:H;
      [now apply split_not_nil in H|eauto].
  - rewrite append_cons. cbn. destruct (Ascii.eqb c sep).
    + destruct IH as (a & b & l & ->). eauto.
    + destruct IH as (a & b & l & ->). eauto.
Qed.

(** [line.split('=')[1]] exists on a line that starts with [key=]. *)
Lemma value_of_ok (key line : string) :
  startswith (key ++ "=") line = true -> exists v, value_of line = Py.Ok v.
Proof.
  intros H. apply prefix_split in H as (r & ->).
  rewrite append_assoc, append_cons, append_nil_l.
  destruct (split_second "=" key r) as (a & b & l & Hs).
  unfold value_of. rewrite Hs. cbn. eauto.
Qed.



Lemma float_of_int_raise (z : Z) (e : Py.exn) :
  float_of_int z = Py.Raise e -> Py.exn_cls e = Py.OverflowError.
Proof.
  unfold float_of_int. destruct (round_Z z); try discriminate.
  intros [= <-]. reflexivity.
Qed.

End TextMore.

Module StreamMore.
Import FloatFacts TextFacts ParserFacts StreamFacts TextMore.





(** A line of another key, and a [speed=] or [fps=] line before the first
    event, change nothing. *)
Lemma stdout_line_before_events (cb : option Sink) (td : float)
    (line : string) (rd : Reader) :
  startswith "out_time=" line = false -> last_progress rd = None ->
  stdout_line cb td line rd = (rd, Py.Ok tt).
Proof.
  intros Hk Hl. unfold stdout_line. rewrite Hk.
  destruct (startswith "speed=" line) eqn:Hk2.
  { destruct (value_of_ok "speed" line Hk2) as (v & Hv).
    unfold on_speed. rewrite Hv, Hl. reflexivity. }
  destruct (startswith "fps=" line) eqn:Hk3; [|reflexivity].
  destruct (value_of_ok "fps" line Hk3) as (v & Hv).
  unfold on_fps. rewrite Hv, Hl. reflexivity.
Qed.

End StreamMore.

Import FloatFacts TextFacts ParserFacts StreamFacts TextMore StreamMore.



(** X5: no event before the first [out_time=] line: as long as no line
    starts with [out_time=], the reader hands nothing to the sink and raises
    nothing, whatever the lines are; and the token [N/A] on each of the three
    keys leaves the reader as it is. *)
Theorem lines_that_change_nothing :
  (forall (cb : option Sink) (td : float) (lines : list string),
     forallb (fun line => negb (startswith "out_time=" line)) lines = true ->
     read_stdout cb td lines new_reader = (new_reader, Py.Ok tt)) /\
  (forall (cb : option Sink) (td : float) (rd : Reader),
     stdout_line cb td ("out_time=N/A" ++ latin1 10) rd = (rd, Py.Ok tt) /\
     stdout_line cb td ("speed=N/A" ++ latin1 10) rd = (rd, Py.Ok tt) /\
     stdout_line cb td ("fps=N/A" ++ latin1 10) rd = (rd, Py.Ok tt)).
Proof.
  split.
  - intros cb td lines. induction lines as [|line rest IH]; [reflexivity|].
    cbn [forallb]. intros H. apply andb_true_iff in H as [Hk Hr].
    apply negb_true_iff in Hk. cbn [read_stdout].
    rewrite (stdout_line_before_events cb td line new_reader Hk eq_refl).
    exact (IH Hr).
  - intros cb td rd. split; [|split].
    + reflexivity.
    + unfold stdout_line.
      change (startswith "out_time=" ("speed=N/A" ++ latin1 10)) with false.
      change (startswith "speed=" ("speed=N/A" ++ latin1 10)) with true.
      cbv iota. unfold on_speed.
      change (value_of ("speed=N/A" ++ latin1 10)) with (Py.Ok "N/A").
      destruct (last_progress rd); reflexivity.
    + unfold stdout_line.
      change (startswith "out_time=" ("fps=N/A" ++ latin1 10)) with false.
      change (startswith "speed=" ("fps=N/A" ++ latin1 10)) with false.
      change (startswith "fps=" ("fps=N/A" ++ latin1 10)) with true.
      cbv iota. unfold on_fps.
      change (value_of ("fps=N/A" ++ latin1 10)) with (Py.Ok "N/A").
      destruct (last_progress rd); reflexivity.
Qed.

Lemma lines_that_change_nothing_witness :
  read_stdout (Some failing_sink) (of_int 100)
    ["frame=10"; "speed=2.0x"; "fps=30.0"; "progress=continue"] new_reader
  = (new_reader, Py.Ok tt).
Proof.
  apply (proj1 lines_that_change_nothing). reflexivity.
Defined.

Module PathMore.
Import TextFacts TextMore OrchestratorFacts.






(** *** Names, stems and suffixes *)

Lemma substring_split (s : string) :
  forall i : nat, (i <= String.length s)%nat ->
    (String.substring 0 i s ++ String.substring i (String.length s - i) s)%string
    = s.
Proof.
  induction s as [|c s IH]; intros [|i] Hi; cbn in Hi; try lia.
  - reflexivity.
  - cbn [String.substring String.length Nat.sub]. rewrite append_nil_l.
    f_equal. specialize (IH O ltac:(lia)). rewrite Nat.sub_0_r in IH.
    destruct s; [reflexivity|].
    cbn [String.substring] in IH. rewrite append_nil_l in IH. exact IH.
  - cbn [String.substring String.length Nat.sub]. rewrite append_cons.
    f_equal. apply IH. lia.
Qed.

Lemma rfind_bound (c : ascii) (s : string) (i : nat) :
  rfind c s = Some i -> (i < String.length s)%nat.
Proof.
  revert i. induction s as [|a s IH]; intros i; cbn; [discriminate|].
  destruct (rfind c s) as [j|].
  - intros [= <-]. specialize (IH j eq_refl). lia.
  - destruct (Ascii.eqb a c); [intros [= <-]; lia|discriminate].
Qed.

Lemma substring_prefix_length (s : string) :
  forall i : nat, (i <= String.length s)%nat ->
    String.length (String.substring 0 i s) = i.
Proof.
  induction s as [|c s IH]; intros [|i] Hi; cbn in Hi; try lia;
    try reflexivity.
  cbn [String.substring String.length]. f_equal. apply IH. lia.
Qed.

Lemma stem_suffix (name : string) : (stem name ++ suffix name)%string = name.
Proof.
  unfold stem, suffix. destruct (rfind "." name) as [i|] eqn:Hr.
  - destruct (_ && _)%bool.
    + apply substring_split. apply rfind_bound in Hr. lia.
    + apply append_nil_r.
  - apply append_nil_r.
Qed.







(** *** The partition of [validate_files_exist] *)





(** *** The version line *)

Lemma span_all (p : ascii -> bool) (s g r : string) :
  span p s = (g, r) -> all_chars p g = true.
Proof.
  revert g r. induction s as [|c s IH]; intros g r; cbn.
  - intros [= <- <-]. reflexivity.
  - destruct (p c) eqn:Hc.
    + destruct (span p s) as [a b]. intros [= <- <-]. cbn.
      rewrite Hc. exact (IH a b eq_refl).
    + intros [= <- <-]. reflexivity.
Qed.


End PathMore.

Module OutcomeMore.
Import OrchestratorFacts.



End OutcomeMore.

Import PathMore OutcomeMore OrchestratorFacts.









Module FloatMore.
Import FloatFacts.
Local Close Scope string_scope.

Lemma of_int_3600 : of_int 3600 = S754_finite false 7916483719987200 (-41).
Proof. reflexivity. Qed.

Lemma fmod_3600 (s : bool) (m : positive) (e : Z) :
  small 13 (fmod (S754_finite s m e) (of_int 3600)) /\
  rounded s (fmod (S754_finite s m e) (of_int 3600)).
Proof.
  rewrite of_int_3600. unfold fmod.
  split; [|apply of_scaled_rounded].
  set (ez := Z.min e (-41)).
  assert (HY : Z.shiftl 7916483719987200 (-41 - ez) < 2 ^ (12 - ez)).
  { rewrite Z.shiftl_mul_pow2 by lia.
    replace (12 - ez) with (53 + (-41 - ez)) by lia.
    rewrite Z.pow_add_r by lia.
    apply Z.mul_lt_mono_pos_r; [apply Z.pow_pos_nonneg; lia|].
    reflexivity. }
  assert (HY0 : 0 < Z.shiftl 7916483719987200 (-41 - ez)).
  { rewrite Z.shiftl_mul_pow2 by lia.
    apply Z.mul_pos_pos; [lia|apply Z.pow_pos_nonneg; lia]. }
  pose proof (Z.mod_pos_bound (Z.shiftl (Zpos m) (e - ez)) _ HY0) as Hmod.
  apply of_scaled_small with (k := 12 - ez) (K := 12); lia.
Qed.

(** [x // 3600] and [x % 3600] of a positive finite float are finite, and
    the remainder is not negative. *)
Lemma div_mod_3600_finite (m : positive) (e : Z) :
  Zpos m < 2 ^ 53 -> -1074 <= e <= 971 ->
  let x := S754_finite false m e in
  is_finite (fst (float_div_mod x (of_int 3600))) = true /\
  exists r, modulo x (of_int 3600) = Py.Ok r /\ is_finite r = true /\
            rounded false r.
Proof.
  intros Hm He x.
  destruct (fmod_3600 false m e) as (Hms & Hmr). fold x in Hms, Hmr.
  pose proof (ltb_zero_nonneg _ Hmr) as Hlt.
  assert (Hy : ltb (of_int 3600) zero = false) by reflexivity.
  split.
  - unfold float_div_mod.
    set (mod0 := fmod x (of_int 3600)) in *.
    rewrite Hy, Hlt. simpl Bool.eqb. simpl negb.
    set (div0 := SFdiv prec emax (sub x mod0) (of_int 3600)).
    assert (Hsub : is_finite (sub x mod0) = true /\
                   exists s1, rounded s1 (sub x mod0)).
    { destruct mod0 as [s0|s0| |s0 m0 e0] eqn:Hmod; simpl in Hms; try tauto.
      - simpl. split; [reflexivity|]. exists false. simpl. lia.
      - simpl in Hmr. destruct Hmr as (-> & _).
        split; [apply sub_finite with (K := 13); simpl; try lia; exact Hms|].
        unfold x, sub, SFsub.
        set (M := _ - _).
        destruct (Z.le_gt_cases 0 M).
        + exists false. apply binary_normalize_sign. assumption.
        + exists true. unfold binary_normalize.
          destruct M as [|p|p]; try lia. apply binary_round_rounded. }
    destruct Hsub as (Hsf & s1 & Hsr).
    assert (Hdiv : small 1023 div0).
    { unfold div0. rewrite of_int_3600.
      apply div_small with (s := s1); try assumption; [|lia].
      split; [|reflexivity]. intro Hc; discriminate Hc. }
    assert (Hdr : exists s2, rounded s2 div0).
    { unfold div0.
      destruct (div_rounded (sub x mod0) (of_int 3600)) as [Hn|Hr].
      - fold div0 in Hn. rewrite Hn in Hdiv. destruct Hdiv.
      - eauto. }
    destruct Hdr as (s2 & Hdr).
    assert (Hres : is_finite
              (if negb (is_zero div0)
               then let fl := floor div0 in
                    if gtb (sub div0 fl) (SFdiv prec emax (of_int 1) (of_int 2))
                    then add fl (of_int 1) else fl
               else copysign_zero (SFdiv prec emax x (of_int 3600))) = true).
    { destruct (is_zero div0); simpl negb; cbv iota.
      - reflexivity.
      - apply floor_adjust_finite with (s := s2);
          [assumption|exact (small_is_finite _ _ Hdiv)]. }
    destruct (negb (is_zero mod0)); simpl fst; exact Hres.
  - unfold modulo. change (is_zero (of_int 3600)) with false. cbv iota.
    eexists. split; [reflexivity|].
    set (mod0 := fmod x (of_int 3600)) in *.
    rewrite Hy, Hlt. simpl Bool.eqb. simpl negb. cbv iota.
    destruct (negb (is_zero mod0)).
    + split; [exact (small_is_finite _ _ Hms)|exact Hmr].
    + split; reflexivity.
Qed.

Lemma floordiv_ok (x y : float) :
  is_zero y = false -> floordiv x y = Py.Ok (fst (float_div_mod x y)).
Proof. intros H. unfold floordiv. rewrite H. reflexivity. Qed.

(** The three quotients and remainders of [format_time] exist for every
    positive finite float. *)
Lemma format_time_positive (m : positive) (e : Z) :
  Zpos m < 2 ^ 53 -> -1074 <= e <= 971 ->
  exists text, format_time (S754_finite false m e) = Py.Ok text.
Proof.
  intros Hm He. unfold format_time.
  change (ltb (S754_finite false m e) zero) with false. cbv iota.
  destruct (div_mod_3600_finite m e Hm He) as (Hq & r & Hr & Hrf & Hrr).
  destruct (div_mod_60_finite m e Hm He) as (_ & s & Hs & Hsf).
  rewrite floordiv_ok by reflexivity. cbn [Py.bind].
  destruct (int_of_float_finite _ Hq) as (hours & ->). cbn [Py.bind].
  rewrite Hr. cbn [Py.bind].
  rewrite floordiv_ok by reflexivity. cbn [Py.bind].
  assert (Hq2 : is_finite (fst (float_div_mod r (of_int 60))) = true).
  { destruct r as [s0|s0| |s0 m0 e0]; try discriminate.
    - simpl in Hrr. subst s0. reflexivity.
    - simpl in Hrr. destruct Hrr as (-> & Hm0 & He0).
      exact (proj1 (div_mod_60_finite m0 e0 Hm0 He0)). }
  destruct (int_of_float_finite _ Hq2) as (minutes & ->). cbn [Py.bind].
  rewrite Hs. cbn [Py.bind].
  destruct (int_of_float_finite _ Hsf) as (secs & ->). cbn [Py.bind].
  destruct (Z.ltb 0 hours); eauto.
Qed.

End FloatMore.

Import FloatFacts FloatMore.

Lemma whole_time_checked :
  forallb whole_time_ok (List.map Z.of_nat (seq 0 (Z.to_nat 7200))) = true.
Proof. vm_compute. reflexivity. Qed.

(** X10: [format_time].  A negative duration is shown as [--:--].  Every
    finite duration that is not negative gets a text; NaN and the positive
    infinity raise the [ValueError] of [int(nan)].  A whole number of
    seconds below two hours is shown as [MM:SS] below one hour and as
    [H:MM:SS] from one hour on. *)
Theorem format_time_cases :
  (forall x : float, ltb x zero = true -> format_time x = Py.Ok "--:--") /\
  (forall (s : bool) (x : float),
     rounded s x -> is_finite x = true -> ltb x zero = false ->
     exists text, format_time x = Py.Ok text) /\
  format_time nan
  = Py.Raise (Py.Exn Py.ValueError "cannot convert float NaN to integer") /\
  format_time inf
  = Py.Raise (Py.Exn Py.ValueError "cannot convert float NaN to integer") /\
  (forall n : Z, 0 <= n < 7200 ->
     format_time (of_int n) = Py.Ok (clock_text n)).
Proof.
  split; [intros x Hx; unfold format_time; rewrite Hx; reflexivity|].
  split.
  { intros s x Hr Hf Hn.
    destruct x as [s0|s0| |s0 m e]; try discriminate.
    - destruct s0; eexists; vm_compute; reflexivity.
    - destruct s0; [discriminate|].
      simpl in Hr. destruct Hr as (_ & Hm & He).
      exact (format_time_positive m e Hm He). }
  split; [vm_compute; reflexivity|].
  split; [vm_compute; reflexivity|].
  intros n Hn.
  pose proof whole_time_checked as H.
  rewrite forallb_forall in H.
  specialize (H n).
  assert (Hin : List.In n (List.map Z.of_nat (seq 0 (Z.to_nat 7200)))).
  { apply in_map_iff. exists (Z.to_nat n).
    split; [apply Z2Nat.id; lia|]. apply in_seq. lia. }
  specialize (H Hin). unfold whole_time_ok in H.
  destruct (format_time (of_int n)) as [text|e]; [|discriminate].
  apply String.eqb_eq in H. rewrite H. reflexivity.
Qed.

Lemma format_time_cases_witness :
  ltb (of_scaled true 1 (-3)) zero = true /\
  format_time (of_scaled true 1 (-3)) = Py.Ok "--:--" /\
  0 <= 3725 < 7200 /\
  format_time (of_int 3725) = Py.Ok "1:02:05".
Proof.
  split; [reflexivity|].
  split; [apply (proj1 format_time_cases); reflexivity|].
  split; [lia|].
  apply (proj2 (proj2 (proj2 (proj2 format_time_cases))) 3725). lia.
Defined.

(** * Further properties: lines of ordinary length *)

Module ShortLines.
Import FloatFacts TextFacts ParserFacts StreamFacts TextMore StreamMore.
















End ShortLines.

Import ShortLines.



(** * Further properties: the parser and the duration *)

Module FragmentFacts.
Import FloatFacts TextFacts ParserFacts MarkerFacts StreamFacts TextMore PathMore.

(** The search finds no marker in a text without [time=]. *)
Lemma search_without_marker (line : string) :
  contains "time=" line = false -> Re.search Re.match_time line = None.
Proof.
  induction line as [|c line IH]; intros H.
  - reflexivity.
  - cbn [contains] in H.
    destruct (strip_prefix "time=" (String c line)) eqn:Hp; [discriminate|].
    cbn [Re.search]. rewrite (match_time_needs_prefix _ Hp). exact (IH H).
Qed.

Lemma run1_all (p : ascii -> bool) (s g r : string) :
  Re.run1 p s = Some (g, r) -> g <> "" /\ all_chars p g = true.
Proof.
  unfold Re.run1. destruct (span p s) as [a b] eqn:Hs.
  apply span_all in Hs. destruct a as [|c a]; [discriminate|].
  intros [= <- <-]. split; [discriminate|exact Hs].
Qed.

Lemma match_speed_inv (line g : string) :
  Re.search Re.match_speed line = Some g ->
  g <> "" /\ all_chars isdigit_or_dot g = true.
Proof.
  intros H. apply search_inv in H as (t & Ht). unfold Re.match_speed in Ht.
  destruct (strip_prefix "speed=" t) as [r0|]; [|discriminate]. cbn in Ht.
  destruct (Re.run1 isdigit_or_dot _) as [[g0 r1]|] eqn:Hr; [|discriminate].
  cbn in Ht. destruct (Re.expect "x" r1); [|discriminate].
  cbn in Ht. injection Ht as <-. exact (run1_all _ _ _ _ Hr).
Qed.

Lemma match_fps_inv (line g : string) :
  Re.search Re.match_fps line = Some g ->
  g <> "" /\ all_chars isdigit_or_dot g = true.
Proof.
  intros H. apply search_inv in H as (t & Ht). unfold Re.match_fps in Ht.
  destruct (strip_prefix "fps=" t) as [r0|]; [|discriminate]. cbn in Ht.
  destruct (Re.run1 isdigit_or_dot _) as [[g0 r1]|] eqn:Hr; [|discriminate].
  cbn in Ht. injection Ht as <-. exact (run1_all _ _ _ _ Hr).
Qed.

End FragmentFacts.

Import FloatFacts TextFacts ParserFacts MarkerFacts StreamFacts FragmentFacts.

(** X7: what the parser of the diagnostic stream returns.  A line without
    [time=] gives no fragment.  A fragment carries the total duration it was
    given and an elapsed time that is a finite float, not negative and below
    [2^22] seconds; its speed is empty or digits and dots followed by [x],
    its frame rate is empty or digits and dots. *)
Theorem fragments_are_well_formed :
  (forall (line : string) (td : float),
     contains "time=" line = false ->
     parse_ffmpeg_progress line td = Py.Ok None) /\
  (forall (line : string) (td : float) (ev : ConversionProgress),
     parse_ffmpeg_progress line td = Py.Ok (Some ev) ->
     total_duration ev = td /\
     rounded false (current_time ev) /\ small 22 (current_time ev) /\
     (speed ev = "" \/
      exists g, speed ev = (g ++ "x")%string /\ g <> "" /\
                all_chars isdigit_or_dot g = true) /\
     (fps ev = "" \/
      (fps ev <> "" /\ all_chars isdigit_or_dot (fps ev) = true))).
Proof.
  split.
  - intros line td H. unfold parse_ffmpeg_progress.
    rewrite (search_without_marker line H). reflexivity.
  - intros line td ev Hp.
    destruct (Re.search Re.match_time line) as [[[[g1 g2] g3] g4]|] eqn:Hs.
    + destruct (parse_marker line td g1 g2 g3 g4 Hs)
        as (h1 & h2 & m1 & m2 & s1 & s2 & f & g' &
            _ & _ & _ & _ & _ & _ & _ & _ & _ & _ & _ & _ & Hsm & Hr & Heq).
      rewrite Heq in Hp. injection Hp as <-. cbn.
      split; [reflexivity|]. split; [exact Hr|]. split; [exact Hsm|].
      split.
      * destruct (Re.search Re.match_speed line) as [g|] eqn:Hg;
          [|left; reflexivity].
        right. exists g. split; [reflexivity|]. exact (match_speed_inv _ _ Hg).
      * destruct (Re.search Re.match_fps line) as [g|] eqn:Hg;
          [|left; reflexivity].
        right. exact (match_fps_inv _ _ Hg).
    + unfold parse_ffmpeg_progress in Hp. rewrite Hs in Hp. discriminate.
Qed.

Lemma fragments_are_well_formed_witness :
  contains "time=" "Press [q] to stop, [?] for help" = false /\
  parse_ffmpeg_progress "Press [q] to stop, [?] for help" (of_int 100)
  = Py.Ok None.
Proof.
  split; [reflexivity|].
  apply (proj1 fragments_are_well_formed). reflexivity.
Defined.

(** X6: a total duration that is not above 0, be it 0, negative or NaN,
    switches percent and ETA off on both streams: the fragments of the
    parser keep the percent 0 and the empty ETA, the reader of the
    diagnostic stream delivers such fragments only, and the reader of the
    structured stream delivers nothing.  The probe returns such a duration
    when the tool prints [nan] or a negative number. *)
Theorem no_progress_without_a_positive_duration :
  (forall td : float, gtb td zero = false ->
     (forall (line : string) (ev : ConversionProgress),
        parse_ffmpeg_progress line td = Py.Ok (Some ev) -> unpopulated ev) /\
     (forall (cb : option Sink) (stderr : option (list string)),
        Forall unpopulated (delivered (snd (read_stderr cb td stderr)))) /\
     (forall (cb : option Sink) (lines : list string),
        delivered (fst (read_stdout cb td lines new_reader)) = [])) /\
  gtb (probe_spec (Py.Ok (0, "nan"))) zero = false /\
  gtb (probe_spec (Py.Ok (0, "-12.5"))) zero = false.
Proof.
  split; [|split; reflexivity].
  intros td Htd. split; [|split].
  - intros line ev. apply parse_unknown. exact Htd.
  - intros cb [lines|]; simpl; [|constructor].
    apply read_stderr_lines_unknown; [exact Htd|constructor].
  - intros cb lines.
    destruct (read_stdout_unknown cb td lines new_reader Htd eq_refl)
      as (r & ->). reflexivity.
Qed.

Lemma no_progress_without_a_positive_duration_witness :
  gtb nan zero = false /\
  delivered
    (fst (read_stdout (Some quiet_sink) nan
            ["out_time=00:00:10.000000"; "speed=2.0x"] new_reader)) = [].
Proof.
  split; [reflexivity|].
  apply (proj2 (proj2 (proj1 no_progress_without_a_positive_duration nan
                         eq_refl))).
Defined.

(** * Further properties: the error text *)

Module DiagnosticFacts.
Import FloatFacts TextFacts ParserFacts OrchestratorFacts.



End DiagnosticFacts.

Import OrchestratorFacts DiagnosticFacts.



(** * Further properties: the progress bar *)

Module BarFacts.
Import FloatFacts.
Local Close Scope string_scope.

(** An upper bound on what a rounding returns: a magnitude of at most
    [C - d] units in the last place before the rounding is at most [C] after
    it, give or take the last place ([d] is 1 for a strict bound and 0
    otherwise). *)
Lemma binary_round_aux_upper (s : bool) (M E : Z) (l : location)
    (C k d : Z) :
  0 <= M -> 0 < C < 2 ^ k -> 0 <= k <= 52 -> E <= -1 -> 0 <= d <= 1 ->
  M + d <= C * 2 ^ (- E) ->
  binary_round_aux prec emax s M E l = S754_zero s \/
  exists mr er,
    binary_round_aux prec emax s M E l = S754_finite s mr er /\
    er <= Z.max (k - 52) (E + 1) /\ er <= 0 /\
    Zpos mr + d <= C * 2 ^ (- er) + 1.
Proof.
  intros HM HC Hk HE Hd HMC.
  destruct (binary_round_aux_spec s M E l HM)
    as (m1 & e1 & m3 & e3 & Hm1 & He1 & Hshift & Hm3 & Hround & Heq).
  assert (H1 : e1 <= Z.max (k - 53) E /\ e1 <= -1 /\
               m1 + d <= C * 2 ^ (- e1)).
  { destruct Hshift as [(-> & ->)|(n & Hn & Hen & Hed & Hmn)].
    - split; [lia|]. split; [lia|exact HMC].
    - assert (HMk : M < 2 ^ (k - E)).
      { replace (k - E) with (k + - E) by lia.
        rewrite Z.pow_add_r by lia.
        assert (0 < 2 ^ (- E)) by (apply Z.pow_pos_nonneg; lia).
        nia. }
      pose proof (Zdigits2_le M (k - E) (conj HM HMk) ltac:(lia)) as Hdig.
      assert (He1' : e1 <= k - 53) by lia.
      split; [lia|]. split; [lia|].
      assert (Hpow : 2 ^ (- E) = 2 ^ (- e1) * 2 ^ n).
      { rewrite <- Z.pow_add_r by lia. f_equal. lia. }
      assert (Hn0 : 0 < 2 ^ n) by (apply Z.pow_pos_nonneg; lia).
      rewrite Hmn. rewrite Hpow in HMC.
      assert (Hd' : d = 0 \/ d = 1) by lia.
      destruct Hd' as [-> | ->].
      + rewrite Z.add_0_r in *.
        apply Z.div_le_upper_bound; [exact Hn0|]. nia.
      + assert (M / 2 ^ n < C * 2 ^ (- e1)); [|lia].
        apply Z.div_lt_upper_bound; [exact Hn0|]. nia. }
  destruct H1 as (He1m & He1n & Hm1c).
  assert (H3 : e3 <= Z.max (k - 52) (E + 1) /\ e3 <= 0 /\
               m3 + d <= C * 2 ^ (- e3) + 1).
  { destruct Hround as [(Hr & ->)|(Hm1' & -> & ->)].
    - split; [lia|]. split; [lia|]. lia.
    - split; [lia|]. split; [lia|].
      assert (Hpow : 2 ^ (- e1) = 2 * 2 ^ (- (e1 + 1))).
      { replace (- e1) with (1 + - (e1 + 1)) by lia.
        rewrite Z.pow_add_r by lia. reflexivity. }
      rewrite Hpow in Hm1c. subst m1.
      change (2 ^ 53) with 9007199254740992 in Hm1c.
      change (2 ^ 52) with 4503599627370496.
      lia. }
  destruct H3 as (He3m & He3n & Hm3c).
  rewrite Heq. destruct m3 as [|mr|mr]; [left; reflexivity| |lia].
  right. exists mr, e3.
  replace (e3 <=? 971) with true by (symmetry; apply Z.leb_le; lia).
  repeat split; assumption.
Qed.

Lemma of_int_40 : of_int 40 = S754_finite false 5629499534213120 (-47).
Proof. reflexivity. Qed.

(** A positive float below 100, as [<] sees it, has a magnitude below
    100. *)
Lemma below_100 (m : positive) (e : Z) :
  Zpos m < 2 ^ 53 ->
  ltb (S754_finite false m e) (of_int 100) = true ->
  e <= -46 /\ Zpos m < 100 * 2 ^ (- e).
Proof.
  intros Hm. rewrite of_int_100. unfold ltb, SFltb, SFcompare.
  destruct (Z.compare_spec e (-46)) as [->|He|He]; try discriminate.
  - rewrite Pos.compare_cont_spec. cbn [Pos.switch_Eq].
    destruct (Pos.compare m 7036874417766400) eqn:Hc; try discriminate.
    assert (Hlt : Zpos m < 7036874417766400) by exact Hc.
    clear Hc. intros _. split; [lia|].
    change (2 ^ (- -46)) with 70368744177664. lia.
  - intros _. split; [lia|].
    assert (2 ^ 47 <= 2 ^ (- e)) by (apply Z.pow_le_mono_r; lia).
    change (2 ^ 53) with 9007199254740992 in Hm.
    change (2 ^ 47) with 140737488355328 in H. lia.
Qed.

(** [40 * p] for a positive [p] below 100 is at most 4000. *)
Lemma mul_40_upper (m : positive) (e : Z) :
  Zpos m < 2 ^ 53 ->
  ltb (S754_finite false m e) (of_int 100) = true ->
  let x := mul (of_int 40) (S754_finite false m e) in
  x = S754_zero false \/
  exists mr er, x = S754_finite false mr er /\ er <= -40 /\
                Zpos mr <= 4000 * 2 ^ (- er).
Proof.
  intros Hm Hlt x. destruct (below_100 m e Hm Hlt) as (He & Hv).
  unfold x. rewrite of_int_40. unfold mul, SFmul. cbn [xorb].
  assert (HM : Zpos (5629499534213120 * m) + 1 <= 4000 * 2 ^ (- (-47 + e))).
  { replace (- (-47 + e)) with (47 + - e) by lia.
    rewrite Z.pow_add_r by lia.
    change (2 ^ 47) with 140737488355328.
    rewrite Pos2Z.inj_mul.
    assert (0 < 2 ^ (- e)) by (apply Z.pow_pos_nonneg; lia). nia. }
  destruct (binary_round_aux_upper false
              (Zpos (5629499534213120 * m)) (-47 + e) loc_Exact 4000 12 1
              ltac:(lia) ltac:(split; reflexivity) ltac:(lia) ltac:(lia)
              ltac:(lia) HM)
    as [Hz|(mr & er & Hr & Her & Her0 & Hmr)].
  - left. exact Hz.
  - right. exists mr, er. split; [exact Hr|]. split; lia.
Qed.

(** The quotient by 100 of a positive float of at most 4000 is at most 40,
    give or take its last place. *)
Lemma div_100_upper (mr : positive) (er : Z) :
  er <= -40 -> Zpos mr <= 4000 * 2 ^ (- er) ->
  let q := SFdiv prec emax (S754_finite false mr er) (of_int 100) in
  q = S754_zero false \/
  exists mq eq, q = S754_finite false mq eq /\ eq <= -46 /\
                Zpos mq <= 40 * 2 ^ (- eq) + 1.
Proof.
  intros Her Hmr q. unfold q. rewrite of_int_100. unfold SFdiv. cbn [xorb].
  destruct (div_core_spec mr er 7036874417766400 (-46))
    as (q0 & l & sh & Hcore & Hsh & Hq0 & Hq0n & Hexp).
  rewrite Hcore.
  assert (Hp : 0 < 2 ^ (- er)) by (apply Z.pow_pos_nonneg; lia).
  assert (Hdig : Zpos (digits2_pos mr) <= 12 - er).
  { change (Zpos (digits2_pos mr)) with (Zdigits2 (Zpos mr)).
    apply Zdigits2_le; [|lia]. split; [lia|].
    replace (12 - er) with (12 + - er) by lia.
    rewrite Z.pow_add_r by lia. change (2 ^ 12) with 4096. lia. }
  change (Zpos (digits2_pos 7036874417766400)) with 53 in Hexp.
  set (E' := er - -46 - sh) in *.
  assert (HE' : E' <= -48) by lia.
  assert (Hpow : 2 ^ 46 * 2 ^ (- E') = 2 ^ (- er) * 2 ^ sh).
  { rewrite <- !Z.pow_add_r by lia. f_equal. unfold E'. lia. }
  assert (Hq : q0 <= 40 * 2 ^ (- E')).
  { rewrite Hq0. apply Z.div_le_upper_bound; [lia|].
    change 7036874417766400 with (100 * 2 ^ 46).
    assert (0 < 2 ^ sh) by (apply Z.pow_pos_nonneg; lia).
    assert (0 < 2 ^ (- E')) by (apply Z.pow_pos_nonneg; lia).
    nia. }
  destruct (binary_round_aux_upper false q0 E' l 40 6 0
              Hq0n ltac:(split; reflexivity) ltac:(lia) ltac:(lia)
              ltac:(lia) ltac:(lia))
    as [Hz|(mq & eq & Hr & Heq & Heq0 & Hmq)].
  - left. exact Hz.
  - right. exists mq, eq. split; [exact Hr|]. split; lia.
Qed.

(** The cells of the bar for a positive percent below 100. *)
Lemma filled_below_100 (m : positive) (e : Z) :
  Zpos m < 2 ^ 53 ->
  ltb (S754_finite false m e) (of_int 100) = true ->
  exists filled,
    (let! q := truediv (mul (of_int 40) (S754_finite false m e))
                 (of_int 100) in
     int_of_float q) = Py.Ok filled /\
    0 <= filled <= 40.
Proof.
  intros Hm Hlt. unfold truediv.
  change (is_zero (of_int 100)) with false. cbv iota. cbn [Py.bind].
  destruct (mul_40_upper m e Hm Hlt) as [->|(mr & er & -> & Her & Hmr)].
  - exists 0. split; [reflexivity|lia].
  - destruct (div_100_upper mr er Her Hmr) as [->|(mq & eq & -> & Heq & Hmq)].
    + exists 0. split; [reflexivity|lia].
    + unfold int_of_float.
      replace (0 <=? eq) with false by (symmetry; apply Z.leb_gt; lia).
      eexists. split; [reflexivity|].
      rewrite Z.shiftr_div_pow2 by lia.
      assert (Hp : 2 ^ 46 <= 2 ^ (- eq)) by (apply Z.pow_le_mono_r; lia).
      change (2 ^ 46) with 70368744177664 in Hp.
      split; [apply Z.div_pos; lia|].
      assert (Zpos mq / 2 ^ (- eq) < 41); [|lia].
      apply Z.div_lt_upper_bound; lia.
Qed.

End BarFacts.

Import FloatFacts BarFacts.

(** X11: the cells of the progress bar.  Whatever percent it is given, NaN
    and the infinities included, [create_progress_bar] computes a number of
    filled cells between 0 and 40, so that the number of empty cells,
    40 - filled, is never negative; a percent that is not below 100 (NaN is
    not) gives 40 filled cells, a percent below 100 that is not above 0
    gives none. *)
Theorem the_bar_has_forty_cells :
  (forall percent : float, representable percent ->
     exists filled,
       create_progress_bar_filled percent 40 = Py.Ok filled /\
       0 <= filled <= 40) /\
  (forall percent : float, ltb percent (of_int 100) = false ->
     create_progress_bar_filled percent 40 = Py.Ok 40) /\
  (forall percent : float,
     ltb percent (of_int 100) = true -> ltb (of_int 0) percent = false ->
     create_progress_bar_filled percent 40 = Py.Ok 0).
Proof.
  assert (Hfull : forall percent : float,
            ltb percent (of_int 100) = false ->
            create_progress_bar_filled percent 40 = Py.Ok 40).
  { intros percent H.
    unfold create_progress_bar_filled, create_progress_bar_percent, min.
    rewrite H. reflexivity. }
  assert (Hempty : forall percent : float,
            ltb percent (of_int 100) = true ->
            ltb (of_int 0) percent = false ->
            create_progress_bar_filled percent 40 = Py.Ok 0).
  { intros percent H H0.
    unfold create_progress_bar_filled, create_progress_bar_percent, min, max.
    rewrite H, H0. reflexivity. }
  split; [|split; assumption].
  intros percent Hrep.
  destruct (ltb percent (of_int 100)) eqn:H100;
    [|exists 40; split; [exact (Hfull _ H100)|lia]].
  destruct (ltb (of_int 0) percent) eqn:H0;
    [|exists 0; split; [exact (Hempty _ H100 H0)|lia]].
  destruct percent as [s0|s0| |s0 m e]; try discriminate.
  - destruct s0; discriminate.
  - destruct s0; [discriminate|].
    destruct Hrep as [Hn|(s & Hr)]; [discriminate|].
    simpl in Hr. destruct Hr as (_ & Hm & _).
    unfold create_progress_bar_filled, create_progress_bar_percent, min, max.
    rewrite H100, H0.
    exact (filled_below_100 m e Hm H100).
Qed.

Lemma the_bar_has_forty_cells_witness :
  representable (of_int 50) /\
  (exists filled,
     create_progress_bar_filled (of_int 50) 40 = Py.Ok filled /\
     0 <= filled <= 40) /\
  create_progress_bar_filled nan 40 = Py.Ok 40 /\
  create_progress_bar_filled (of_scaled true 5 0) 40 = Py.Ok 0.
Proof.
  assert (Hrep : representable (of_int 50)).
  { right. exists false. vm_compute. repeat split; discriminate. }
  split; [exact Hrep|].
  split; [exact (proj1 the_bar_has_forty_cells (of_int 50) Hrep)|].
  split.
  - apply (proj1 (proj2 the_bar_has_forty_cells)). reflexivity.
  - apply (proj2 (proj2 the_bar_has_forty_cells)); reflexivity.
Defined.

(** * Further properties: the batch *)

Module BatchFacts.
Import OrchestratorFacts OutcomeMore.




End BatchFacts.

Import BatchFacts.



(** * Further properties: the names of the files *)

Module FoundFacts.
Import TextMore PathMore ListingFacts.

Lemma lower_length (s : string) : String.length (lower s) = String.length s.
Proof. induction s as [|c s IH]; [reflexivity|]. cbn. now rewrite IH. Qed.

Lemma stem_of_suffixed (name : string) :
  suffix name <> "" -> stem name <> "".
Proof.
  unfold suffix, stem. destruct (rfind "." name) as [i|]; [|contradiction].
  destruct (Nat.ltb 0 i && _)%bool eqn:Hc; [|contradiction].
  apply andb_true_iff in Hc as [H0 H1].
  apply Nat.ltb_lt in H0. apply Nat.ltb_lt in H1.
  intros _ He. apply (f_equal String.length) in He.
  rewrite substring_prefix_length in He by lia. cbn in He. lia.
Qed.

Lemma is_avi_name (f : DirEntry) :
  is_avi f = true ->
  is_file f = true /\ stem (name f) <> "" /\
  String.length (suffix (name f)) = 4%nat /\
  (5 <= String.length (name f))%nat.
Proof.
  unfold is_avi. intros H. apply andb_true_iff in H as [Hf Hs].
  apply String.eqb_eq in Hs.
  assert (Hl : String.length (suffix (name f)) = 4%nat).
  { rewrite <- lower_length, Hs. reflexivity. }
  assert (Hne : suffix (name f) <> "").
  { intros He. rewrite He in Hl. discriminate. }
  pose proof (stem_of_suffixed _ Hne) as Hst.
  split; [exact Hf|]. split; [exact Hst|]. split; [exact Hl|].
  rewrite <- (stem_suffix (name f)), length_append, Hl.
  destruct (stem (name f)); [contradiction|cbn; lia].
Qed.

End FoundFacts.

Import TextMore PathMore ListingFacts FoundFacts.

(** X12: the names that [find_avi_files] returns.  Every returned entry is a
    regular file whose name is a stem that is not empty followed by an
    extension of four characters; a name that is an extension and nothing
    else, a name that ends with a dot and a directory are left out. *)
Theorem found_files_have_a_stem :
  (forall (listing : list DirEntry) (f : DirEntry),
     List.In f (find_avi_files listing) ->
     is_file f = true /\ stem (name f) <> "" /\
     String.length (suffix (name f)) = 4%nat /\
     name f = (stem (name f) ++ suffix (name f))%string /\
     (5 <= String.length (name f))%nat) /\
  find_avi_files
    [mkDirEntry ".avi" true; mkDirEntry "clip.avi." true;
     mkDirEntry "dir.avi" false; mkDirEntry "avi" true;
     mkDirEntry "c.AvI" true]
  = [mkDirEntry "c.AvI" true].
Proof.
  split; [|reflexivity].
  intros listing f Hin. unfold find_avi_files in Hin.
  apply (Permutation_in _ (sort_by_name_perm _)) in Hin.
  apply List.filter_In in Hin as [_ Ha].
  destruct (is_avi_name f Ha) as (H1 & H2 & H3 & H4).
  repeat split; try assumption. symmetry. apply stem_suffix.
Qed.

Lemma found_files_have_a_stem_witness :
  stem "c.AvI" <> "" /\ String.length (suffix "c.AvI") = 4%nat.
Proof.
  destruct (proj1 found_files_have_a_stem
              [mkDirEntry ".avi" true; mkDirEntry "c.AvI" true]
              (mkDirEntry "c.AvI" true) ltac:(left; reflexivity))
    as (_ & H2 & H3 & _).
  split; [exact H2|exact H3].
Defined.
